(** * OpenDelta [auto_delta.py]: the lazy registries and the two factories

    A shallow embedding of [opendelta/auto_delta.py]: the lazy config
    registry [_LazyConfigMapping], the lazy model registry
    [_LazyAutoMapping], [getattribute_from_module], and the factories
    [AutoDeltaConfig] and [AutoDeltaModel].

    Python state is threaded explicitly.  The interpreter's import system
    ([importlib.import_module] with its [sys.modules] cache) is part of the
    state; the concrete delta classes, the artifact loader and the
    [transformers] package are collaborators outside the file and are
    gathered in an environment record [Env]. *)

From Stdlib Require Import ZArith String List Bool Lia.
From stdpp Require Import base gmap strings list.

Set Warnings "-register-all".

(** ** Python values *)

(** What a class derives from, as far as [isinstance(_, BaseDeltaConfig)]
    is concerned. *)
Inductive ClassKind := DeltaConfigKind | DeltaModelKind | OtherKind.

(** A class object.  [cls_id] is the object's identity: every execution of
    a module body creates class objects with fresh identities. *)
Record PyClass := {
  cls_id : nat;
  cls_module : string;
  cls_name : string;          (* [__name__] *)
  cls_kind : ClassKind
}.

#[global] Instance ClassKind_eq_dec : EqDecision ClassKind.
Proof. solve_decision. Defined.

#[global] Instance PyClass_eq_dec : EqDecision PyClass.
Proof. solve_decision. Defined.

Inductive PyVal :=
| VNone
| VBool (b : bool)
| VInt (z : Z)
| VStr (s : string)
| VList (l : list PyVal)
| VTuple (l : list PyVal)
| VDict (d : gmap string PyVal)
| VClass (c : PyClass)
| VInst (c : PyClass) (fields : gmap string PyVal).

(** [type(v)] for instances of user classes. *)
Definition type_of (v : PyVal) : option PyClass :=
  match v with
  | VInst c _ => Some c
  | _ => None
  end.

(** [v is None] *)
Definition is_None (v : PyVal) : bool :=
  match v with
  | VNone => true
  | _ => false
  end.

(** Lists and dicts cannot be used as dictionary keys. *)
Fixpoint hashable (v : PyVal) : bool :=
  match v with
  | VList _ | VDict _ => false
  | VTuple l => forallb hashable l
  | _ => true
  end.

(** [isinstance(v, BaseDeltaConfig)] *)
Definition isinstance_BaseDeltaConfig (v : PyVal) : bool :=
  match v with
  | VInst c _ => bool_decide (cls_kind c = DeltaConfigKind)
  | _ => false
  end.

(** [repr] of a class, as an f-string prints it. *)
Definition class_repr (c : PyClass) : string :=
  "<class '" +:+ cls_module c +:+ "." +:+ cls_name c +:+ "'>".

(** ** Exceptions and outcomes *)

Inductive PyErr :=
| KeyError (key : PyVal)
| ValueError (msg : string)
| RuntimeError (msg : string)
| EnvironmentError (msg : string)
| AttributeError (msg : string)
| TypeError (msg : string)
| ModuleNotFoundError (name : string)
| ExternalError (msg : string).

(** The outcome of running a piece of code: a value, a raised exception, or
    [OutOfFuel] when the recursion budget given to the run did not suffice. *)
Inductive Out (A : Type) :=
| Ret (a : A)
| Raise (e : PyErr)
| OutOfFuel.
Arguments Ret {A} a.
Arguments Raise {A} e.
Arguments OutOfFuel {A}.

(** State and exceptions: the state survives a raise, as the mutations a
    Python function made before raising do. *)
Definition M (S A : Type) : Type := S -> Out A * S.

Definition ret {S A} (a : A) : M S A := fun s => (Ret a, s).
Definition raise {S A} (e : PyErr) : M S A := fun s => (Raise e, s).
Definition out_of_fuel {S A} : M S A := fun s => (OutOfFuel, s).
Definition bind {S A B} (m : M S A) (k : A -> M S B) : M S B :=
  fun s =>
    match m s with
    | (Ret a, s') => k a s'
    | (Raise e, s') => (Raise e, s')
    | (OutOfFuel, s') => (OutOfFuel, s')
    end.
Definition get {S} : M S S := fun s => (Ret s, s).
Definition put {S} (s : S) : M S unit := fun _ => (Ret tt, s).
Definition modify {S} (f : S -> S) : M S unit := fun s => (Ret tt, f s).
Definition lift_out {S A} (o : Out A) : M S A := fun s => (o, s).

Notation "'let*' x := m 'in' k" := (bind m (fun x => k))
  (at level 10, x name, m at level 100, k at level 200).
Notation "'let*' ' pat := m 'in' k" :=
  (bind m (fun x => match x with pat => k end))
  (at level 10, pat pattern, m at level 100, k at level 200).
Notation "m ;; k" := (bind m (fun _ => k))
  (at level 100, k at level 200, right associativity).

(** A list comprehension whose element expression has effects. *)
Fixpoint mapM {S A B} (f : A -> M S B) (l : list A) : M S (list B) :=
  match l with
  | [] => ret []
  | a :: r => let* b := f a in let* bs := mapM f r in ret (b :: bs)
  end.

(** Run a computation on one component of a larger state. *)
Definition zoom {S T A} (proj : S -> T) (upd : T -> S -> S) (m : M T A) : M S A :=
  fun s => let '(o, t) := m (proj s) in (o, upd t s).

(** ** Insertion-ordered dictionaries

    A Python [dict] whose iteration order matters is an association list
    with distinct keys in insertion order. *)
Section OrderedDict.
Context {K V : Type} `{EqDecision K}.

Fixpoint dict_get (d : list (K * V)) (k : K) : option V :=
  match d with
  | [] => None
  | (k', v) :: r => if decide (k' = k) then Some v else dict_get r k
  end.

Definition dict_mem (d : list (K * V)) (k : K) : bool :=
  match dict_get d k with Some _ => true | None => false end.

(** [d[k] = v]: an existing key keeps its position, a new key goes last. *)
Fixpoint dict_set (d : list (K * V)) (k : K) (v : V) : list (K * V) :=
  match d with
  | [] => [(k, v)]
  | (k', v') :: r =>
      if decide (k' = k) then (k, v) :: r else (k', v') :: dict_set r k v
  end.

Definition dict_keys (d : list (K * V)) : list K := map fst d.
Definition dict_values (d : list (K * V)) : list V := map snd d.
End OrderedDict.

(** ** Strings *)

(** [pat in s] on Python strings. *)
Fixpoint str_contains (pat s : string) : bool :=
  String.prefix pat s ||
  match s with
  | EmptyString => false
  | String _ s' => str_contains pat s'
  end.

(** [sep.join(l)] *)
Definition join (sep : string) (l : list string) : string := String.concat sep l.

(** ** The import system *)

Abbreviation Dict := (gmap string PyVal).

(** A loaded module: its name in [sys.modules] and its namespace. *)
Record ModuleObj := {
  mod_name : string;
  mod_attrs : list (string * PyClass)
}.

(** A top-level binding [def_attr = <class def_name>] in a module's source. *)
Record ClassDef := {
  def_attr : string;
  def_name : string;
  def_kind : ClassKind
}.

(** The interpreter state that imports read and write.  [import_calls]
    records every call of [importlib.import_module], [executed] every module
    body that was run; both oldest first. *)
Record Interp := {
  sys_modules : list (string * ModuleObj);
  next_id : nat;
  import_calls : list string;
  executed : list string
}.

(** Calls handed to collaborators outside [auto_delta.py]. *)
Inductive ExtCall :=
| Call_get_config_dict (location : string) (kwargs : Dict)
| Call_config_from_dict (cls : PyClass) (config_dict kwargs : Dict)
| Call_model_from_config (cls : PyClass) (config backbone : PyVal) (kwargs : Dict)
| Call_model_from_finetuned (cls : PyClass) (location : string)
    (backbone : PyVal) (model_args : list PyVal) (kwargs : Dict).

(** The collaborators: the packages installed on disk, the artifact loader
    [BaseDeltaConfig.get_config_dict], and the class methods [from_dict],
    [from_config] and [from_finetuned] of the concrete delta classes. *)
Record Env := {
  installed : string -> option (list ClassDef);
  get_config_dict : string -> Dict -> Out (Dict * Dict);
  class_from_dict : PyClass -> Dict -> Dict -> Out PyVal;
  class_from_config : PyClass -> PyVal -> PyVal -> Dict -> Out PyVal;
  class_from_finetuned :
    PyClass -> string -> PyVal -> list PyVal -> Dict -> Out PyVal
}.

(** Running a module body binds each class to a fresh object. *)
Definition exec_module (name : string) (defs : list ClassDef) (n : nat)
  : ModuleObj :=
  {| mod_name := name;
     mod_attrs :=
       imap (fun i d =>
               (def_attr d,
                {| cls_id := n + i; cls_module := name;
                   cls_name := def_name d; cls_kind := def_kind d |})) defs |}.

(** A relative name is resolved against the package. *)
Definition resolve_name (name package : string) : string :=
  if String.prefix "." name then package +:+ name else name.

Definition log_import (full : string) (st : Interp) : Interp :=
  {| sys_modules := sys_modules st; next_id := next_id st;
     import_calls := import_calls st ++ [full]; executed := executed st |}.

Definition load_module (full : string) (defs : list ClassDef) (st : Interp)
  : Interp :=
  {| sys_modules := dict_set (sys_modules st) full
                      (exec_module full defs (next_id st));
     next_id := next_id st + length defs;
     import_calls := import_calls st;
     executed := executed st ++ [full] |}.

(** [importlib.import_module(name, package)]: a module already in
    [sys.modules] is returned as it is, otherwise its body is executed and
    the new module is entered in [sys.modules]. *)
Definition import_module (env : Env) (name package : string)
  : M Interp ModuleObj :=
  let full := resolve_name name package in
  modify (log_import full) ;;
  let* st := get in
  match dict_get (sys_modules st) full with
  | Some m => ret m
  | None =>
      match installed env full with
      | Some defs =>
          modify (load_module full defs) ;;
          ret (exec_module full defs (next_id st))
      | None => raise (ModuleNotFoundError full)
      end
  end.

Definition hasattr (m : ModuleObj) (attr : string) : bool :=
  dict_mem (mod_attrs m) attr.

Definition getattr {S} (m : ModuleObj) (attr : string) : M S PyClass :=
  match dict_get (mod_attrs m) attr with
  | Some c => ret c
  | None =>
      raise (AttributeError
               ("module '" +:+ mod_name m +:+ "' has no attribute '"
                +:+ attr +:+ "'"))
  end.

(** ** The static tables *)

Definition DELTA_CONFIG_MAPPING : list (string * string) :=
  [ ("lora", "LoraConfig");
    ("low_rank_adapter", "LowRankAdapterConfig");
    ("bitfit", "BitFitConfig");
    ("adapter", "AdapterConfig");
    ("compacter", "CompacterConfig");
    ("prefix", "PrefixConfig");
    ("soft_prompt", "SoftPromptConfig") ].

Definition DELTA_MODEL_MAPPING : list (string * string) :=
  [ ("lora", "LoraModel");
    ("low_rank_adapter", "LowRankAdapterModel");
    ("bitfit", "BitFitModel");
    ("adapter", "AdapterModel");
    ("compacter", "CompacterModel");
    ("prefix", "PrefixModel");
    ("soft_prompt", "SoftPromptModel") ].

(** ** [_LazyConfigMapping] *)

Module _LazyConfigMapping.

Record t := {
  _mapping : list (string * string);
  _extra_content : list (string * PyClass);
  _modules : list (string * ModuleObj)
}.

(** The state a method runs in: the object itself and the interpreter. *)
Abbreviation St := (t * Interp)%type.

Definition on_interp {A} (m : M Interp A) : M St A :=
  zoom snd (fun i s => (fst s, i)) m.

Definition __init__ (mapping : list (string * string)) : t :=
  {| _mapping := mapping; _extra_content := []; _modules := [] |}.

Definition set_module (module_name : string) (m : ModuleObj) (s : St) : St :=
  ({| _mapping := _mapping (fst s);
      _extra_content := _extra_content (fst s);
      _modules := dict_set (_modules (fst s)) module_name m |}, snd s).

Definition set_extra (key : string) (value : PyClass) (s : St) : St :=
  ({| _mapping := _mapping (fst s);
      _extra_content := dict_set (_extra_content (fst s)) key value;
      _modules := _modules (fst s) |}, snd s).

Section Methods.
Context (env : Env).

(** [self[key]] for a string key.  The membership test on [_modules]
    before the import is commented out in the source, so the import
    is requested on every lookup of a static key. *)
Definition getitem_str (key : string) : M St PyClass :=
  let* s := get in
  match dict_get (_extra_content (fst s)) key with
  | Some v => ret v
  | None =>
      match dict_get (_mapping (fst s)) key with
      | None => raise (KeyError (VStr key))
      | Some value =>
          let module_name := key in
          let* m := on_interp (import_module env ("." +:+ module_name)
                                 "opendelta.delta_models") in
          modify (set_module module_name m) ;;
          getattr m value
      end
  end.

(** [self[key]] for any value used as key: the keys of both tables are
    strings, so another hashable value is in neither. *)
Definition __getitem__ (key : PyVal) : M St PyClass :=
  if hashable key then
    match key with
    | VStr k => getitem_str k
    | _ => raise (KeyError key)
    end
  else raise (TypeError "unhashable type").

Definition keys : M St (list string) :=
  let* s := get in
  ret (dict_keys (_mapping (fst s)) ++ dict_keys (_extra_content (fst s))).

Definition values : M St (list PyClass) :=
  let* s := get in
  let* vs := mapM (fun k => __getitem__ (VStr k))
               (dict_keys (_mapping (fst s))) in
  let* s' := get in
  ret (vs ++ dict_values (_extra_content (fst s'))).

Definition items : M St (list (string * PyClass)) :=
  let* s := get in
  let* kvs := mapM (fun k => let* v := __getitem__ (VStr k) in ret (k, v))
                (dict_keys (_mapping (fst s))) in
  let* s' := get in
  ret (kvs ++ _extra_content (fst s')).

Definition __iter__ : M St (list string) :=
  let* s := get in
  ret (dict_keys (_mapping (fst s)) ++ dict_keys (_extra_content (fst s))).

Definition __contains__ (item : string) : M St bool :=
  let* s := get in
  ret (dict_mem (_mapping (fst s)) item
       || dict_mem (_extra_content (fst s)) item).

Definition register (key : string) (value : PyClass) : M St unit :=
  let* s := get in
  if bool_decide (key ∈ dict_keys (_mapping (fst s))) then
    raise (ValueError
             ("'" +:+ key +:+
              "' is already used by a Transformers config, pick another name."))
  else modify (set_extra key value).
End Methods.
End _LazyConfigMapping.

(** ** [getattribute_from_module] *)

(** An attribute designator: [None], a name, or a tuple of designators. *)
Inductive Attr :=
| ANone
| AName (name : string)
| ATuple (names : list Attr).

(** What the resolution of a designator yields. *)
Inductive AttrVal :=
| RNone
| RObj (c : PyClass)
| RTuple (vs : list AttrVal).

(** [fuel] bounds the depth of the recursion; the source has no bound of
    its own. *)
Fixpoint getattribute_from_module (env : Env) (fuel : nat)
    (module : ModuleObj) (attr : Attr) : M Interp AttrVal :=
  match fuel with
  | O => out_of_fuel
  | S fuel' =>
      match attr with
      | ANone => ret RNone
      | ATuple names =>
          let* vs := mapM (getattribute_from_module env fuel' module) names in
          ret (RTuple vs)
      | AName name =>
          if hasattr module name then
            let* c := getattr module name in ret (RObj c)
          else
            let* transformers_module := import_module env "transformers" "" in
            getattribute_from_module env fuel' transformers_module attr
      end
  end.

(** [x == c] for a class [c]: a class equals only itself. *)
Definition is_class (c : PyClass) (x : AttrVal) : bool :=
  match x with
  | RObj c' => bool_decide (c' = c)
  | _ => false
  end.

(** [x.__name__] *)
Definition name_of {S} (x : AttrVal) : M S string :=
  match x with
  | RObj c => ret (cls_name c)
  | RNone =>
      raise (AttributeError "'NoneType' object has no attribute '__name__'")
  | RTuple _ =>
      raise (AttributeError "'tuple' object has no attribute '__name__'")
  end.

(** ** [_LazyAutoMapping] *)

Module _LazyAutoMapping.

Record t := {
  _config_mapping : list (string * string);
  _reverse_config_mapping : list (string * string);
  _model_mapping : list (string * string);
  _extra_content : list (PyClass * PyClass);
  _modules : list (string * ModuleObj)
}.

Abbreviation St := (t * Interp)%type.

Definition on_interp {A} (m : M Interp A) : M St A :=
  zoom snd (fun i s => (fst s, i)) m.

(** [{v: k for k, v in config_mapping.items()}] *)
Definition reverse_mapping (config_mapping : list (string * string))
  : list (string * string) :=
  fold_left (fun d kv => dict_set d (snd kv) (fst kv)) config_mapping [].

Definition __init__ (config_mapping model_mapping : list (string * string)) : t :=
  {| _config_mapping := config_mapping;
     _reverse_config_mapping := reverse_mapping config_mapping;
     _model_mapping := model_mapping;
     _extra_content := [];
     _modules := [] |}.

Definition set_module (model_type : string) (m : ModuleObj) (s : St) : St :=
  ({| _config_mapping := _config_mapping (fst s);
      _reverse_config_mapping := _reverse_config_mapping (fst s);
      _model_mapping := _model_mapping (fst s);
      _extra_content := _extra_content (fst s);
      _modules := dict_set (_modules (fst s)) model_type m |}, snd s).

Definition set_extra (key value : PyClass) (s : St) : St :=
  ({| _config_mapping := _config_mapping (fst s);
      _reverse_config_mapping := _reverse_config_mapping (fst s);
      _model_mapping := _model_mapping (fst s);
      _extra_content := dict_set (_extra_content (fst s)) key value;
      _modules := _modules (fst s) |}, snd s).

Section Methods.
Context (env : Env) (fuel : nat).

Definition _load_attr_from_module (model_type : string) (attr : string)
  : M St AttrVal :=
  let* s := get in
  let* m :=
    match dict_get (_modules (fst s)) model_type with
    | Some m => ret m
    | None =>
        let* m := on_interp (import_module env ("." +:+ model_type)
                               "opendelta.delta_models") in
        modify (set_module model_type m) ;;
        ret m
    end in
  on_interp (getattribute_from_module env fuel m (AName attr)).

Definition __getitem__ (key : PyClass) : M St AttrVal :=
  let* s := get in
  match dict_get (_extra_content (fst s)) key with
  | Some v => ret (RObj v)
  | None =>
      match dict_get (_reverse_config_mapping (fst s)) (cls_name key) with
      | None => raise (KeyError (VStr (cls_name key)))
      | Some model_type =>
          match dict_get (_model_mapping (fst s)) model_type with
          | None => raise (KeyError (VClass key))
          | Some model_name => _load_attr_from_module model_type model_name
          end
      end
  end.

Definition keys : M St (list AttrVal) :=
  let* s := get in
  let* mapping_keys :=
    mapM (fun kn => _load_attr_from_module (fst kn) (snd kn))
      (filter (fun kn => fst kn ∈ dict_keys (_model_mapping (fst s)))
         (_config_mapping (fst s))) in
  let* s' := get in
  ret (mapping_keys ++ map RObj (dict_keys (_extra_content (fst s')))).

Definition __contains__ (item : PyClass) : M St bool :=
  let* s := get in
  if dict_mem (_extra_content (fst s)) item then ret true
  else
    match dict_get (_reverse_config_mapping (fst s)) (cls_name item) with
    | None => ret false
    | Some model_type => ret (dict_mem (_model_mapping (fst s)) model_type)
    end.

Definition register (key value : PyClass) : M St unit :=
  let* s := get in
  match dict_get (_reverse_config_mapping (fst s)) (cls_name key) with
  | Some model_type =>
      if bool_decide (model_type ∈ dict_keys (_model_mapping (fst s))) then
        raise (ValueError
                 ("'" +:+ class_repr key +:+
                  "' is already used by a Transformers model."))
      else modify (set_extra key value)
  | None => modify (set_extra key value)
  end.
End Methods.
End _LazyAutoMapping.

(** ** [_LazyAutoMapping]: the remaining methods, and [get_values] *)

Module _LazyAutoMapping_views.

Abbreviation St := (_LazyAutoMapping.t * Interp)%type.

Section Methods.
Context (env : Env) (fuel : nat).

Definition __bool__ : M St bool :=
  let* ks := _LazyAutoMapping.keys env fuel in
  ret (match ks with [] => false | _ :: _ => true end).

Definition values : M St (list AttrVal) :=
  let* s := get in
  let* mapping_values :=
    mapM (fun kn => _LazyAutoMapping._load_attr_from_module env fuel
                      (fst kn) (snd kn))
      (filter (fun kn => fst kn ∈ dict_keys
                           (_LazyAutoMapping._config_mapping (fst s)))
         (_LazyAutoMapping._model_mapping (fst s))) in
  let* s' := get in
  ret (mapping_values
       ++ map RObj (dict_values (_LazyAutoMapping._extra_content (fst s')))).

(** [d[key]] on one of the name tables. *)
Definition table_get (d : list (string * string)) (key : string)
  : M St string :=
  match dict_get d key with
  | Some v => ret v
  | None => raise (KeyError (VStr key))
  end.

Definition items : M St (list (AttrVal * AttrVal)) :=
  let* s := get in
  let* mapping_items :=
    mapM (fun key =>
            let* config_name :=
              table_get (_LazyAutoMapping._config_mapping (fst s)) key in
            let* c := _LazyAutoMapping._load_attr_from_module env fuel
                        key config_name in
            let* model_name :=
              table_get (_LazyAutoMapping._model_mapping (fst s)) key in
            let* m := _LazyAutoMapping._load_attr_from_module env fuel
                        key model_name in
            ret (c, m))
      (filter (fun key => key ∈ dict_keys
                            (_LazyAutoMapping._config_mapping (fst s)))
         (dict_keys (_LazyAutoMapping._model_mapping (fst s)))) in
  let* s' := get in
  ret (mapping_items
       ++ map (fun kv => (RObj (fst kv), RObj (snd kv)))
            (_LazyAutoMapping._extra_content (fst s'))).

Definition __iter__ : M St (list AttrVal) := _LazyAutoMapping.keys env fuel.

(** [try: return self.__getitem__(key) except KeyError: return default] *)
Definition get (key : PyClass) (default : AttrVal) : M St AttrVal :=
  fun s =>
    match _LazyAutoMapping.__getitem__ env fuel key s with
    | (Raise (KeyError _), s') => (Ret default, s')
    | r => r
    end.
End Methods.
End _LazyAutoMapping_views.

(** The loop of [get_values]: a tuple contributes its elements, anything
    else itself. *)
Definition get_values_loop (values : list AttrVal) : list AttrVal :=
  fold_left (fun result model =>
               match model with
               | RTuple l => result ++ l
               | _ => result ++ [model]
               end) values [].

Definition get_values (env : Env) (fuel : nat)
  : M (_LazyAutoMapping.t * Interp) (list AttrVal) :=
  let* values := _LazyAutoMapping_views.values env fuel in
  ret (get_values_loop values).

(** ** The process state

    The two module-level registries, the interpreter, the mappings that
    callers hold by reference, and the log of calls made to collaborators. *)
Record World := {
  LAZY_CONFIG_MAPPING : _LazyConfigMapping.t;
  LAZY_DELTA_MAPPING : _LazyAutoMapping.t;
  interp : Interp;
  heap : list Dict;
  ext_calls : list ExtCall
}.

Definition init_interp : Interp :=
  {| sys_modules := []; next_id := 0; import_calls := []; executed := [] |}.

(** The state right after [auto_delta.py] has been imported. *)
Definition init_world : World :=
  {| LAZY_CONFIG_MAPPING := _LazyConfigMapping.__init__ DELTA_CONFIG_MAPPING;
     LAZY_DELTA_MAPPING :=
       _LazyAutoMapping.__init__ DELTA_CONFIG_MAPPING DELTA_MODEL_MAPPING;
     interp := init_interp;
     heap := [];
     ext_calls := [] |}.

Definition on_config_mapping {A} (m : M (_LazyConfigMapping.t * Interp) A)
  : M World A :=
  zoom (fun w => (LAZY_CONFIG_MAPPING w, interp w))
       (fun s w => {| LAZY_CONFIG_MAPPING := fst s;
                      LAZY_DELTA_MAPPING := LAZY_DELTA_MAPPING w;
                      interp := snd s; heap := heap w;
                      ext_calls := ext_calls w |}) m.

Definition on_delta_mapping {A} (m : M (_LazyAutoMapping.t * Interp) A)
  : M World A :=
  zoom (fun w => (LAZY_DELTA_MAPPING w, interp w))
       (fun s w => {| LAZY_CONFIG_MAPPING := LAZY_CONFIG_MAPPING w;
                      LAZY_DELTA_MAPPING := fst s;
                      interp := snd s; heap := heap w;
                      ext_calls := ext_calls w |}) m.

Definition set_heap (h : list Dict) (w : World) : World :=
  {| LAZY_CONFIG_MAPPING := LAZY_CONFIG_MAPPING w;
     LAZY_DELTA_MAPPING := LAZY_DELTA_MAPPING w;
     interp := interp w; heap := h; ext_calls := ext_calls w |}.

Definition log_call (c : ExtCall) (w : World) : World :=
  {| LAZY_CONFIG_MAPPING := LAZY_CONFIG_MAPPING w;
     LAZY_DELTA_MAPPING := LAZY_DELTA_MAPPING w;
     interp := interp w; heap := heap w;
     ext_calls := ext_calls w ++ [c] |}.

(** A reference to a mapping is an index into [heap]. *)
Definition deref (l : nat) : M World Dict :=
  let* w := get in
  match heap w !! l with
  | Some d => ret d
  | None => raise (TypeError "not a mapping")
  end.

(** [deepcopy(config_dict)]: a new object with equal contents. *)
Definition deepcopy (l : nat) : M World nat :=
  let* d := deref l in
  let* w := get in
  modify (set_heap (heap w ++ [d])) ;;
  ret (length (heap w)).

(** [d.pop(key, default)] on the mapping at [l]. *)
Definition dict_pop (l : nat) (key : string) (default : PyVal) : M World PyVal :=
  let* d := deref l in
  match d !! key with
  | Some v =>
      let* w := get in
      modify (set_heap (<[l := delete key d]> (heap w))) ;;
      ret v
  | None => ret default
  end.

Definition call_get_config_dict (env : Env) (location : string) (kwargs : Dict)
  : M World (Dict * Dict) :=
  modify (log_call (Call_get_config_dict location kwargs)) ;;
  lift_out (get_config_dict env location kwargs).

(** [config_class.from_dict(config_dict, **kwargs)] *)
Definition call_from_dict (env : Env) (config_class : PyClass)
    (config_dict kwargs : Dict) : M World PyVal :=
  modify (log_call (Call_config_from_dict config_class config_dict kwargs)) ;;
  lift_out (class_from_dict env config_class config_dict kwargs).

Definition call_from_config (env : Env) (model_class : PyClass)
    (config backbone_model : PyVal) (kwargs : Dict) : M World PyVal :=
  modify (log_call
            (Call_model_from_config model_class config backbone_model kwargs)) ;;
  lift_out (class_from_config env model_class config backbone_model kwargs).

Definition call_from_finetuned (env : Env) (model_class : PyClass)
    (location : string) (backbone_model : PyVal) (model_args : list PyVal)
    (kwargs : Dict) : M World PyVal :=
  modify (log_call
            (Call_model_from_finetuned model_class location backbone_model
               model_args kwargs)) ;;
  lift_out (class_from_finetuned env model_class location backbone_model
              model_args kwargs).

(** ** [AutoDeltaConfig] *)

Module AutoDeltaConfig.

(** [def __init__(self)]: the signature takes no argument besides [self],
    so a call with arguments is rejected before the body runs. *)
Definition __init__ (args : list PyVal) (kwargs : Dict) : M World PyVal :=
  match args with
  | [] =>
      if bool_decide (kwargs = ∅) then
        raise (EnvironmentError
                 ("AutoConfig is designed to be instantiated " +:+
                  "using the `AutoConfig.from_pretrained(pretrained_model_name_or_path)` method."))
      else raise (TypeError "__init__() got an unexpected keyword argument")
  | _ :: _ =>
      raise (TypeError "__init__() takes 1 positional argument but more were given")
  end.

Section Methods.
Context (env : Env).

Definition from_dict (config_dict : nat) (kwargs : Dict) : M World PyVal :=
  let* config_dict := deepcopy config_dict in
  let* delta_type := dict_pop config_dict "delta_type" VNone in
  if is_None delta_type then
    raise (RuntimeError
             "Do not specify a delta type, cannot load the default config")
  else
    let* config_class :=
      on_config_mapping (_LazyConfigMapping.__getitem__ env delta_type) in
    let* fields := deref config_dict in
    call_from_dict env config_class fields kwargs.

(** The [for pattern, config_class in ....items()] loop with its [return]. *)
Fixpoint match_pattern (location : string) (items : list (string * PyClass))
  : option PyClass :=
  match items with
  | [] => None
  | (pattern, config_class) :: rest =>
      if str_contains pattern location then Some config_class
      else match_pattern location rest
  end.

Definition unrecognized_model (location : string) (known : list string)
  : string :=
  "Unrecognized model in " +:+ location +:+ ". " +:+
  "Should have a `delta_type` key in the loaded config, or contain one of the following strings " +:+
  "in its name: " +:+ join ", " known.

Definition from_finetuned (finetuned_model_name_or_path : string)
    (kwargs : Dict) : M World PyVal :=
  let kwargs := <["name_or_path" := VStr finetuned_model_name_or_path]> kwargs in
  let* '(config_dict, _) :=
    call_get_config_dict env finetuned_model_name_or_path kwargs in
  match config_dict !! "delta_type" with
  | Some delta_type =>
      let* config_class :=
        on_config_mapping (_LazyConfigMapping.__getitem__ env delta_type) in
      call_from_dict env config_class config_dict kwargs
  | None =>
      let* items := on_config_mapping (_LazyConfigMapping.items env) in
      match match_pattern finetuned_model_name_or_path items with
      | Some config_class => call_from_dict env config_class config_dict kwargs
      | None =>
          let* known := on_config_mapping _LazyConfigMapping.keys in
          raise (ValueError
                   (unrecognized_model finetuned_model_name_or_path known))
      end
  end.
End Methods.
End AutoDeltaConfig.

(** ** [AutoDeltaModel] *)

Module AutoDeltaModel.

Definition __name__ : string := "AutoDeltaModel".

(** The registries reachable as class attributes. *)
Inductive MappingRef := DeltaMappingRef.

(** The class body binds exactly one registry attribute. *)
Definition class_namespace : list (string * MappingRef) :=
  [ ("_delta_model_mapping", DeltaMappingRef) ].

(** [cls.<name>] *)
Definition cls_getattr (name : string) : M World MappingRef :=
  match dict_get class_namespace name with
  | Some r => ret r
  | None =>
      raise (AttributeError
               ("type object '" +:+ __name__ +:+ "' has no attribute '"
                +:+ name +:+ "'"))
  end.

(** [def __init__(self, *args, **kwargs)] *)
Definition __init__ (args : list PyVal) (kwargs : Dict) : M World PyVal :=
  raise (EnvironmentError
           (__name__ +:+ " is designed to be instantiated " +:+
            "using the `" +:+ __name__ +:+
            ".from_pretrained(pretrained_model_name_or_path)` or " +:+
            "`" +:+ __name__ +:+ ".from_config(config)` methods.")).

(** [config.__class__] as an f-string prints it. *)
Definition config_class_repr (config : PyVal) : string :=
  match config with
  | VInst c _ => class_repr c
  | VNone => "<class 'NoneType'>"
  | VBool _ => "<class 'bool'>"
  | VInt _ => "<class 'int'>"
  | VStr _ => "<class 'str'>"
  | VList _ => "<class 'list'>"
  | VTuple _ => "<class 'tuple'>"
  | VDict _ => "<class 'dict'>"
  | VClass _ => "<class 'type'>"
  end.

(** [type(config) in keys]: a builtin type is never among the keys. *)
Definition type_in (config : PyVal) (keys : list AttrVal) : bool :=
  match type_of config with
  | Some c => existsb (is_class c) keys
  | None => false
  end.

Definition newline : string := String (Ascii.ascii_of_nat 10) EmptyString.

Definition unrecognized_config (config : PyVal) (names : list string) : string :=
  "Unrecognized configuration class " +:+ config_class_repr config +:+
  " for this kind of AutoModel: " +:+ __name__ +:+ "." +:+ newline +:+
  "Model type should be one of " +:+ join ", " names +:+ ".".

Section Methods.
Context (env : Env) (fuel : nat).

Definition mapping_keys (r : MappingRef) : M World (list AttrVal) :=
  match r with
  | DeltaMappingRef => on_delta_mapping (_LazyAutoMapping.keys env fuel)
  end.

Definition mapping_getitem (r : MappingRef) (key : PyClass) : M World AttrVal :=
  match r with
  | DeltaMappingRef =>
      on_delta_mapping (_LazyAutoMapping.__getitem__ env fuel key)
  end.

(** [cls._delta_model_mapping[type(config)]], reached only when
    [type(config)] is among the keys. *)
Definition model_class_for (config : PyVal) : M World PyClass :=
  match type_of config with
  | Some c =>
      let* r := cls_getattr "_delta_model_mapping" in
      let* v := mapping_getitem r c in
      match v with
      | RObj model_class => ret model_class
      | _ => raise (AttributeError "object has no attribute 'from_config'")
      end
  | None => raise (KeyError VNone)
  end.

Definition from_config (config backbone_model : PyVal) (kwargs : Dict)
  : M World PyVal :=
  let* r := cls_getattr "_delta_model_mapping" in
  let* keys := mapping_keys r in
  if type_in config keys then
    let* model_class := model_class_for config in
    call_from_config env model_class config backbone_model kwargs
  else
    let* r := cls_getattr "_delta_model_mapping" in
    let* keys := mapping_keys r in
    let* names := mapM name_of keys in
    raise (ValueError (unrecognized_config config names)).

(** [config, kwargs = AutoDeltaConfig.from_finetuned(...)] *)
Definition unpack_config (r : PyVal) : M World (PyVal * Dict) :=
  match r with
  | VTuple [config; VDict kwargs] => ret (config, kwargs)
  | _ => raise (TypeError "cannot unpack into (config, kwargs)")
  end.

Definition from_finetuned (finetuned_model_name_or_path : string)
    (backbone_model : PyVal) (model_args : list PyVal) (kwargs : Dict)
  : M World PyVal :=
  let config := default VNone (kwargs !! "config") in
  let kwargs := delete "config" kwargs in
  let* '(config, kwargs) :=
    if negb (isinstance_BaseDeltaConfig config) then
      match kwargs !! "return_unused_kwargs" with
      | Some _ =>
          raise (TypeError
                   "got multiple values for keyword argument 'return_unused_kwargs'")
      | None =>
          let* r := AutoDeltaConfig.from_finetuned env
                      finetuned_model_name_or_path
                      (<["return_unused_kwargs" := VBool true]> kwargs) in
          unpack_config r
      end
    else ret (config, kwargs) in
  let* r := cls_getattr "_delta_model_mapping" in
  let* keys := mapping_keys r in
  if type_in config keys then
    let* model_class := model_class_for config in
    call_from_finetuned env model_class finetuned_model_name_or_path
      backbone_model model_args kwargs
  else
    let* r := cls_getattr "_model_mapping" in
    let* keys := mapping_keys r in
    let* names := mapM name_of keys in
    raise (ValueError (unrecognized_config config names)).
End Methods.
End AutoDeltaModel.

(** ** A concrete installation

    An environment in which [opendelta.delta_models.<key>] defines the
    config and the model class that the two static tables name for [<key>],
    and [transformers] defines a few classes of its own.  The class methods
    build instances that record the fields they were given. *)

Definition demo_sources : list (string * list ClassDef) :=
  map (fun kc =>
         ("opendelta.delta_models." +:+ fst kc,
          [ {| def_attr := snd kc; def_name := snd kc;
               def_kind := DeltaConfigKind |};
            {| def_attr := default "" (dict_get DELTA_MODEL_MAPPING (fst kc));
               def_name := default "" (dict_get DELTA_MODEL_MAPPING (fst kc));
               def_kind := DeltaModelKind |} ]))
      DELTA_CONFIG_MAPPING
  ++ [ ("transformers",
        [ {| def_attr := "AutoModel"; def_name := "AutoModel";
             def_kind := OtherKind |} ]) ].

Definition demo_from_dict (c : PyClass) (config_dict kwargs : Dict) : Out PyVal :=
  match kwargs !! "return_unused_kwargs" with
  | Some (VBool true) =>
      Ret (VTuple [VInst c config_dict;
                   VDict (delete "return_unused_kwargs" kwargs)])
  | _ => Ret (VInst c config_dict)
  end.

(** Locations whose name contains [typed] hold a mapping with a
    [delta_type] field, the others a mapping without. *)
Definition demo_get_config_dict (location : string) (kwargs : Dict)
  : Out (Dict * Dict) :=
  if str_contains "typed" location then
    Ret (<["delta_type" := VStr "lora"]> (<["lora_r" := VInt 7]> ∅), kwargs)
  else Ret (<["lora_r" := VInt 7]> ∅, kwargs).

Definition demo_env : Env :=
  {| installed := dict_get demo_sources;
     get_config_dict := demo_get_config_dict;
     class_from_dict := demo_from_dict;
     class_from_config := fun c config backbone kwargs =>
                            Ret (VInst c (<["backbone" := backbone]> ∅));
     class_from_finetuned := fun c location backbone args kwargs =>
                            Ret (VInst c (<["backbone" := backbone]> ∅)) |}.

(** A config class defined by the caller, known to no registry. *)
Definition MyConfig : PyClass :=
  {| cls_id := 1000; cls_module := "__main__"; cls_name := "MyConfig";
     cls_kind := DeltaConfigKind |}.

Definition FooConfig : PyClass :=
  {| cls_id := 1001; cls_module := "__main__"; cls_name := "FooConfig";
     cls_kind := DeltaConfigKind |}.

(** ** Notions used in the statements *)

(** [p] occurs in [s]. *)
Definition substring_of (p s : string) : Prop :=
  exists a b, s = a +:+ p +:+ b.

(** The module that backs the static entry [key]. *)
Definition delta_module (key : string) : string :=
  "opendelta.delta_models." +:+ key.

(** Importing [full] in state [st] yields a module that binds [attr]:
    either the module is loaded and binds it, or it is not loaded and its
    source on disk defines it. *)
Definition module_defines (env : Env) (st : Interp) (full attr : string) : bool :=
  match dict_get (sys_modules st) full with
  | Some m => hasattr m attr
  | None =>
      match installed env full with
      | Some defs => bool_decide (attr ∈ map def_attr defs)
      | None => false
      end
  end.

(** Every static entry of the config registry can be resolved, and no
    static key is shadowed by a registered one ([register] refuses such
    keys). *)
Definition config_resolvable (env : Env) (s : _LazyConfigMapping.t * Interp)
  : Prop :=
  forall k v,
    dict_get (_LazyConfigMapping._mapping (fst s)) k = Some v ->
    dict_get (_LazyConfigMapping._extra_content (fst s)) k = None /\
    module_defines env (snd s) (delta_module k) v = true.

(** [transformers] can be imported and does not bind [attr]. *)
Definition transformers_lacks (env : Env) (st : Interp) (attr : string) : bool :=
  match dict_get (sys_modules st) "transformers" with
  | Some m => negb (hasattr m attr)
  | None =>
      match installed env "transformers" with
      | Some defs => negb (bool_decide (attr ∈ map def_attr defs))
      | None => false
      end
  end.


(** The config registry's part of a process state. *)
Definition config_state (w : World) : _LazyConfigMapping.t * Interp :=
  (LAZY_CONFIG_MAPPING w, interp w).

(** The state [w] with its heap replaced by [h] and the config registry's
    part replaced by [s]. *)
Definition with_config (w : World) (h : list Dict)
    (s : _LazyConfigMapping.t * Interp) : World :=
  {| LAZY_CONFIG_MAPPING := fst s; LAZY_DELTA_MAPPING := LAZY_DELTA_MAPPING w;
     interp := snd s; heap := h; ext_calls := ext_calls w |}.

(** The mapping the demo loader returns for a [typed] location, and a
    process state in which a caller holds that mapping at reference [0]. *)
Definition typed_mapping : Dict :=
  <["delta_type" := VStr "lora"]> (<["lora_r" := VInt 7]> ∅).

Definition caller_world : World := set_heap [typed_mapping] init_world.

(** The lora config class as the first import of its module creates it. *)
Definition LoraConfig0 : PyClass :=
  {| cls_id := 0; cls_module := "opendelta.delta_models.lora";
     cls_name := "LoraConfig"; cls_kind := DeltaConfigKind |}.

(** Every module loaded in [st] is still loaded, as the same object, in
    [st']. *)
Definition modules_kept (st st' : Interp) : Prop :=
  forall f m,
    dict_get (sys_modules st) f = Some m ->
    dict_get (sys_modules st') f = Some m.

(** In state [s] the static key [k] is resolved to the class object [c]:
    its module is loaded and binds the table's name for [k] to [c]. *)
Definition resolved_as (s : _LazyConfigMapping.t * Interp) (k : string)
    (c : PyClass) : Prop :=
  dict_get (_LazyConfigMapping._extra_content (fst s)) k = None /\
  exists m v,
    dict_get (_LazyConfigMapping._mapping (fst s)) k = Some v /\
    dict_get (sys_modules (snd s)) (delta_module k) = Some m /\
    dict_get (mod_attrs m) v = Some c.

(** The lora module as its first import creates it. *)
Definition lora_module : ModuleObj :=
  exec_module "opendelta.delta_models.lora"
    [ {| def_attr := "LoraConfig"; def_name := "LoraConfig";
         def_kind := DeltaConfigKind |};
      {| def_attr := "LoraModel"; def_name := "LoraModel";
         def_kind := DeltaModelKind |} ] 0.

(** [x.__name__] for the class objects a registry lists. *)
Definition known_name (x : AttrVal) : string :=
  match x with
  | RObj c => cls_name c
  | _ => ""
  end.

(** [s'] has every table of [s] unchanged and keeps every module that [s]
    has cached or loaded. *)
Definition cache_ext (s s' : _LazyAutoMapping.t * Interp) : Prop :=
  _LazyAutoMapping._config_mapping (fst s')
  = _LazyAutoMapping._config_mapping (fst s) /\
  _LazyAutoMapping._model_mapping (fst s')
  = _LazyAutoMapping._model_mapping (fst s) /\
  _LazyAutoMapping._extra_content (fst s')
  = _LazyAutoMapping._extra_content (fst s) /\
  (forall k m,
     dict_get (_LazyAutoMapping._modules (fst s)) k = Some m ->
     dict_get (_LazyAutoMapping._modules (fst s')) k = Some m) /\
  modules_kept (snd s) (snd s').

(** The model registry's part of a process state. *)
Definition delta_state (w : World) : _LazyAutoMapping.t * Interp :=
  (LAZY_DELTA_MAPPING w, interp w).

(** The state [w] with the model registry's part replaced by [s]. *)
Definition with_delta (w : World) (s : _LazyAutoMapping.t * Interp) : World :=
  {| LAZY_CONFIG_MAPPING := LAZY_CONFIG_MAPPING w; LAZY_DELTA_MAPPING := fst s;
     interp := snd s; heap := heap w; ext_calls := ext_calls w |}.

(** Options that pass an instance of the caller's own config class. *)
Definition my_config_options : Dict := <["config" := VInst MyConfig ∅]> ∅.


(** No static key of the config registry is shadowed by a registered one,
    and no key is registered twice. *)
Definition config_wf (s : _LazyConfigMapping.t * Interp) : Prop :=
  (forall k, k ∈ dict_keys (_LazyConfigMapping._mapping (fst s)) ->
             k ∉ dict_keys (_LazyConfigMapping._extra_content (fst s))) /\
  NoDup (dict_keys (_LazyConfigMapping._extra_content (fst s))).

(** A caller that makes one [register] call after the other and goes on
    after a refused one. *)
Fixpoint register_all (regs : list (string * PyClass))
    (s : _LazyConfigMapping.t * Interp) : _LazyConfigMapping.t * Interp :=
  match regs with
  | [] => s
  | (key, value) :: rest =>
      register_all rest (snd (_LazyConfigMapping.register key value s))
  end.

(** The module [full] is neither loaded nor installed. *)
Definition unimportable (env : Env) (st : Interp) (full : string) : Prop :=
  dict_get (sys_modules st) full = None /\ installed env full = None.

(** An installation like [demo_env] from which the module of [bitfit] is
    missing. *)
Definition broken_env : Env :=
  {| installed := fun full =>
                    if bool_decide (full = "opendelta.delta_models.bitfit")
                    then None else installed demo_env full;
     get_config_dict := get_config_dict demo_env;
     class_from_dict := class_from_dict demo_env;
     class_from_config := class_from_config demo_env;
     class_from_finetuned := class_from_finetuned demo_env |}.

(** The invariant carried through an enumeration of the config registry
    that started in [s0]: the tables are those of [s0] and the module
    [full] is still missing. *)
Definition missing_inv (env : Env) (s0 : _LazyConfigMapping.t * Interp)
    (full : string) (s : _LazyConfigMapping.t * Interp) : Prop :=
  _LazyConfigMapping._mapping (fst s) = _LazyConfigMapping._mapping (fst s0) /\
  _LazyConfigMapping._extra_content (fst s)
  = _LazyConfigMapping._extra_content (fst s0) /\
  unimportable env (snd s) full.

(** What a run of the config factory may change between [w] and [w']: it
    may load modules, log calls and allocate mappings, but it keeps the
    tables of the config registry, the whole model registry, every loaded
    module, every logged call and every existing mapping. *)
Definition config_frame (w w' : World) : Prop :=
  _LazyConfigMapping._mapping (LAZY_CONFIG_MAPPING w')
  = _LazyConfigMapping._mapping (LAZY_CONFIG_MAPPING w) /\
  _LazyConfigMapping._extra_content (LAZY_CONFIG_MAPPING w')
  = _LazyConfigMapping._extra_content (LAZY_CONFIG_MAPPING w) /\
  LAZY_DELTA_MAPPING w' = LAZY_DELTA_MAPPING w /\
  modules_kept (interp w) (interp w') /\
  ext_calls w `prefix_of` ext_calls w' /\
  heap w `prefix_of` heap w'.

(** The tables of the config registry are the same in [s] and [s'], and
    every module loaded in [s] is loaded in [s']. *)
Definition tables_kept (s s' : _LazyConfigMapping.t * Interp) : Prop :=
  _LazyConfigMapping._mapping (fst s') = _LazyConfigMapping._mapping (fst s) /\
  _LazyConfigMapping._extra_content (fst s')
  = _LazyConfigMapping._extra_content (fst s) /\
  modules_kept (snd s) (snd s').

(** Process states in which a caller holds, at reference [0], a mapping
    without a [delta_type] and a mapping whose [delta_type] names no key. *)
Definition untyped_world : World :=
  set_heap [<["lora_r" := VInt 7]> ∅] init_world.

Definition unknown_type_world : World :=
  set_heap [<["delta_type" := VStr "nonesuch"]> ∅] init_world.

(** The modules the model registry has cached are the ones the interpreter
    has loaded under the same key. *)
Definition modules_synced (s : _LazyAutoMapping.t * Interp) : Prop :=
  forall K m,
    dict_get (_LazyAutoMapping._modules (fst s)) K = Some m ->
    dict_get (sys_modules (snd s)) (delta_module K) = Some m.

(** In state [s] the model registry has the module of [K] cached, and that
    module binds [a] to the class object [c]. *)
Definition bound (s : _LazyAutoMapping.t * Interp) (K a : string)
    (c : PyClass) : Prop :=
  exists m,
    dict_get (_LazyAutoMapping._modules (fst s)) K = Some m /\
    dict_get (mod_attrs m) a = Some c.

(** Every entry of the two tables of the model registry names a class that
    the module of its key defines. *)
Definition delta_resolvable (env : Env) (s : _LazyAutoMapping.t * Interp)
  : Prop :=
  forall K n,
    (K, n) ∈ _LazyAutoMapping._config_mapping (fst s)
             ++ _LazyAutoMapping._model_mapping (fst s) ->
    module_defines env (snd s) (delta_module K) n = true.

(** The process after the config factory has built a lora config from the
    caller's mapping: the lora module is loaded. *)
Definition lora_world : World :=
  snd (AutoDeltaConfig.from_dict demo_env 0 ∅ caller_world).

(** The lora model class as the first import of its module creates it. *)
Definition LoraModel0 : PyClass :=
  {| cls_id := 1; cls_module := "opendelta.delta_models.lora";
     cls_name := "LoraModel"; cls_kind := DeltaModelKind |}.

(** The reverse index of [s'] is the one of [s]. *)
Definition reverse_kept (s s' : _LazyAutoMapping.t * Interp) : Prop :=
  _LazyAutoMapping._reverse_config_mapping (fst s')
  = _LazyAutoMapping._reverse_config_mapping (fst s).

(** The situation in which the model factory can dispatch on the config
    class [c]: the model registry of [w] is consistent with the
    interpreter and all its entries resolve; the key [K] has the config
    name [cn] and the model name [mn]; the module of [K] is loaded and
    binds [cn] to [c] and [mn] to [mc]; [c] carries the name [cn] and has
    not been registered on its own. *)
Definition dispatchable (env : Env) (w : World) (K cn mn : string)
    (m : ModuleObj) (c mc : PyClass) : Prop :=
  _LazyAutoMapping._reverse_config_mapping (LAZY_DELTA_MAPPING w)
  = _LazyAutoMapping.reverse_mapping
      (_LazyAutoMapping._config_mapping (LAZY_DELTA_MAPPING w)) /\
  NoDup (map snd (_LazyAutoMapping._config_mapping (LAZY_DELTA_MAPPING w))) /\
  modules_synced (delta_state w) /\
  delta_resolvable env (delta_state w) /\
  (K, cn) ∈ _LazyAutoMapping._config_mapping (LAZY_DELTA_MAPPING w) /\
  dict_get (_LazyAutoMapping._model_mapping (LAZY_DELTA_MAPPING w)) K = Some mn /\
  dict_get (sys_modules (interp w)) (delta_module K) = Some m /\
  dict_get (mod_attrs m) cn = Some c /\
  dict_get (mod_attrs m) mn = Some mc /\
  cls_name c = cn /\
  dict_get (_LazyAutoMapping._extra_content (LAZY_DELTA_MAPPING w)) c = None.

(** The config class [key] carries the name of a built-in config whose
    key also has a model: the model registry refuses to register it. *)
Definition builtin_config (s : _LazyAutoMapping.t * Interp) (key : PyClass)
  : Prop :=
  exists K,
    dict_get (_LazyAutoMapping._reverse_config_mapping (fst s)) (cls_name key)
    = Some K /\
    K ∈ dict_keys (_LazyAutoMapping._model_mapping (fst s)).

(** The pair that [items] builds for a key: the classes that the module
    of the key binds under the two names of the key. *)
Definition item_of (C Mo : list (string * string))
    (s : _LazyAutoMapping.t * Interp) (K : string)
    (p : AttrVal * AttrVal) : Prop :=
  exists cn mn c m,
    dict_get C K = Some cn /\ dict_get Mo K = Some mn /\
    p = (RObj c, RObj m) /\ bound s K cn c /\ bound s K mn m.

(** * Properties *)

(** ** Dictionaries *)

Section DictFacts.
Context {K V : Type} `{EqDecision K}.
Implicit Types (d : list (K * V)) (k : K) (v : V).

Lemma dict_get_set_eq d k v : dict_get (dict_set d k v) k = Some v.
Proof.
  induction d as [|[k' v'] d IH]; simpl.
  - by rewrite decide_True.
  - destruct (decide (k' = k)) as [->|Hne]; simpl.
    + by rewrite decide_True.
    + by rewrite decide_False.
Qed.

Lemma dict_get_set_ne d k k' v :
  k <> k' -> dict_get (dict_set d k v) k' = dict_get d k'.
Proof.
  intros Hne. induction d as [|[k0 v0] d IH]; simpl.
  - by rewrite decide_False.
  - destruct (decide (k0 = k)) as [->|Hne0]; simpl.
    + by rewrite !decide_False.
    + destruct (decide (k0 = k')); done.
Qed.

Lemma dict_get_Some_keys d k v : dict_get d k = Some v -> k ∈ dict_keys d.
Proof.
  induction d as [|[k0 v0] d IH]; simpl; [done|].
  destruct (decide (k0 = k)) as [->|Hne]; intros Hg.
  - apply list_elem_of_here.
  - apply list_elem_of_further. by apply IH.
Qed.

Lemma dict_get_None_keys d k : dict_get d k = None <-> k ∉ dict_keys d.
Proof.
  induction d as [|[k0 v0] d IH]; simpl.
  - split; [intros _; apply not_elem_of_nil | done].
  - destruct (decide (k0 = k)) as [->|Hne].
    + split; [done|]. intros Hn. exfalso. apply Hn, list_elem_of_here.
    + rewrite IH, not_elem_of_cons.
      split; [intros ?; split; [congruence | done] | intros [_ ?]; done].
Qed.

Lemma dict_keys_set_old d k v :
  k ∈ dict_keys d -> dict_keys (dict_set d k v) = dict_keys d.
Proof.
  induction d as [|[k0 v0] d IH]; simpl.
  - intros Hin. by apply elem_of_nil in Hin.
  - destruct (decide (k0 = k)) as [->|Hne]; simpl; [done|].
    intros Hin. apply elem_of_cons in Hin as [->|Hin]; [done|].
    unfold dict_keys in *. simpl. f_equal. by apply IH.
Qed.

Lemma dict_keys_set_new d k v :
  k ∉ dict_keys d -> dict_keys (dict_set d k v) = dict_keys d ++ [k].
Proof.
  induction d as [|[k0 v0] d IH]; simpl; [done|].
  intros Hn. apply not_elem_of_cons in Hn as [Hne Hn].
  rewrite decide_False by done. unfold dict_keys in *. simpl. f_equal.
  by apply IH.
Qed.

Lemma dict_keys_set_elem d k v : k ∈ dict_keys (dict_set d k v).
Proof. eapply dict_get_Some_keys, dict_get_set_eq. Qed.

Lemma dict_mem_true d k : dict_mem d k = true <-> k ∈ dict_keys d.
Proof.
  unfold dict_mem. destruct (dict_get d k) eqn:E.
  - split; [intros _; by eapply dict_get_Some_keys | done].
  - apply dict_get_None_keys in E. split; [done | intros; done].
Qed.
End DictFacts.

(** ** Construction of the factories *)

Lemma AutoDeltaModel_init_raises args kwargs w :
  exists msg,
    AutoDeltaModel.__init__ args kwargs w = (Raise (EnvironmentError msg), w).
Proof. unfold AutoDeltaModel.__init__, raise. eauto. Qed.

Lemma AutoDeltaConfig_init_no_args w :
  exists msg,
    AutoDeltaConfig.__init__ [] ∅ w = (Raise (EnvironmentError msg), w).
Proof. unfold AutoDeltaConfig.__init__, raise. simpl. eauto. Qed.

Lemma AutoDeltaConfig_init_args args kwargs w :
  ~ (args = [] /\ kwargs = ∅) ->
  exists msg,
    AutoDeltaConfig.__init__ args kwargs w = (Raise (TypeError msg), w).
Proof.
  intros Hne. unfold AutoDeltaConfig.__init__, raise.
  destruct args as [|a args]; [|eauto].
  case_bool_decide as Hk; [|eauto].
  exfalso. by apply Hne.
Qed.

(** C10, as stated, fails for the config factory: called with an argument,
    [AutoDeltaConfig] raises [TypeError], not the Construction-Forbidden
    error ([EnvironmentError]). *)
Lemma C10_config_factory_with_argument_is_type_error :
  (exists msg,
     fst (AutoDeltaConfig.__init__ [VInt 1] ∅ init_world)
     = Raise (TypeError msg)) /\
  ~ (exists msg,
       fst (AutoDeltaConfig.__init__ [VInt 1] ∅ init_world)
       = Raise (EnvironmentError msg)).
Proof.
  split.
  - simpl. eauto.
  - intros [msg Hm]. simpl in Hm. discriminate.
Qed.

(** C10, amended: direct construction never yields an object and leaves the
    state unchanged.  [AutoDeltaModel] raises the Construction-Forbidden
    error for every combination of positional and keyword arguments.
    [AutoDeltaConfig] raises it when called without arguments; its
    constructor accepts none, so a call with any argument is rejected with
    a [TypeError]. *)
Theorem C10_direct_construction_always_fails
    (args : list PyVal) (kwargs : Dict) (w : World) :
  (exists msg,
     AutoDeltaModel.__init__ args kwargs w = (Raise (EnvironmentError msg), w)) /\
  (exists e,
     AutoDeltaConfig.__init__ args kwargs w = (Raise e, w) /\
     ((args = [] /\ kwargs = ∅) <-> exists msg, e = EnvironmentError msg) /\
     (~ (args = [] /\ kwargs = ∅) <-> exists msg, e = TypeError msg)).
Proof.
  split; [apply AutoDeltaModel_init_raises|].
  destruct (decide (args = [])) as [->|Ha].
  - destruct (decide (kwargs = ∅)) as [->|Hk].
    + destruct (AutoDeltaConfig_init_no_args w) as [msg Hm].
      exists (EnvironmentError msg). split; [done|]. split.
      * split; [eauto | done].
      * split; [intros Hn; exfalso; by apply Hn | intros [? ?]; discriminate].
    + destruct (AutoDeltaConfig_init_args [] kwargs w) as [msg Hm];
        [intros [_ ?]; done|].
      exists (TypeError msg). split; [done|]. split.
      * split; [intros [_ ?]; done | intros [? ?]; discriminate].
      * split; [eauto | intros _ [_ ?]; done].
  - destruct (AutoDeltaConfig_init_args args kwargs w) as [msg Hm];
      [intros [? _]; done|].
    exists (TypeError msg). split; [done|]. split.
    + split; [intros [? _]; done | intros [? ?]; discriminate].
    + split; [eauto | intros _ [? _]; done].
Qed.

(** ** Registration in the config registry *)

Section ConfigRegister.
Import _LazyConfigMapping.
Context (env : Env).
Implicit Types (s : St) (key : string) (value : PyClass).

Lemma register_static key value s :
  key ∈ dict_keys (_mapping (fst s)) ->
  exists msg, register key value s = (Raise (ValueError msg), s).
Proof.
  intros Hin. unfold register, bind, get, raise.
  rewrite bool_decide_eq_true_2 by done. eauto.
Qed.

Lemma register_fresh key value s :
  key ∉ dict_keys (_mapping (fst s)) ->
  register key value s = (Ret tt, set_extra key value s).
Proof.
  intros Hn. unfold register, bind, get, modify.
  by rewrite bool_decide_eq_false_2.
Qed.

Lemma registered_contains key value s :
  __contains__ key (set_extra key value s)
  = (Ret true, set_extra key value s).
Proof.
  unfold __contains__, bind, get, ret. simpl.
  replace (dict_mem (dict_set (_extra_content (fst s)) key value) key)
    with true; [by rewrite orb_true_r|].
  symmetry. apply dict_mem_true, dict_keys_set_elem.
Qed.

Lemma registered_in_keys key value s :
  exists ks,
    keys (set_extra key value s) = (Ret ks, set_extra key value s) /\
    key ∈ ks.
Proof.
  unfold keys, bind, get, ret. simpl. eexists. split; [done|].
  apply elem_of_app. right. apply dict_keys_set_elem.
Qed.

Lemma registered_lookup key value s :
  __getitem__ env (VStr key) (set_extra key value s)
  = (Ret value, set_extra key value s).
Proof.
  unfold __getitem__, getitem_str, bind, get, ret. simpl.
  by rewrite dict_get_set_eq.
Qed.

(** C7: [register] raises the Collision error ([ValueError]) exactly when
    the key is in the static table, and then changes nothing; for every
    other key it succeeds, and afterwards [contains] answers true, [keys]
    lists the key, and [lookup] returns the registered value. *)
Theorem C7_register_collision_iff_static key value s :
  ((exists msg, fst (register key value s) = Raise (ValueError msg))
   <-> key ∈ dict_keys (_mapping (fst s))) /\
  (key ∈ dict_keys (_mapping (fst s)) -> snd (register key value s) = s) /\
  (key ∉ dict_keys (_mapping (fst s)) ->
   exists s',
     register key value s = (Ret tt, s') /\
     __contains__ key s' = (Ret true, s') /\
     (exists ks, keys s' = (Ret ks, s') /\ key ∈ ks) /\
     __getitem__ env (VStr key) s' = (Ret value, s')).
Proof.
  split; [split|split].
  - intros [msg Hm].
    destruct (decide (key ∈ dict_keys (_mapping (fst s)))) as [|Hn]; [done|].
    rewrite (register_fresh _ value _ Hn) in Hm. discriminate.
  - intros Hin. destruct (register_static key value s Hin) as [msg ->].
    eauto.
  - intros Hin. by destruct (register_static key value s Hin) as [msg ->].
  - intros Hn. exists (set_extra key value s).
    split; [by apply register_fresh|].
    split; [apply registered_contains|].
    split; [apply registered_in_keys | apply registered_lookup].
Qed.
End ConfigRegister.

(** The registry of a freshly started process accepts the key [foo]. *)
Lemma C7_register_witness :
  ("foo" ∉ dict_keys
            (_LazyConfigMapping._mapping (fst (config_state init_world)))) /\
  exists s',
    _LazyConfigMapping.register "foo" FooConfig (config_state init_world)
    = (Ret tt, s') /\
    _LazyConfigMapping.__getitem__ demo_env (VStr "foo") s'
    = (Ret FooConfig, s').
Proof.
  assert (Hn : "foo" ∉ dict_keys
                 (_LazyConfigMapping._mapping (fst (config_state init_world)))).
  { apply dict_get_None_keys. reflexivity. }
  split; [exact Hn|].
  destruct (C7_register_collision_iff_static demo_env "foo" FooConfig
              (config_state init_world)) as (_ & _ & Hfresh).
  destruct (Hfresh Hn) as (s' & Hr & _ & _ & Hl).
  exists s'. split; [exact Hr | exact Hl].
Defined.

(** ** [AutoDeltaConfig.from_dict] *)

Section FromDict.
Context (env : Env).

(** The run of [from_dict] on a mapping that has a [delta_type] entry, in
    one equation: the copy is appended to the heap, the entry is removed
    from the copy, and the rest of the copy is what the class receives. *)
Lemma from_dict_run l kw w d v :
  heap w !! l = Some d -> d !! "delta_type" = Some v ->
  AutoDeltaConfig.from_dict env l kw w =
  let h := heap w ++ [delete "delta_type" d] in
  if is_None v then
    (Raise (RuntimeError
              "Do not specify a delta type, cannot load the default config"),
     set_heap h w)
  else
    match _LazyConfigMapping.__getitem__ env v (config_state w) with
    | (Ret c, s') =>
        (class_from_dict env c (delete "delta_type" d) kw,
         log_call (Call_config_from_dict c (delete "delta_type" d) kw)
           (with_config w h s'))
    | (Raise e, s') => (Raise e, with_config w h s')
    | (OutOfFuel, s') => (OutOfFuel, with_config w h s')
    end.
Proof.
  intros Hl Hv.
  unfold AutoDeltaConfig.from_dict, deepcopy, dict_pop, deref, call_from_dict,
    on_config_mapping, zoom, bind, get, modify, ret, raise, lift_out.
  rewrite Hl. unfold set_heap at 1 2. cbn [heap].
  rewrite lookup_app_r by lia. rewrite Nat.sub_diag. cbn [lookup list_lookup].
  rewrite Hv. unfold set_heap, log_call, with_config.
  cbn [heap LAZY_CONFIG_MAPPING LAZY_DELTA_MAPPING interp ext_calls].
  rewrite insert_app_r_alt by lia. rewrite Nat.sub_diag. cbn [insert list_insert].
  destruct (is_None v); [reflexivity|].
  unfold config_state.
  cbn [heap LAZY_CONFIG_MAPPING LAZY_DELTA_MAPPING interp ext_calls].
  destruct (_LazyConfigMapping.__getitem__ env v (LAZY_CONFIG_MAPPING w, interp w))
    as [[c|e|] s'] eqn:E; rewrite ?E;
    cbn [heap LAZY_CONFIG_MAPPING LAZY_DELTA_MAPPING interp ext_calls fst snd];
    [|reflexivity|reflexivity].
  rewrite lookup_app_r by lia. rewrite Nat.sub_diag. cbn [lookup list_lookup].
  reflexivity.
Qed.

(** C9: on a mapping with a [delta_type] entry, [from_dict] works on a copy.
    Whatever the outcome, the caller's mapping and every other mapping that
    existed before are unchanged, the copy is the mapping without
    [delta_type], and every call made to a config class's [from_dict]
    forwards exactly that copy, which has no [delta_type].  When the entry
    is not [None] and the registry resolves it to a class, that call is
    made and its result is the result of [from_dict]. *)
Theorem C9_from_dict_pops_delta_type_on_copy l kw w d v o w' :
  heap w !! l = Some d ->
  d !! "delta_type" = Some v ->
  AutoDeltaConfig.from_dict env l kw w = (o, w') ->
  heap w' !! l = Some d /\
  (forall i, i < length (heap w) -> heap w' !! i = heap w !! i) /\
  heap w' !! length (heap w) = Some (delete "delta_type" d) /\
  (exists new,
     ext_calls w' = ext_calls w ++ new /\
     (forall c fields kw',
        Call_config_from_dict c fields kw' ∈ new ->
        fields = delete "delta_type" d /\ fields !! "delta_type" = None) /\
     (forall c s',
        is_None v = false ->
        _LazyConfigMapping.__getitem__ env v (config_state w) = (Ret c, s') ->
        new = [Call_config_from_dict c (delete "delta_type" d) kw] /\
        o = class_from_dict env c (delete "delta_type" d) kw)).
Proof.
  intros Hl Hv Hrun. rewrite (from_dict_run l kw w d v Hl Hv) in Hrun.
  cbv zeta in Hrun.
  assert (Hold : forall i, i < length (heap w) ->
            (heap w ++ [delete "delta_type" d]) !! i = heap w !! i).
  { intros i Hi. by rewrite lookup_app_l. }
  assert (Hnew : (heap w ++ [delete "delta_type" d]) !! length (heap w)
                 = Some (delete "delta_type" d)).
  { rewrite lookup_app_r by lia. by rewrite Nat.sub_diag. }
  assert (Hlt : l < length (heap w)) by (by eapply lookup_lt_Some).
  destruct (is_None v) eqn:Hnone.
  - injection Hrun as <- <-. cbn [heap set_heap ext_calls].
    split; [by rewrite Hold|]. split; [exact Hold|]. split; [exact Hnew|].
    exists []. split; [by rewrite app_nil_r|]. split.
    + intros c fields kw' Hin. by apply elem_of_nil in Hin.
    + intros c s' Hf. discriminate.
  - destruct (_LazyConfigMapping.__getitem__ env v (config_state w))
      as [[c|e|] s'] eqn:E; injection Hrun as <- <-;
      cbn [heap log_call with_config ext_calls];
      (split; [by rewrite Hold|]); (split; [exact Hold|]);
      (split; [exact Hnew|]).
    + exists [Call_config_from_dict c (delete "delta_type" d) kw].
      split; [done|]. split.
      * intros c0 fields kw' Hin. apply list_elem_of_singleton in Hin.
        injection Hin as -> -> ->. split; [done | apply lookup_delete_eq].
      * intros c0 s0 _ Hc. by injection Hc as <- <-.
    + exists []. split; [by rewrite app_nil_r|]. split.
      * intros c fields kw' Hin. by apply elem_of_nil in Hin.
      * intros c s0 _ Hc. discriminate.
    + exists []. split; [by rewrite app_nil_r|]. split.
      * intros c fields kw' Hin. by apply elem_of_nil in Hin.
      * intros c s0 _ Hc. discriminate.
Qed.
End FromDict.

Lemma C9_from_dict_witness :
  heap (snd (AutoDeltaConfig.from_dict demo_env 0 ∅ caller_world)) !! 0
  = Some typed_mapping /\
  heap (snd (AutoDeltaConfig.from_dict demo_env 0 ∅ caller_world)) !! 1
  = Some (delete "delta_type" typed_mapping).
Proof.
  destruct (AutoDeltaConfig.from_dict demo_env 0 ∅ caller_world)
    as [o w'] eqn:E.
  destruct (C9_from_dict_pops_delta_type_on_copy demo_env 0 ∅ caller_world
              typed_mapping (VStr "lora") o w' eq_refl eq_refl E)
    as (H1 & _ & H3 & _).
  split; [exact H1 | exact H3].
Defined.

(** ** [AutoDeltaConfig.from_finetuned] *)

Section FromFinetuned.
Context (env : Env).

(** The run of [from_finetuned] when the loaded mapping has a
    [delta_type] field. *)
Lemma from_finetuned_typed_run loc kw w d u v :
  get_config_dict env loc (<["name_or_path" := VStr loc]> kw) = Ret (d, u) ->
  d !! "delta_type" = Some v ->
  AutoDeltaConfig.from_finetuned env loc kw w =
  let kw' := <["name_or_path" := VStr loc]> kw in
  let w0 := log_call (Call_get_config_dict loc kw') w in
  match _LazyConfigMapping.__getitem__ env v (config_state w) with
  | (Ret c, s') =>
      (class_from_dict env c d kw',
       log_call (Call_config_from_dict c d kw') (with_config w0 (heap w) s'))
  | (Raise e, s') => (Raise e, with_config w0 (heap w) s')
  | (OutOfFuel, s') => (OutOfFuel, with_config w0 (heap w) s')
  end.
Proof.
  intros Hload Hv.
  unfold AutoDeltaConfig.from_finetuned, call_get_config_dict, call_from_dict,
    on_config_mapping, zoom, bind, get, modify, ret, raise, lift_out.
  rewrite Hload, Hv. unfold log_call, with_config, config_state.
  cbn [heap LAZY_CONFIG_MAPPING LAZY_DELTA_MAPPING interp ext_calls].
  destruct (_LazyConfigMapping.__getitem__ env v (LAZY_CONFIG_MAPPING w, interp w))
    as [[c|e|] s'] eqn:E; rewrite ?E; reflexivity.
Qed.

(** The run of [from_finetuned] when the loaded mapping has no
    [delta_type] field. *)
Lemma from_finetuned_untyped_run loc kw w d u :
  get_config_dict env loc (<["name_or_path" := VStr loc]> kw) = Ret (d, u) ->
  d !! "delta_type" = None ->
  AutoDeltaConfig.from_finetuned env loc kw w =
  let kw' := <["name_or_path" := VStr loc]> kw in
  let w0 := log_call (Call_get_config_dict loc kw') w in
  match _LazyConfigMapping.items env (config_state w) with
  | (Ret items, s') =>
      match AutoDeltaConfig.match_pattern loc items with
      | Some c =>
          (class_from_dict env c d kw',
           log_call (Call_config_from_dict c d kw')
             (with_config w0 (heap w) s'))
      | None =>
          (Raise (ValueError
                    (AutoDeltaConfig.unrecognized_model loc
                       (dict_keys (_LazyConfigMapping._mapping (fst s')) ++
                        dict_keys (_LazyConfigMapping._extra_content (fst s'))))),
           with_config w0 (heap w) s')
      end
  | (Raise e, s') => (Raise e, with_config w0 (heap w) s')
  | (OutOfFuel, s') => (OutOfFuel, with_config w0 (heap w) s')
  end.
Proof.
  intros Hload Hv.
  unfold AutoDeltaConfig.from_finetuned, call_get_config_dict, call_from_dict,
    on_config_mapping, zoom, bind, get, modify, ret, raise, lift_out.
  rewrite Hload, Hv. unfold log_call, with_config, config_state.
  cbn [heap LAZY_CONFIG_MAPPING LAZY_DELTA_MAPPING interp ext_calls].
  destruct (_LazyConfigMapping.items env (LAZY_CONFIG_MAPPING w, interp w))
    as [[items|e|] s'] eqn:E; rewrite ?E; [|reflexivity|reflexivity].
  destruct (AutoDeltaConfig.match_pattern loc items) as [c|]; [reflexivity|].
  unfold _LazyConfigMapping.keys, bind, get, ret.
  cbn [heap LAZY_CONFIG_MAPPING LAZY_DELTA_MAPPING interp ext_calls fst snd].
  destruct s' as [r i]. reflexivity.
Qed.

(** C4, amended: when the loaded mapping carries a [delta_type] field whose
    value is not [None], [from_finetuned] and [from_dict] select the config
    class by the same registry lookup, fail alike when the lookup fails,
    and leave the registry in the same state.  They forward different
    fields: [from_finetuned] hands the class the loaded mapping as it is,
    [delta_type] included, with the options extended by [name_or_path];
    [from_dict] hands it the mapping without [delta_type] and the options
    it was given. *)
Theorem C4_from_finetuned_forwards_loaded_mapping
    loc kw w d u v l kwd lookup s' :
  get_config_dict env loc (<["name_or_path" := VStr loc]> kw) = Ret (d, u) ->
  d !! "delta_type" = Some v ->
  is_None v = false ->
  heap w !! l = Some d ->
  _LazyConfigMapping.__getitem__ env v (config_state w) = (lookup, s') ->
  let kw' := <["name_or_path" := VStr loc]> kw in
  let a := AutoDeltaConfig.from_finetuned env loc kw w in
  let b := AutoDeltaConfig.from_dict env l kwd w in
  LAZY_CONFIG_MAPPING (snd a) = fst s' /\
  LAZY_CONFIG_MAPPING (snd b) = fst s' /\
  interp (snd a) = snd s' /\
  interp (snd b) = snd s' /\
  match lookup with
  | Ret c =>
      fst a = class_from_dict env c d kw' /\
      ext_calls (snd a) =
        ext_calls w ++ [Call_get_config_dict loc kw';
                        Call_config_from_dict c d kw'] /\
      fst b = class_from_dict env c (delete "delta_type" d) kwd /\
      ext_calls (snd b) =
        ext_calls w ++ [Call_config_from_dict c (delete "delta_type" d) kwd]
  | Raise e => fst a = Raise e /\ fst b = Raise e
  | OutOfFuel => fst a = OutOfFuel /\ fst b = OutOfFuel
  end.
Proof.
  intros Hload Hv Hnone Hl Hlook. cbv zeta.
  rewrite (from_finetuned_typed_run loc kw w d u v Hload Hv).
  rewrite (from_dict_run env l kwd w d v Hl Hv).
  cbv zeta. rewrite Hnone, Hlook.
  destruct lookup as [c|e|];
    cbn [fst snd log_call with_config LAZY_CONFIG_MAPPING interp ext_calls];
    repeat split; try reflexivity.
  by rewrite <- app_assoc.
Qed.
End FromFinetuned.

(** C4, as stated, fails: for the location [hub/typed], whose loaded
    mapping is [{delta_type: lora, lora_r: 7}], [from_finetuned] forwards
    the mapping with [delta_type] to the lora config class, [from_dict] on
    the same mapping and options forwards it without, and the two
    instances differ in that field. *)
Lemma C4_forwarded_fields_differ :
  let kw := <["name_or_path" := VStr "hub/typed"]> (∅ : Dict) in
  get_config_dict demo_env "hub/typed" kw = Ret (typed_mapping, kw) /\
  heap caller_world !! 0 = Some typed_mapping /\
  (AutoDeltaConfig.from_finetuned demo_env "hub/typed" ∅ init_world).1
  = Ret (VInst LoraConfig0 typed_mapping) /\
  (AutoDeltaConfig.from_dict demo_env 0 kw caller_world).1
  = Ret (VInst LoraConfig0 (delete "delta_type" typed_mapping)) /\
  typed_mapping !! "delta_type" = Some (VStr "lora") /\
  delete "delta_type" typed_mapping !! "delta_type" = None /\
  (AutoDeltaConfig.from_finetuned demo_env "hub/typed" ∅ init_world).1
  <> (AutoDeltaConfig.from_dict demo_env 0 kw caller_world).1.
Proof.
  cbv zeta.
  assert (Ha : (AutoDeltaConfig.from_finetuned demo_env "hub/typed" ∅ init_world).1
               = Ret (VInst LoraConfig0 typed_mapping))
    by (vm_compute; reflexivity).
  assert (Hb : (AutoDeltaConfig.from_dict demo_env 0
                  (<["name_or_path" := VStr "hub/typed"]> ∅) caller_world).1
               = Ret (VInst LoraConfig0 (delete "delta_type" typed_mapping)))
    by (vm_compute; reflexivity).
  split; [vm_compute; reflexivity|].
  split; [reflexivity|].
  split; [exact Ha|]. split; [exact Hb|].
  split; [reflexivity|]. split; [reflexivity|].
  rewrite Ha, Hb. intros Heq.
  assert (Hf : typed_mapping !! "delta_type"
               = delete "delta_type" typed_mapping !! "delta_type")
    by congruence.
  vm_compute in Hf. discriminate.
Qed.

Lemma C4_from_finetuned_witness :
  (AutoDeltaConfig.from_finetuned demo_env "hub/typed" ∅ init_world).1
  = class_from_dict demo_env LoraConfig0 typed_mapping
      (<["name_or_path" := VStr "hub/typed"]> ∅) /\
  (AutoDeltaConfig.from_dict demo_env 0 ∅ caller_world).1
  = class_from_dict demo_env LoraConfig0 (delete "delta_type" typed_mapping) ∅.
Proof.
  destruct (_LazyConfigMapping.__getitem__ demo_env (VStr "lora")
              (config_state caller_world)) as [lookup s'] eqn:E.
  pose proof (C4_from_finetuned_forwards_loaded_mapping demo_env
                "hub/typed" ∅ caller_world typed_mapping
                (<["name_or_path" := VStr "hub/typed"]> ∅) (VStr "lora")
                0 ∅ lookup s' eq_refl eq_refl eq_refl eq_refl E) as H.
  cbv zeta in H. destruct H as (_ & _ & _ & _ & H).
  assert (Hl : lookup = Ret LoraConfig0).
  { apply (f_equal fst) in E. vm_compute in E. symmetry. exact E. }
  rewrite Hl in H. destruct H as (Ha & _ & Hb & _).
  split; [|exact Hb].
  rewrite <- Ha. vm_compute. reflexivity.
Defined.

(** ** The import system *)

Section Imports.
Context (env : Env).

Lemma resolve_delta_module k :
  resolve_name ("." +:+ k) "opendelta.delta_models" = delta_module k.
Proof. destruct k; reflexivity. Qed.

Lemma import_module_run name package st :
  import_module env name package st =
  let full := resolve_name name package in
  match dict_get (sys_modules st) full with
  | Some m => (Ret m, log_import full st)
  | None =>
      match installed env full with
      | Some defs =>
          (Ret (exec_module full defs (next_id st)),
           load_module full defs (log_import full st))
      | None => (Raise (ModuleNotFoundError full), log_import full st)
      end
  end.
Proof.
  unfold import_module, bind, modify, get, ret, raise. cbn [sys_modules log_import].
  destruct (dict_get (sys_modules st) (resolve_name name package)); [done|].
  destruct (installed env (resolve_name name package)); done.
Qed.

(** Every call is logged, whatever its outcome. *)
Lemma import_module_logged name package st :
  import_calls (snd (import_module env name package st))
  = import_calls st ++ [resolve_name name package].
Proof.
  rewrite import_module_run. cbv zeta.
  destruct (dict_get (sys_modules st) (resolve_name name package)); [done|].
  destruct (installed env (resolve_name name package)); done.
Qed.

Lemma exec_module_attrs_aux (f : nat -> ClassDef -> string * PyClass) defs attr :
  (forall i d, fst (f i d) = def_attr d) ->
  dict_mem (imap f defs) attr = bool_decide (attr ∈ map def_attr defs).
Proof.
  revert f. induction defs as [|d defs IH]; intros f Hf.
  - reflexivity.
  - unfold dict_mem in *. simpl.
    destruct (f 0 d) as [a c] eqn:Ef.
    assert (Ha : a = def_attr d) by (by rewrite <- (Hf 0 d), Ef).
    subst a. destruct (decide (def_attr d = attr)) as [<-|Hne].
    + symmetry. apply bool_decide_eq_true_2, list_elem_of_here.
    + rewrite (IH (f ∘ S)) by (intros i d'; apply Hf).
      apply bool_decide_ext. rewrite elem_of_cons.
      split; [by right | intros [?|?]; [congruence | done]].
Qed.

Lemma hasattr_exec_module full defs n attr :
  hasattr (exec_module full defs n) attr
  = bool_decide (attr ∈ map def_attr defs).
Proof. unfold hasattr, exec_module. cbn [mod_attrs]. by apply exec_module_attrs_aux. Qed.

Lemma hasattr_getattr {S} m attr (s : S) :
  hasattr m attr = true ->
  exists c, dict_get (mod_attrs m) attr = Some c /\ getattr m attr s = (Ret c, s).
Proof.
  unfold hasattr, dict_mem, getattr.
  destruct (dict_get (mod_attrs m) attr) as [c|]; [|done].
  intros _. by exists c.
Qed.

(** What a successful import looks like, and what it preserves. *)
Lemma import_module_defines name package st attr :
  module_defines env st (resolve_name name package) attr = true ->
  exists m,
    fst (import_module env name package st) = Ret m /\
    hasattr m attr = true /\
    dict_get (sys_modules (snd (import_module env name package st)))
      (resolve_name name package) = Some m.
Proof.
  rewrite import_module_run. cbv zeta. unfold module_defines.
  destruct (dict_get (sys_modules st) (resolve_name name package)) as [m|] eqn:E.
  - intros Hm. exists m. by cbn [fst snd log_import sys_modules].
  - destruct (installed env (resolve_name name package)) as [defs|]; [|done].
    intros Hd. eexists. split; [done|]. split.
    + by rewrite hasattr_exec_module.
    + cbn [fst snd load_module log_import sys_modules next_id].
      apply dict_get_set_eq.
Qed.

Lemma import_module_keeps name package st :
  modules_kept st (snd (import_module env name package st)).
Proof.
  rewrite import_module_run. cbv zeta. intros f m Hf.
  destruct (dict_get (sys_modules st) (resolve_name name package)) as [m'|] eqn:E;
    [done|].
  destruct (installed env (resolve_name name package)) as [defs|]; [|done].
  cbn [snd load_module log_import sys_modules].
  rewrite dict_get_set_ne; [done|]. intros <-. congruence.
Qed.

(** A loaded module is returned as it is: nothing is executed. *)
Lemma import_module_cached name package st m :
  dict_get (sys_modules st) (resolve_name name package) = Some m ->
  import_module env name package st
  = (Ret m, log_import (resolve_name name package) st).
Proof. intros Hm. rewrite import_module_run. cbv zeta. by rewrite Hm. Qed.

(** At most one body is executed, and only for a module not yet loaded. *)
Lemma import_module_executed name package st :
  let full := resolve_name name package in
  let st' := snd (import_module env name package st) in
  (is_Some (dict_get (sys_modules st) full) -> executed st' = executed st) /\
  (executed st' = executed st \/ executed st' = executed st ++ [full]).
Proof.
  cbv zeta. rewrite import_module_run. cbv zeta.
  destruct (dict_get (sys_modules st) (resolve_name name package)) as [m|] eqn:E.
  - split; [done | by left].
  - split; [intros [? ?]; done|].
    destruct (installed env (resolve_name name package)); [by right | by left].
Qed.

Lemma import_module_still_defines name package st f a :
  module_defines env st f a = true ->
  module_defines env (snd (import_module env name package st)) f a = true.
Proof.
  unfold module_defines at 1.
  destruct (dict_get (sys_modules st) f) as [m|] eqn:Ef.
  - intros Hm. unfold module_defines.
    by rewrite (import_module_keeps name package st f m Ef).
  - destruct (installed env f) as [defs|] eqn:Ei; [|done]. intros Hd.
    rewrite import_module_run. cbv zeta.
    destruct (dict_get (sys_modules st) (resolve_name name package))
      as [m'|] eqn:E.
    + unfold module_defines. cbn [snd log_import sys_modules].
      by rewrite Ef, Ei.
    + destruct (installed env (resolve_name name package)) as [defs'|] eqn:Ei'.
      * unfold module_defines. cbn [snd load_module log_import sys_modules next_id].
        destruct (decide (resolve_name name package = f)) as [Heq|Hne].
        -- rewrite Heq, dict_get_set_eq, hasattr_exec_module.
           rewrite Heq, Ei in Ei'. injection Ei' as <-. exact Hd.
        -- rewrite dict_get_set_ne by done. by rewrite Ef, Ei.
      * unfold module_defines. cbn [snd log_import sys_modules].
        by rewrite Ef, Ei.
Qed.
End Imports.

(** ** Lookup in the config registry *)

Section ConfigLookup.
Import _LazyConfigMapping.
Context (env : Env).
Implicit Types (s : St) (k : string).

Lemma getattr_state {S} m attr (s : S) : snd (getattr m attr s) = s.
Proof. unfold getattr. by destruct (dict_get (mod_attrs m) attr). Qed.

(** The run of a lookup that reaches the static table. *)
Lemma getitem_static_run k v s :
  dict_get (_extra_content (fst s)) k = None ->
  dict_get (_mapping (fst s)) k = Some v ->
  __getitem__ env (VStr k) s =
  match import_module env ("." +:+ k) "opendelta.delta_models" (snd s) with
  | (Ret m, i') => getattr m v (set_module k m (fst s, i'))
  | (Raise e, i') => (Raise e, (fst s, i'))
  | (OutOfFuel, i') => (OutOfFuel, (fst s, i'))
  end.
Proof.
  intros He Hm. unfold __getitem__, getitem_str. cbn [hashable].
  unfold bind at 1. unfold get at 1. rewrite He, Hm.
  unfold bind, on_interp, zoom, modify.
  destruct (import_module env ("." +:+ k) "opendelta.delta_models" (snd s))
    as [[m|e|] i']; reflexivity.
Qed.

(** A lookup changes neither table and unloads no module. *)
Lemma getitem_frame key s :
  _mapping (fst (snd (__getitem__ env key s))) = _mapping (fst s) /\
  _extra_content (fst (snd (__getitem__ env key s))) = _extra_content (fst s) /\
  modules_kept (snd s) (snd (snd (__getitem__ env key s))) /\
  (forall f a,
     module_defines env (snd s) f a = true ->
     module_defines env (snd (snd (__getitem__ env key s))) f a = true).
Proof.
  assert (Hid : forall o, let r : Out PyClass * St := (o, s) in
            _mapping (fst (snd r)) = _mapping (fst s) /\
            _extra_content (fst (snd r)) = _extra_content (fst s) /\
            modules_kept (snd s) (snd (snd r)) /\
            (forall f a,
               module_defines env (snd s) f a = true ->
               module_defines env (snd (snd r)) f a = true)).
  { intros o. cbn. repeat split; try done. by intros f m. }
  unfold __getitem__. destruct (hashable key); [|apply (Hid (Raise _))].
  destruct key; try apply (Hid (Raise _)).
  rename s0 into k.
  destruct (dict_get (_extra_content (fst s)) k) as [c|] eqn:He.
  { unfold getitem_str, bind, get. rewrite He. apply (Hid (Ret c)). }
  destruct (dict_get (_mapping (fst s)) k) as [v|] eqn:Hm.
  2:{ unfold getitem_str, bind, get. rewrite He, Hm. apply (Hid (Raise _)). }
  pose proof (getitem_static_run k v s He Hm) as Hrun.
  unfold __getitem__ in Hrun. cbn [hashable] in Hrun. rewrite Hrun.
  pose proof (import_module_keeps env ("." +:+ k) "opendelta.delta_models" (snd s))
    as Hkeep.
  pose proof (fun f a =>
                import_module_still_defines env ("." +:+ k)
                  "opendelta.delta_models" (snd s) f a) as Hdef.
  destruct (import_module env ("." +:+ k) "opendelta.delta_models" (snd s))
    as [[m|e|] i']; cbn [snd] in Hkeep, Hdef.
  - rewrite getattr_state. cbn. done.
  - cbn. done.
  - cbn. done.
Qed.

(** Every lookup of a static key asks for an import, whatever is cached. *)
Lemma getitem_static_logged k v s :
  dict_get (_extra_content (fst s)) k = None ->
  dict_get (_mapping (fst s)) k = Some v ->
  import_calls (snd (snd (__getitem__ env (VStr k) s)))
  = import_calls (snd s) ++ [delta_module k].
Proof.
  intros He Hm. rewrite (getitem_static_run k v s He Hm).
  pose proof (import_module_logged env ("." +:+ k) "opendelta.delta_models"
                (snd s)) as Hlog.
  rewrite resolve_delta_module in Hlog.
  destruct (import_module env ("." +:+ k) "opendelta.delta_models" (snd s))
    as [[m|e|] i']; cbn [snd] in Hlog; [|done|done].
  by rewrite getattr_state.
Qed.

(** A static key whose module defines the class resolves. *)
Lemma getitem_static_ok k v s :
  dict_get (_extra_content (fst s)) k = None ->
  dict_get (_mapping (fst s)) k = Some v ->
  module_defines env (snd s) (delta_module k) v = true ->
  exists c,
    fst (__getitem__ env (VStr k) s) = Ret c /\
    resolved_as (snd (__getitem__ env (VStr k) s)) k c.
Proof.
  intros He Hm Hd.
  pose proof (getitem_frame (VStr k) s) as (Hfm & Hfe & _ & _).
  revert Hfm Hfe. rewrite (getitem_static_run k v s He Hm).
  rewrite <- resolve_delta_module in Hd.
  destruct (import_module_defines env _ _ _ _ Hd) as (m & Hr & Ha & Hs).
  rewrite resolve_delta_module in Hs.
  destruct (import_module env ("." +:+ k) "opendelta.delta_models" (snd s))
    as [o i']. cbn [fst snd] in Hr, Hs. subst o.
  destruct (hasattr_getattr m v (set_module k m (fst s, i')) Ha) as (c & Hc & Hg).
  rewrite Hg. cbn [fst snd]. intros Hfm Hfe. exists c. split; [done|].
  split; [by rewrite Hfe|]. exists m, v. by rewrite Hfm.
Qed.


Lemma resolved_as_kept s s' k c :
  _mapping (fst s') = _mapping (fst s) ->
  _extra_content (fst s') = _extra_content (fst s) ->
  modules_kept (snd s) (snd s') ->
  resolved_as s k c -> resolved_as s' k c.
Proof.
  intros Hm He Hk (Hx & m & v & Hv & Hs & Hc).
  split; [by rewrite He|]. exists m, v. rewrite Hm. split; [done|].
  split; [by apply Hk | done].
Qed.
End ConfigLookup.

(** ** Strings *)

Lemma str_app_cons a s t : String a s +:+ t = String a (s +:+ t).
Proof. reflexivity. Qed.

Lemma str_app_assoc s t u : (s +:+ t) +:+ u = s +:+ (t +:+ u).
Proof.
  induction s as [|a s IH]; [reflexivity|].
  by rewrite !str_app_cons, IH.
Qed.

Lemma prefix_spec p s : String.prefix p s = true <-> exists b, s = p +:+ b.
Proof.
  revert s. induction p as [|a p IH]; intros s.
  - split; [intros _; by exists s | intros _; by destruct s].
  - destruct s as [|b s].
    + split; [done | intros [t Ht]; discriminate].
    + cbn [String.prefix]. destruct (Ascii.ascii_dec a b) as [->|Hne].
      * rewrite IH. split; intros [t Ht]; exists t.
        -- by rewrite str_app_cons, <- Ht.
        -- rewrite str_app_cons in Ht. by injection Ht.
      * split; [done|]. intros [t Ht]. rewrite str_app_cons in Ht.
        injection Ht as Ha _. by destruct Hne.
Qed.

(** [str_contains] decides the occurrence of a substring. *)
Lemma str_contains_spec p s : str_contains p s = true <-> substring_of p s.
Proof.
  induction s as [|a s IH].
  - cbn [str_contains]. rewrite orb_false_r, prefix_spec. split.
    + intros [b Hb]. by exists "", b.
    + intros (x & b & Hx). destruct x as [|c x]; [by exists b|discriminate].
  - cbn [str_contains]. rewrite orb_true_iff, prefix_spec, IH. split.
    + intros [[b Hb]|(x & b & Hx)].
      * by exists "", b.
      * exists (String a x), b. by rewrite str_app_cons, <- Hx.
    + intros (x & b & Hx). destruct x as [|c x].
      * left. by exists b.
      * right. rewrite str_app_cons in Hx. injection Hx as _ Hx. by exists x, b.
Qed.

Lemma substring_of_app_r k s t : substring_of k t -> substring_of k (s +:+ t).
Proof.
  intros (a & b & ->). exists (s +:+ a), b. by rewrite str_app_assoc.
Qed.

Lemma substring_of_app_l k s t : substring_of k s -> substring_of k (s +:+ t).
Proof.
  intros (a & b & ->). exists a, (b +:+ t). by rewrite !str_app_assoc.
Qed.

Lemma str_app_nil_r s : s +:+ "" = s.
Proof.
  induction s as [|a s IH]; [reflexivity|]. by rewrite str_app_cons, IH.
Qed.

Lemma substring_of_refl k : substring_of k k.
Proof.
  exists "", "". change ("" +:+ k +:+ "") with (k +:+ "").
  by rewrite str_app_nil_r.
Qed.

(** Every joined string occurs in the result of [join]. *)
Lemma join_contains sep l k : k ∈ l -> substring_of k (join sep l).
Proof.
  unfold join. induction l as [|x l IH]; intros Hin.
  - by apply elem_of_nil in Hin.
  - destruct l as [|y l].
    + apply list_elem_of_singleton in Hin as ->. apply substring_of_refl.
    + change (String.concat sep (x :: y :: l))
        with (x +:+ sep +:+ String.concat sep (y :: l)).
      apply elem_of_cons in Hin as [->|Hin].
      * apply substring_of_app_l, substring_of_refl.
      * by apply substring_of_app_r, substring_of_app_r, IH.
Qed.

(** ** The pattern loop of [from_finetuned] *)

Lemma match_pattern_first loc items i k c :
  items !! i = Some (k, c) ->
  str_contains k loc = true ->
  (forall j k' c', j < i -> items !! j = Some (k', c') ->
                   str_contains k' loc = false) ->
  AutoDeltaConfig.match_pattern loc items = Some c.
Proof.
  revert i. induction items as [|[k0 c0] items IH]; intros i Hi Hk Hbefore.
  - by rewrite lookup_nil in Hi.
  - cbn [AutoDeltaConfig.match_pattern]. destruct i as [|i].
    + injection Hi as -> ->. by rewrite Hk.
    + rewrite (Hbefore 0 k0 c0) by (lia || done).
      apply (IH i); [done | done |].
      intros j k' c' Hj Hl. apply (Hbefore (S j) k' c'); [lia | done].
Qed.

Lemma match_pattern_none loc items :
  (forall k, k ∈ map fst items -> str_contains k loc = false) ->
  AutoDeltaConfig.match_pattern loc items = None.
Proof.
  induction items as [|[k0 c0] items IH]; intros Hall; [done|].
  cbn [AutoDeltaConfig.match_pattern].
  rewrite (Hall k0) by apply list_elem_of_here.
  apply IH. intros k Hk. apply Hall. by apply list_elem_of_further.
Qed.

(** ** Enumeration of the config registry *)

Section ConfigEnumeration.
Import _LazyConfigMapping.
Context (env : Env).
Implicit Types (s : St) (k : string).

Lemma bind_run {S A B} (m : M S A) (k : A -> M S B) (s : S) :
  bind m k s =
  match m s with
  | (Ret a, s') => k a s'
  | (Raise e, s') => (Raise e, s')
  | (OutOfFuel, s') => (OutOfFuel, s')
  end.
Proof. reflexivity. Qed.

Lemma mapM_pairs {S A B} (f : A -> M S B) (l : list A) (s : S) :
  mapM (fun x => let* v := f x in ret (x, v)) l s =
  match mapM f l s with
  | (Ret vs, s') => (Ret (zip l vs), s')
  | (Raise e, s') => (Raise e, s')
  | (OutOfFuel, s') => (OutOfFuel, s')
  end.
Proof.
  revert s. induction l as [|a l IH]; intros s; [reflexivity|].
  cbn [mapM]. rewrite !bind_run.
  destruct (f a s) as [[b|e|] s1]; [|reflexivity|reflexivity].
  cbn [ret]. rewrite !bind_run, IH.
  destruct (mapM f l s1) as [[vs|e|] s2]; reflexivity.
Qed.

Lemma modules_kept_trans st1 st2 st3 :
  modules_kept st1 st2 -> modules_kept st2 st3 -> modules_kept st1 st3.
Proof. intros H12 H23 f m Hf. by apply H23, H12. Qed.

(** Resolving a list of resolvable static keys, in order. *)
Lemma mapM_getitem_ok ks s :
  (forall k, k ∈ ks ->
     exists v, dict_get (_mapping (fst s)) k = Some v /\
               dict_get (_extra_content (fst s)) k = None /\
               module_defines env (snd s) (delta_module k) v = true) ->
  exists cs s',
    mapM (fun k => __getitem__ env (VStr k)) ks s = (Ret cs, s') /\
    Forall2 (resolved_as s') ks cs /\
    _mapping (fst s') = _mapping (fst s) /\
    _extra_content (fst s') = _extra_content (fst s) /\
    modules_kept (snd s) (snd s') /\
    import_calls (snd s') = import_calls (snd s) ++ map delta_module ks.
Proof.
  revert s. induction ks as [|k ks IH]; intros s Hall.
  - exists [], s. cbn. rewrite app_nil_r. repeat split; try done.
    by intros f m.
  - destruct (Hall k) as (v & Hm & He & Hd); [apply list_elem_of_here|].
    destruct (getitem_static_ok env k v s He Hm Hd) as (c & Hc & Hres).
    pose proof (getitem_frame env (VStr k) s) as (Hfm & Hfe & Hkeep & Hdef).
    pose proof (getitem_static_logged env k v s He Hm) as Hlog.
    cbn [mapM]. unfold bind at 1.
    destruct (__getitem__ env (VStr k) s) as [o s1]. cbn [fst snd] in *.
    subst o.
    destruct (IH s1) as (cs & s2 & Hrun & Hall2 & Hm2 & He2 & Hk2 & Hl2).
    { intros k' Hk'.
      destruct (Hall k') as (v' & Hm' & He' & Hd');
        [by apply list_elem_of_further|].
      exists v'. rewrite Hfm, Hfe. split; [done|]. split; [done|].
      by apply Hdef. }
    exists (c :: cs), s2. unfold bind, ret. rewrite Hrun.
    split; [done|]. split.
    { constructor; [|done].
      by apply (resolved_as_kept s1 s2). }
    split; [by rewrite Hm2|]. split; [by rewrite He2|].
    split; [by eapply modules_kept_trans|].
    rewrite Hl2, Hlog. cbn [map]. by rewrite <- app_assoc.
Qed.
End ConfigEnumeration.

(** ** What the enumerations return *)

Section ConfigEnumerationResults.
Import _LazyConfigMapping.
Context (env : Env).
Implicit Types (s : St) (k : string).

Lemma dict_keys_get {V} (d : list (string * V)) k :
  k ∈ dict_keys d -> exists v, dict_get d k = Some v.
Proof.
  intros Hin. destruct (dict_get d k) as [v|] eqn:E; [by exists v|].
  by apply dict_get_None_keys in E.
Qed.

Lemma resolvable_static s :
  config_resolvable env s ->
  forall k, k ∈ dict_keys (_mapping (fst s)) ->
    exists v, dict_get (_mapping (fst s)) k = Some v /\
              dict_get (_extra_content (fst s)) k = None /\
              module_defines env (snd s) (delta_module k) v = true.
Proof.
  intros Hres k Hin. destruct (dict_keys_get _ k Hin) as [v Hv].
  exists v. split; [done|]. by apply Hres.
Qed.

Lemma keys_run s :
  keys s = (Ret (dict_keys (_mapping (fst s)) ++
                 dict_keys (_extra_content (fst s))), s).
Proof. reflexivity. Qed.

Lemma iter_run s :
  __iter__ s = (Ret (dict_keys (_mapping (fst s)) ++
                     dict_keys (_extra_content (fst s))), s).
Proof. reflexivity. Qed.

Lemma values_ok s :
  config_resolvable env s ->
  exists cs s',
    values env s = (Ret (cs ++ dict_values (_extra_content (fst s))), s') /\
    Forall2 (resolved_as s') (dict_keys (_mapping (fst s))) cs /\
    import_calls (snd s')
    = import_calls (snd s) ++ map delta_module (dict_keys (_mapping (fst s))).
Proof.
  intros Hres.
  destruct (mapM_getitem_ok env (dict_keys (_mapping (fst s))) s
              (resolvable_static s Hres))
    as (cs & s' & Hrun & Hall & _ & He & _ & Hlog).
  exists cs, s'. split; [|done].
  unfold values. rewrite bind_run. cbn [get]. rewrite bind_run, Hrun.
  rewrite bind_run. cbn [get ret]. by rewrite He.
Qed.

Lemma items_ok s :
  config_resolvable env s ->
  exists cs s',
    items env s
    = (Ret (zip (dict_keys (_mapping (fst s))) cs ++ _extra_content (fst s)),
       s') /\
    Forall2 (resolved_as s') (dict_keys (_mapping (fst s))) cs /\
    _mapping (fst s') = _mapping (fst s) /\
    _extra_content (fst s') = _extra_content (fst s) /\
    import_calls (snd s')
    = import_calls (snd s) ++ map delta_module (dict_keys (_mapping (fst s))).
Proof.
  intros Hres.
  destruct (mapM_getitem_ok env (dict_keys (_mapping (fst s))) s
              (resolvable_static s Hres))
    as (cs & s' & Hrun & Hall & Hm & He & _ & Hlog).
  exists cs, s'. split; [|done].
  unfold items. rewrite bind_run. cbn [get]. rewrite bind_run, mapM_pairs, Hrun.
  rewrite bind_run. cbn [get ret]. by rewrite He.
Qed.

(** C6, amended: [keys] and iteration list the static keys in table order
    and then the registered keys in registration order, without touching
    the state: they import nothing.  [values] and [items] list the static
    entries in table order and then the registered ones, and resolve every
    static entry on the way: the import of each static entry's module is
    requested, in table order, and each listed class is the one its
    module binds. *)
Theorem C6_enumeration_order_and_resolution s :
  config_resolvable env s ->
  let static := dict_keys (_mapping (fst s)) in
  let extra := _extra_content (fst s) in
  keys s = (Ret (static ++ dict_keys extra), s) /\
  __iter__ s = (Ret (static ++ dict_keys extra), s) /\
  (exists cs s',
     values env s = (Ret (cs ++ dict_values extra), s') /\
     Forall2 (resolved_as s') static cs /\
     import_calls (snd s')
     = import_calls (snd s) ++ map delta_module static) /\
  (exists cs s',
     items env s = (Ret (zip static cs ++ extra), s') /\
     Forall2 (resolved_as s') static cs /\
     import_calls (snd s')
     = import_calls (snd s) ++ map delta_module static).
Proof.
  intros Hres. cbv zeta.
  split; [apply keys_run|]. split; [apply iter_run|].
  split; [by apply values_ok|].
  destruct (items_ok s Hres) as (cs & s' & Hrun & Hall & _ & _ & Hlog).
  by exists cs, s'.
Qed.

End ConfigEnumerationResults.

(** ** The substring fallback of [from_finetuned] *)

Section Fallback.
Import _LazyConfigMapping.
Context (env : Env).

(** C2: when the loaded mapping has no [delta_type] field and every static
    entry can be resolved, [from_finetuned] enumerates the registry in
    registry order (static keys in table order, then registered keys in
    registration order, each static key paired with the class its module
    binds) and delegates to the class of the first key that occurs in the
    location string; in particular a location that contains [lora]
    resolves to the lora config class.  If no key occurs in the location,
    it raises the Unrecognized-Source error ([ValueError]) whose message
    contains every known key. *)
Theorem C2_from_finetuned_first_substring_match loc kw w d u :
  get_config_dict env loc (<["name_or_path" := VStr loc]> kw) = Ret (d, u) ->
  d !! "delta_type" = None ->
  config_resolvable env (config_state w) ->
  let static := dict_keys (_mapping (LAZY_CONFIG_MAPPING w)) in
  let extra := _extra_content (LAZY_CONFIG_MAPPING w) in
  let known := static ++ dict_keys extra in
  let result := fst (AutoDeltaConfig.from_finetuned env loc kw w) in
  exists cs s',
    items env (config_state w) = (Ret (zip static cs ++ extra), s') /\
    Forall2 (resolved_as s') static cs /\
    map fst (zip static cs ++ extra) = known /\
    (forall i k c,
       (zip static cs ++ extra) !! i = Some (k, c) ->
       substring_of k loc ->
       (forall j k' c', j < i -> (zip static cs ++ extra) !! j = Some (k', c') ->
                        ~ substring_of k' loc) ->
       result = class_from_dict env c d (<["name_or_path" := VStr loc]> kw)) /\
    (_mapping (LAZY_CONFIG_MAPPING w) = DELTA_CONFIG_MAPPING ->
     substring_of "lora" loc ->
     exists c, resolved_as s' "lora" c /\
       result = class_from_dict env c d (<["name_or_path" := VStr loc]> kw)) /\
    ((forall k, k ∈ known -> ~ substring_of k loc) ->
     result = Raise (ValueError (AutoDeltaConfig.unrecognized_model loc known)) /\
     forall k, k ∈ known ->
       substring_of k (AutoDeltaConfig.unrecognized_model loc known)).
Proof.
  intros Hload Hno Hres. cbv zeta.
  destruct (items_ok env (config_state w) Hres)
    as (cs & s' & Hrun & Hall & Hm & He & _).
  cbn [config_state fst snd] in Hrun, Hall, Hm, He.
  exists cs, s'. split; [exact Hrun|]. split; [exact Hall|].
  assert (Hkeys : map fst (zip (dict_keys (_mapping (LAZY_CONFIG_MAPPING w))) cs
                           ++ _extra_content (LAZY_CONFIG_MAPPING w))
                  = dict_keys (_mapping (LAZY_CONFIG_MAPPING w))
                    ++ dict_keys (_extra_content (LAZY_CONFIG_MAPPING w))).
  { rewrite map_app. f_equal. apply fst_zip.
    by rewrite (Forall2_length _ _ _ Hall). }
  split; [exact Hkeys|].
  rewrite (from_finetuned_untyped_run env loc kw w d u Hload Hno).
  cbv zeta. rewrite Hrun.
  assert (Hfirst : forall i k c,
    (zip (dict_keys (_mapping (LAZY_CONFIG_MAPPING w))) cs
     ++ _extra_content (LAZY_CONFIG_MAPPING w)) !! i = Some (k, c) ->
    substring_of k loc ->
    (forall j k' c', j < i ->
       (zip (dict_keys (_mapping (LAZY_CONFIG_MAPPING w))) cs
        ++ _extra_content (LAZY_CONFIG_MAPPING w)) !! j = Some (k', c') ->
       ~ substring_of k' loc) ->
    fst (match AutoDeltaConfig.match_pattern loc
                 (zip (dict_keys (_mapping (LAZY_CONFIG_MAPPING w))) cs
                  ++ _extra_content (LAZY_CONFIG_MAPPING w)) with
         | Some c0 =>
             (class_from_dict env c0 d (<["name_or_path" := VStr loc]> kw),
              log_call (Call_config_from_dict c0 d
                          (<["name_or_path" := VStr loc]> kw))
                (with_config
                   (log_call (Call_get_config_dict loc
                                (<["name_or_path" := VStr loc]> kw)) w)
                   (heap w) s'))
         | None =>
             (Raise (ValueError
                       (AutoDeltaConfig.unrecognized_model loc
                          (dict_keys (_mapping (fst s')) ++
                           dict_keys (_extra_content (fst s'))))),
              with_config
                (log_call (Call_get_config_dict loc
                             (<["name_or_path" := VStr loc]> kw)) w)
                (heap w) s')
         end)
    = class_from_dict env c d (<["name_or_path" := VStr loc]> kw)).
  { intros i k c Hi Hk Hbefore.
    rewrite (match_pattern_first loc _ i k c Hi); [done| |].
    - by apply str_contains_spec.
    - intros j k' c' Hj Hl. apply not_true_is_false.
      rewrite str_contains_spec. by eapply Hbefore. }
  split; [exact Hfirst|]. split.
  - intros Htab Hlora. rewrite Htab in Hall.
    cbn [DELTA_CONFIG_MAPPING dict_keys map fst] in Hall.
    apply Forall2_cons_inv_l in Hall as (c & cs' & Hc & _ & ->).
    exists c. split; [exact Hc|].
    apply (Hfirst 0 "lora" c); [rewrite Htab; reflexivity | exact Hlora |].
    intros j k' c' Hj. lia.
  - intros Hnone.
    rewrite match_pattern_none.
    + rewrite Hm, He. cbn [fst]. split; [done|].
      intros k Hk. unfold AutoDeltaConfig.unrecognized_model.
      do 5 apply substring_of_app_r. by apply join_contains.
    + intros k Hk. rewrite Hkeys in Hk. apply not_true_is_false.
      rewrite str_contains_spec. by apply Hnone.
Qed.
End Fallback.

(** ** The concrete installation *)

Lemma demo_resolvable : config_resolvable demo_env (config_state init_world).
Proof.
  intros k v Hk. cbn in Hk.
  repeat (destruct (decide (_ = k)) as [<-|?] in Hk;
          [injection Hk as <-; split; vm_compute; reflexivity|]).
  discriminate.
Qed.


(** C6, as stated, fails for [keys] (and iteration): in a freshly started
    process [keys] lists the seven static keys and leaves the state as it
    was; no import was requested and no module is loaded, in particular
    not the module of [lora]. *)
Lemma C6_keys_resolves_nothing :
  fst (_LazyConfigMapping.keys (config_state init_world))
  = Ret ["lora"; "low_rank_adapter"; "bitfit"; "adapter"; "compacter";
         "prefix"; "soft_prompt"] /\
  snd (_LazyConfigMapping.keys (config_state init_world))
  = config_state init_world /\
  import_calls (snd (snd (_LazyConfigMapping.keys (config_state init_world))))
  = [] /\
  sys_modules (snd (snd (_LazyConfigMapping.__iter__ (config_state init_world))))
  = [] /\
  delta_module "lora"
  ∉ import_calls (snd (snd (_LazyConfigMapping.keys (config_state init_world)))).
Proof.
  split; [reflexivity|]. split; [reflexivity|]. split; [reflexivity|].
  split; [reflexivity|]. apply not_elem_of_nil.
Qed.

Lemma C6_enumeration_witness :
  exists cs s',
    _LazyConfigMapping.values demo_env (config_state init_world)
    = (Ret (cs ++ []), s') /\
    import_calls (snd s') = map delta_module (dict_keys DELTA_CONFIG_MAPPING).
Proof.
  destruct (C6_enumeration_order_and_resolution demo_env
              (config_state init_world) demo_resolvable)
    as (_ & _ & (cs & s' & Hv & _ & Hlog) & _).
  exists cs, s'. split; [exact Hv | exact Hlog].
Defined.

Lemma C2_from_finetuned_witness :
  exists c,
    fst (AutoDeltaConfig.from_finetuned demo_env "hub/my_lora_t5" ∅ init_world)
    = class_from_dict demo_env c (<["lora_r" := VInt 7]> ∅)
        (<["name_or_path" := VStr "hub/my_lora_t5"]> ∅).
Proof.
  assert (Hload : get_config_dict demo_env "hub/my_lora_t5"
                    (<["name_or_path" := VStr "hub/my_lora_t5"]> ∅)
                  = Ret (<["lora_r" := VInt 7]> ∅,
                         <["name_or_path" := VStr "hub/my_lora_t5"]> ∅))
    by (vm_compute; reflexivity).
  destruct (C2_from_finetuned_first_substring_match demo_env
              "hub/my_lora_t5" ∅ init_world (<["lora_r" := VInt 7]> ∅)
              (<["name_or_path" := VStr "hub/my_lora_t5"]> ∅)
              Hload eq_refl demo_resolvable)
    as (cs & s' & _ & _ & _ & _ & Hlora & _).
  destruct (Hlora eq_refl) as (c & _ & Hc).
  { by exists "hub/my_", "_t5". }
  exists c. exact Hc.
Defined.

(** ** [getattribute_from_module] *)

Section GetAttribute.
Context (env : Env).

Lemma getattribute_none fuel m st :
  getattribute_from_module env (S fuel) m ANone st = (Ret RNone, st).
Proof. reflexivity. Qed.

(** An attribute of the module is returned; nothing is imported. *)
Lemma getattribute_present fuel m name st :
  hasattr m name = true ->
  exists c,
    dict_get (mod_attrs m) name = Some c /\
    getattribute_from_module env (S fuel) m (AName name) st = (Ret (RObj c), st).
Proof.
  intros Ha. destruct (hasattr_getattr m name st Ha) as (c & Hc & Hg).
  exists c. split; [done|]. cbn [getattribute_from_module].
  by rewrite Ha, bind_run, Hg.
Qed.

(** A tuple of designators is resolved element by element, in order. *)
Lemma getattribute_tuple fuel m names st :
  getattribute_from_module env (S fuel) m (ATuple names) st =
  match mapM (getattribute_from_module env fuel m) names st with
  | (Ret vs, st') => (Ret (RTuple vs), st')
  | (Raise e, st') => (Raise e, st')
  | (OutOfFuel, st') => (OutOfFuel, st')
  end.
Proof.
  cbn [getattribute_from_module]. rewrite bind_run.
  by destruct (mapM (getattribute_from_module env fuel m) names st)
    as [[vs|e|] st'].
Qed.

(** An attribute that the module lacks and [transformers] binds is taken
    from [transformers]. *)
Lemma getattribute_fallback fuel m name st :
  hasattr m name = false ->
  module_defines env st "transformers" name = true ->
  exists tm c,
    dict_get (sys_modules (snd (getattribute_from_module env (S (S fuel)) m
                                   (AName name) st))) "transformers" = Some tm /\
    dict_get (mod_attrs tm) name = Some c /\
    fst (getattribute_from_module env (S (S fuel)) m (AName name) st)
    = Ret (RObj c).
Proof.
  intros Ha Hd.
  destruct (import_module_defines env "transformers" "" st name Hd)
    as (tm & Hr & Hta & Hs).
  change (resolve_name "transformers" "") with "transformers" in Hs.
  cbn [getattribute_from_module]. rewrite Ha, bind_run.
  destruct (import_module env "transformers" "" st) as [o st1].
  cbn [fst snd] in Hr, Hs. subst o. rewrite Hta, bind_run.
  destruct (hasattr_getattr tm name st1 Hta) as (c & Hc & Hg).
  rewrite Hg. cbn [ret fst snd]. by exists tm, c.
Qed.

(** If [transformers] is not installed, the fallback raises. *)
Lemma getattribute_no_transformers fuel m name st :
  hasattr m name = false ->
  dict_get (sys_modules st) "transformers" = None ->
  installed env "transformers" = None ->
  fst (getattribute_from_module env (S fuel) m (AName name) st)
  = Raise (ModuleNotFoundError "transformers").
Proof.
  intros Ha Hs Hi. cbn [getattribute_from_module].
  rewrite Ha, bind_run, import_module_run. cbv zeta.
  change (resolve_name "transformers" "") with "transformers".
  by rewrite Hs, Hi.
Qed.

Lemma import_transformers_lacks st name :
  transformers_lacks env st name = true ->
  exists tm,
    fst (import_module env "transformers" "" st) = Ret tm /\
    hasattr tm name = false /\
    transformers_lacks env (snd (import_module env "transformers" "" st)) name
    = true.
Proof.
  unfold transformers_lacks. rewrite import_module_run. cbv zeta.
  change (resolve_name "transformers" "") with "transformers".
  destruct (dict_get (sys_modules st) "transformers") as [tm|] eqn:Es.
  - intros Hl. exists tm. cbn [fst snd log_import sys_modules].
    rewrite Es. split; [done|]. split; [|done].
    by apply negb_true_iff.
  - destruct (installed env "transformers") as [defs|] eqn:Ei; [|done].
    intros Hl. eexists. split; [reflexivity|].
    cbn [fst snd load_module log_import sys_modules next_id].
    rewrite dict_get_set_eq, hasattr_exec_module.
    split; [by apply negb_true_iff | done].
Qed.

(** C5: when the attribute is bound neither by the module nor by
    [transformers], the function calls itself on [transformers] again and
    again: whatever recursion budget it is given, the budget runs out
    before a value is returned or an error is raised. *)
Theorem C5_getattribute_absent_in_both_never_returns fuel m name st :
  hasattr m name = false ->
  transformers_lacks env st name = true ->
  fst (getattribute_from_module env fuel m (AName name) st) = OutOfFuel.
Proof.
  revert m st. induction fuel as [|fuel IH]; intros m st Ha Hl; [reflexivity|].
  cbn [getattribute_from_module]. rewrite Ha, bind_run.
  destruct (import_transformers_lacks st name Hl) as (tm & Hr & Hta & Hl').
  destruct (import_module env "transformers" "" st) as [o st1].
  cbn [fst snd] in Hr, Hl'. subst o.
  by apply IH.
Qed.
End GetAttribute.

Lemma C5_getattribute_witness :
  fst (getattribute_from_module demo_env 1000
         lora_module (AName "NoSuchClass") init_interp) = OutOfFuel.
Proof.
  apply C5_getattribute_absent_in_both_never_returns; reflexivity.
Defined.

(** ** Enumeration of the model registry *)

Lemma mapM_stable {S A B} (ext : S -> S -> Prop) (f : A -> M S B) :
  (forall s, ext s s) ->
  (forall s1 s2 s3, ext s1 s2 -> ext s2 s3 -> ext s1 s3) ->
  (forall x s v s1, f x s = (Ret v, s1) ->
     ext s s1 /\
     forall s2, ext s1 s2 -> exists s3, f x s2 = (Ret v, s3) /\ ext s2 s3) ->
  forall l s vs s1, mapM f l s = (Ret vs, s1) ->
    ext s s1 /\
    forall s2, ext s1 s2 -> exists s3, mapM f l s2 = (Ret vs, s3) /\ ext s2 s3.
Proof.
  intros Hrefl Htrans Hf l. induction l as [|x l IH]; intros s vs s1.
  - cbn [mapM ret]. intros [= <- <-]. split; [apply Hrefl|].
    intros s2 _. exists s2. split; [done | apply Hrefl].
  - cbn [mapM]. rewrite bind_run.
    destruct (f x s) as [[v|e|] sa] eqn:Hx; [|discriminate|discriminate].
    rewrite bind_run.
    destruct (mapM f l sa) as [[vs'|e|] sb] eqn:Hl; [|discriminate|discriminate].
    cbn [ret]. intros [= <- <-].
    destruct (Hf _ _ _ _ Hx) as (Ha & Hagain_x).
    destruct (IH _ _ _ Hl) as (Hb & Hagain_l).
    split; [by eapply Htrans|].
    intros s2 H2.
    destruct (Hagain_x s2) as (s3 & Hx2 & H3); [by eapply Htrans|].
    destruct (Hagain_l s3) as (s4 & Hl2 & H4); [by eapply Htrans|].
    exists s4. rewrite bind_run, Hx2, bind_run, Hl2. split; [done|].
    by eapply Htrans.
Qed.

Lemma mapM_Forall {S A B} (P : B -> Prop) (f : A -> M S B) :
  (forall x s v s1, f x s = (Ret v, s1) -> P v) ->
  forall l s vs s1, mapM f l s = (Ret vs, s1) -> Forall P vs.
Proof.
  intros Hf l. induction l as [|x l IH]; intros s vs s1.
  - cbn [mapM ret]. intros [= <- <-]. constructor.
  - cbn [mapM]. rewrite bind_run.
    destruct (f x s) as [[v|e|] sa] eqn:Hx; [|discriminate|discriminate].
    rewrite bind_run.
    destruct (mapM f l sa) as [[vs'|e|] sb] eqn:Hl; [|discriminate|discriminate].
    cbn [ret]. intros [= <- <-]. constructor; [by eapply Hf | by eapply IH].
Qed.

Section ModelKeys.
Import _LazyAutoMapping.
Context (env : Env) (fuel : nat).
Implicit Types (s : St).

Lemma modules_kept_refl st : modules_kept st st.
Proof. by intros f m. Qed.

Lemma modules_kept_log full st : modules_kept st (log_import full st).
Proof. by intros f m. Qed.

Lemma cache_ext_refl s : cache_ext s s.
Proof. repeat split; try done. by intros f m. Qed.

Lemma cache_ext_trans s1 s2 s3 :
  cache_ext s1 s2 -> cache_ext s2 s3 -> cache_ext s1 s3.
Proof.
  intros (A1 & A2 & A3 & A4 & A5) (B1 & B2 & B3 & B4 & B5).
  split; [congruence|]. split; [congruence|]. split; [congruence|].
  split; [intros k m Hk; by apply B4, A4|].
  by eapply modules_kept_trans.
Qed.

(** A name resolves to a class object, never to [None] or a tuple. *)
Lemma getattribute_name_obj n m a st v st' :
  getattribute_from_module env n m (AName a) st = (Ret v, st') ->
  exists c, v = RObj c.
Proof.
  revert m st. induction n as [|n IH]; intros m st; [discriminate|].
  cbn [getattribute_from_module]. destruct (hasattr m a).
  - rewrite bind_run. unfold getattr.
    destruct (dict_get (mod_attrs m) a) as [c|]; [|discriminate].
    cbn [ret]. intros [= <- <-]. by exists c.
  - rewrite bind_run.
    destruct (import_module env "transformers" "" st) as [[tm|e|] st1];
      [|discriminate|discriminate].
    apply IH.
Qed.

(** A resolution that succeeded succeeds again, with the same class
    object, in every later state. *)
Lemma getattribute_stable n m a st v st' :
  getattribute_from_module env n m (AName a) st = (Ret v, st') ->
  modules_kept st st' /\
  forall st2, modules_kept st' st2 ->
    exists st3,
      getattribute_from_module env n m (AName a) st2 = (Ret v, st3) /\
      modules_kept st2 st3.
Proof.
  revert m st. induction n as [|n IH]; intros m st; [discriminate|].
  cbn [getattribute_from_module]. destruct (hasattr m a) eqn:Ha.
  - rewrite bind_run. unfold getattr.
    destruct (dict_get (mod_attrs m) a) as [c|]; [|discriminate].
    cbn [ret]. intros [= <- <-]. split; [apply modules_kept_refl|].
    intros st2 _. exists st2. split; [|apply modules_kept_refl].
    by rewrite bind_run.
  - rewrite bind_run.
    pose proof (import_module_keeps env "transformers" "" st) as Hk1.
    pose proof (import_module_run env "transformers" "" st) as Hrun.
    destruct (import_module env "transformers" "" st) as [[tm|e|] st1] eqn:Ei;
      [|discriminate|discriminate].
    cbn [snd] in Hk1. intros Hrec.
    destruct (IH tm st1 Hrec) as (Hk2 & Hagain).
    split; [by eapply modules_kept_trans|].
    assert (Hloaded : dict_get (sys_modules st1) "transformers" = Some tm).
    { cbv zeta in Hrun.
      change (resolve_name "transformers" "") with "transformers" in Hrun.
      destruct (dict_get (sys_modules st) "transformers") as [tm'|] eqn:Es.
      - injection Hrun as -> ->. done.
      - destruct (installed env "transformers") as [defs|]; [|discriminate].
        injection Hrun as -> ->.
        cbn [load_module log_import sys_modules]. apply dict_get_set_eq. }
    intros st2 Hk3.
    rewrite bind_run, (import_module_cached env _ _ _ tm)
      by (change (resolve_name "transformers" "") with "transformers";
          by apply Hk3, Hk2).
    destruct (Hagain (log_import (resolve_name "transformers" "") st2))
      as (st3 & Hr & Hk4).
    { eapply modules_kept_trans; [exact Hk3 | apply modules_kept_log]. }
    exists st3. split; [exact Hr|].
    eapply modules_kept_trans; [apply modules_kept_log | exact Hk4].
Qed.

Lemma on_interp_run {A} (m : M Interp A) s :
  on_interp m s = (fst (m (snd s)), (fst s, snd (m (snd s)))).
Proof. unfold on_interp, zoom. by destruct (m (snd s)). Qed.

Lemma load_attr_run model_type attr s :
  _load_attr_from_module env fuel model_type attr s =
  match dict_get (_modules (fst s)) model_type with
  | Some m => on_interp (getattribute_from_module env fuel m (AName attr)) s
  | None =>
      match import_module env ("." +:+ model_type) "opendelta.delta_models"
              (snd s) with
      | (Ret m, i') =>
          on_interp (getattribute_from_module env fuel m (AName attr))
            (set_module model_type m (fst s, i'))
      | (Raise e, i') => (Raise e, (fst s, i'))
      | (OutOfFuel, i') => (OutOfFuel, (fst s, i'))
      end
  end.
Proof.
  unfold _load_attr_from_module. rewrite bind_run. cbn [get].
  rewrite bind_run.
  destruct (dict_get (_modules (fst s)) model_type) as [m|]; [reflexivity|].
  rewrite bind_run, on_interp_run.
  destruct (import_module env ("." +:+ model_type) "opendelta.delta_models"
              (snd s)) as [[m|e|] i']; reflexivity.
Qed.

Lemma load_attr_cached_stable model_type attr m s v s1 :
  dict_get (_modules (fst s)) model_type = Some m ->
  on_interp (getattribute_from_module env fuel m (AName attr)) s = (Ret v, s1) ->
  cache_ext s s1 /\
  forall s2, cache_ext s1 s2 ->
    exists s3,
      _load_attr_from_module env fuel model_type attr s2 = (Ret v, s3) /\
      cache_ext s2 s3.
Proof.
  intros Hc. rewrite on_interp_run.
  destruct (getattribute_from_module env fuel m (AName attr) (snd s))
    as [o st'] eqn:Hg. cbn [fst snd]. intros [= -> <-].
  destruct (getattribute_stable _ _ _ _ _ _ Hg) as (Hk & Hagain).
  split; [repeat split; done|].
  intros s2 (E1 & E2 & E3 & E4 & E5). cbn [fst snd] in *.
  destruct (Hagain (snd s2) E5) as (st3 & Hr & Hk3).
  exists (fst s2, st3). rewrite load_attr_run, (E4 _ _ Hc), on_interp_run, Hr.
  split; [done|]. repeat split; done.
Qed.

(** A class loaded through the registry is a class object, and loading it
    again in any later state yields the same object. *)
Lemma load_attr_stable model_type attr s v s1 :
  _load_attr_from_module env fuel model_type attr s = (Ret v, s1) ->
  (exists c, v = RObj c) /\
  cache_ext s s1 /\
  forall s2, cache_ext s1 s2 ->
    exists s3,
      _load_attr_from_module env fuel model_type attr s2 = (Ret v, s3) /\
      cache_ext s2 s3.
Proof.
  rewrite load_attr_run.
  destruct (dict_get (_modules (fst s)) model_type) as [m|] eqn:Hc.
  - intros Hrun. split.
    + rewrite on_interp_run in Hrun.
      destruct (getattribute_from_module env fuel m (AName attr) (snd s))
        as [o st'] eqn:Hg. cbn [fst snd] in Hrun. injection Hrun as -> _.
      by eapply getattribute_name_obj.
    + by eapply load_attr_cached_stable.
  - pose proof (import_module_keeps env ("." +:+ model_type)
                  "opendelta.delta_models" (snd s)) as Hk1.
    destruct (import_module env ("." +:+ model_type) "opendelta.delta_models"
                (snd s)) as [[m|e|] i']; [|discriminate|discriminate].
    cbn [snd] in Hk1. intros Hrun. split.
    + rewrite on_interp_run in Hrun.
      destruct (getattribute_from_module env fuel m (AName attr)
                  (snd (set_module model_type m (fst s, i'))))
        as [o st'] eqn:Hg. cbn [fst snd] in Hrun. injection Hrun as -> _.
      by eapply getattribute_name_obj.
    + destruct (load_attr_cached_stable model_type attr m
                  (set_module model_type m (fst s, i')) v s1)
        as (Hext & Hagain); [apply dict_get_set_eq | exact Hrun |].
      split; [|exact Hagain].
      eapply cache_ext_trans; [|exact Hext].
      repeat split; try done.
      intros k m0 Hk. cbn [set_module fst _modules].
      rewrite dict_get_set_ne; [done|]. intros <-. congruence.
Qed.

Lemma model_keys_run s :
  keys env fuel s =
  match mapM (fun kn => _load_attr_from_module env fuel (fst kn) (snd kn))
          (filter (fun kn => fst kn ∈ dict_keys (_model_mapping (fst s)))
             (_config_mapping (fst s))) s with
  | (Ret mapping_keys, s') =>
      (Ret (mapping_keys ++ map RObj (dict_keys (_extra_content (fst s')))), s')
  | (Raise e, s') => (Raise e, s')
  | (OutOfFuel, s') => (OutOfFuel, s')
  end.
Proof.
  unfold keys. rewrite bind_run. cbn [get]. rewrite bind_run.
  destruct (mapM _ _ s) as [[mk|e|] s']; reflexivity.
Qed.

(** An enumeration that succeeded lists class objects only, and a second
    enumeration lists the same objects. *)
Lemma model_keys_stable s ks s1 :
  keys env fuel s = (Ret ks, s1) ->
  Forall (fun x => exists c, x = RObj c) ks /\
  exists s2, keys env fuel s1 = (Ret ks, s2) /\ cache_ext s1 s2.
Proof.
  rewrite model_keys_run.
  destruct (mapM _ _ s) as [[mk|e|] s'] eqn:Hm; [|discriminate|discriminate].
  intros [= <- <-]. split.
  - apply Forall_app. split.
    + eapply (mapM_Forall _
                (fun kn => _load_attr_from_module env fuel (fst kn) (snd kn))
                (fun x s v s1 H =>
                proj1 (load_attr_stable (fst x) (snd x) s v s1 H))), Hm.
    + apply Forall_forall. intros x Hx.
      apply list_elem_of_fmap in Hx as (c & -> & _). by exists c.
  - destruct (mapM_stable cache_ext
                (fun kn => _load_attr_from_module env fuel (fst kn) (snd kn))
                cache_ext_refl cache_ext_trans
                (fun x s v s1 H =>
                   proj2 (load_attr_stable (fst x) (snd x) s v s1 H))
                _ _ _ _ Hm) as ((E1 & E2 & E3 & E4 & E5) & Hagain).
    destruct (Hagain s' (cache_ext_refl s')) as (s3 & Hr & Hext).
    exists s3. rewrite model_keys_run, E1, E2, Hr.
    destruct Hext as (_ & _ & -> & _). split; [done|].
    destruct (mapM_stable cache_ext
                (fun kn => _load_attr_from_module env fuel (fst kn) (snd kn))
                cache_ext_refl cache_ext_trans
                (fun x s v s1 H =>
                   proj2 (load_attr_stable (fst x) (snd x) s v s1 H))
                _ _ _ _ Hr) as (Hext & _).
    exact Hext.
Qed.
End ModelKeys.

(** ** [AutoDeltaModel] on a config of an unknown type *)

Section UnrecognizedConfig.
Context (env : Env) (fuel : nat).

Lemma on_delta_run {A} (m : M (_LazyAutoMapping.t * Interp) A) w :
  on_delta_mapping m w
  = (fst (m (delta_state w)), with_delta w (snd (m (delta_state w)))).
Proof.
  unfold on_delta_mapping, zoom, delta_state, with_delta.
  by destruct (m (LAZY_DELTA_MAPPING w, interp w)).
Qed.

Lemma delta_state_with_delta w s : delta_state (with_delta w s) = s.
Proof. by destruct s. Qed.

Lemma with_delta_twice w s s' : with_delta (with_delta w s) s' = with_delta w s'.
Proof. reflexivity. Qed.

Lemma cls_getattr_delta w :
  AutoDeltaModel.cls_getattr "_delta_model_mapping" w
  = (Ret AutoDeltaModel.DeltaMappingRef, w).
Proof. reflexivity. Qed.

Lemma cls_getattr_model w :
  AutoDeltaModel.cls_getattr "_model_mapping" w
  = (Raise (AttributeError
              "type object 'AutoDeltaModel' has no attribute '_model_mapping'"),
     w).
Proof. reflexivity. Qed.

Lemma mapM_name_of {S} (ks : list AttrVal) (w : S) :
  Forall (fun x => exists c, x = RObj c) ks ->
  mapM name_of ks w = (Ret (map known_name ks), w).
Proof.
  induction 1 as [|x ks [c ->] _ IH]; [reflexivity|].
  cbn [mapM]. rewrite bind_run. cbn [name_of ret]. rewrite bind_run, IH.
  reflexivity.
Qed.

(** The message of the Unrecognized-Config error contains every listed
    name. *)
Lemma unrecognized_config_lists config names n :
  n ∈ names ->
  substring_of n (AutoDeltaModel.unrecognized_config config names).
Proof.
  intros Hn. unfold AutoDeltaModel.unrecognized_config.
  do 7 apply substring_of_app_r. by apply substring_of_app_l, join_contains.
Qed.

(** [from_config] on a config whose type is not among the registry's
    keys raises the Unrecognized-Config error, and the message lists the
    name of every key. *)
Lemma from_config_unrecognized config backbone kwargs w ks s1 :
  _LazyAutoMapping.keys env fuel (delta_state w) = (Ret ks, s1) ->
  AutoDeltaModel.type_in config ks = false ->
  exists s2,
    AutoDeltaModel.from_config env fuel config backbone kwargs w
    = (Raise (ValueError
                (AutoDeltaModel.unrecognized_config config
                   (map known_name ks))),
       with_delta w s2).
Proof.
  intros Hk Ht.
  destruct (model_keys_stable env fuel _ _ _ Hk) as (Hobj & s2 & Hk2 & _).
  exists s2. unfold AutoDeltaModel.from_config.
  rewrite bind_run, cls_getattr_delta. cbn [AutoDeltaModel.mapping_keys].
  rewrite bind_run, on_delta_run, Hk. cbn [fst snd]. rewrite Ht.
  rewrite bind_run, cls_getattr_delta. cbn [AutoDeltaModel.mapping_keys].
  rewrite bind_run, on_delta_run, delta_state_with_delta, Hk2. cbn [fst snd].
  rewrite bind_run, mapM_name_of by done. reflexivity.
Qed.

(** [from_finetuned] in the same situation reads [cls._model_mapping]
    while it builds the message; the class has no such attribute. *)
Lemma from_finetuned_unrecognized location backbone model_args kwargs w
    config ks s1 :
  kwargs !! "config" = Some config ->
  isinstance_BaseDeltaConfig config = true ->
  _LazyAutoMapping.keys env fuel (delta_state w) = (Ret ks, s1) ->
  AutoDeltaModel.type_in config ks = false ->
  AutoDeltaModel.from_finetuned env fuel location backbone model_args kwargs w
  = (Raise (AttributeError
              "type object 'AutoDeltaModel' has no attribute '_model_mapping'"),
     with_delta w s1).
Proof.
  intros Hc Hi Hk Ht. unfold AutoDeltaModel.from_finetuned.
  cbv zeta. rewrite Hc. cbn [default from_option]. unfold id.
  rewrite Hi. cbn [negb].
  rewrite bind_run. cbn [ret]. rewrite bind_run, cls_getattr_delta.
  cbn [AutoDeltaModel.mapping_keys].
  rewrite bind_run, on_delta_run, Hk. cbn [fst snd]. rewrite Ht.
  rewrite bind_run, cls_getattr_model. reflexivity.
Qed.

(** C3: for a config whose type is not among the registry's keys,
    [from_config] raises the Unrecognized-Config error ([ValueError]) and
    its message lists the name of every known config type; but
    [from_finetuned], given the same config, raises [AttributeError]
    instead, because its error path reads [cls._model_mapping], an
    attribute the class does not have. *)
Theorem C3_from_finetuned_raises_attribute_error
    location backbone model_args kwargs kwargs' w config ks s1 :
  kwargs !! "config" = Some config ->
  isinstance_BaseDeltaConfig config = true ->
  _LazyAutoMapping.keys env fuel (delta_state w) = (Ret ks, s1) ->
  AutoDeltaModel.type_in config ks = false ->
  (exists s2,
     AutoDeltaModel.from_config env fuel config backbone kwargs' w
     = (Raise (ValueError
                 (AutoDeltaModel.unrecognized_config config
                    (map known_name ks))),
        with_delta w s2)) /\
  (forall x, x ∈ ks ->
     substring_of (known_name x)
       (AutoDeltaModel.unrecognized_config config (map known_name ks))) /\
  AutoDeltaModel.from_finetuned env fuel location backbone model_args kwargs w
  = (Raise (AttributeError
              "type object 'AutoDeltaModel' has no attribute '_model_mapping'"),
     with_delta w s1).
Proof.
  intros Hc Hi Hk Ht.
  split; [by eapply from_config_unrecognized|]. split.
  - intros x Hx. apply unrecognized_config_lists. by apply list_elem_of_fmap_2.
  - by eapply from_finetuned_unrecognized.
Qed.
End UnrecognizedConfig.

Lemma C3_from_finetuned_witness :
  fst (AutoDeltaModel.from_finetuned demo_env 5 "hub/x" VNone []
         my_config_options init_world)
  = Raise (AttributeError
             "type object 'AutoDeltaModel' has no attribute '_model_mapping'") /\
  exists msg,
    fst (AutoDeltaModel.from_config demo_env 5 (VInst MyConfig ∅) VNone ∅
           init_world)
    = Raise (ValueError msg).
Proof.
  destruct (_LazyAutoMapping.keys demo_env 5 (delta_state init_world))
    as [o s1] eqn:Hk.
  assert (Ho : exists ks, o = Ret ks /\
                 AutoDeltaModel.type_in (VInst MyConfig ∅) ks = false).
  { apply (f_equal fst) in Hk. cbn [fst] in Hk. rewrite <- Hk.
    eexists. split; vm_compute; reflexivity. }
  destruct Ho as (ks & -> & Ht).
  destruct (C3_from_finetuned_raises_attribute_error demo_env 5 "hub/x" VNone []
              my_config_options ∅ init_world (VInst MyConfig ∅) ks s1
              eq_refl eq_refl Hk Ht) as ((s2 & Hc) & _ & Hf).
  split; [by rewrite Hf|]. eexists. by rewrite Hc.
Defined.

(** ** The reverse index of the model registry *)

Section ReverseIndex.
Import _LazyAutoMapping.
Implicit Types (cm acc : list (string * string)) (k n : string).

(** An entry of the reverse index comes from an entry of the table. *)
Lemma reverse_fold_sound cm acc n k :
  dict_get (fold_left (fun d kv => dict_set d (snd kv) (fst kv)) cm acc) n
  = Some k ->
  dict_get acc n = Some k \/ (k, n) ∈ cm.
Proof.
  revert acc. induction cm as [|[k0 n0] cm IH]; intros acc; cbn [fold_left].
  - by left.
  - intros Hg. destruct (IH _ Hg) as [Ha|Hin].
    + cbn [fst snd] in Ha. destruct (decide (n0 = n)) as [->|Hne].
      * rewrite dict_get_set_eq in Ha. injection Ha as ->.
        right. apply list_elem_of_here.
      * rewrite dict_get_set_ne in Ha by done. by left.
    + right. by apply list_elem_of_further.
Qed.

(** Every name of the table, and every name already indexed, is indexed. *)
Lemma reverse_fold_complete cm acc n :
  is_Some (dict_get acc n) \/ n ∈ map snd cm ->
  is_Some (dict_get (fold_left (fun d kv => dict_set d (snd kv) (fst kv)) cm acc) n).
Proof.
  revert acc. induction cm as [|[k0 n0] cm IH]; intros acc; cbn [fold_left].
  - intros [Ha|Hin]; [done | by apply elem_of_nil in Hin].
  - intros Hor. apply IH. cbn [fst snd map] in *.
    destruct (decide (n0 = n)) as [->|Hne].
    + left. rewrite dict_get_set_eq. eauto.
    + destruct Hor as [Ha|Hin].
      * left. by rewrite dict_get_set_ne.
      * right. apply elem_of_cons in Hin as [?|?]; [congruence | done].
Qed.

Lemma reverse_mapping_sound cm n k :
  dict_get (reverse_mapping cm) n = Some k -> (k, n) ∈ cm.
Proof.
  intros Hg. by destruct (reverse_fold_sound cm [] n k Hg) as [?|?].
Qed.

Lemma NoDup_fst_functional cm k n1 n2 :
  NoDup (map fst cm) -> (k, n1) ∈ cm -> (k, n2) ∈ cm -> n1 = n2.
Proof.
  induction cm as [|[k0 n0] cm IH]; intros Hnd H1 H2.
  - by apply elem_of_nil in H1.
  - cbn [map fst] in Hnd. apply NoDup_cons in Hnd as [Hnin Hnd].
    apply elem_of_cons in H1 as [H1|H1];
      apply elem_of_cons in H2 as [H2|H2].
    + congruence.
    + injection H1 as -> ->. exfalso. apply Hnin.
      by apply (list_elem_of_fmap_2 fst _ (k0, n2)).
    + injection H2 as -> ->. exfalso. apply Hnin.
      by apply (list_elem_of_fmap_2 fst _ (k0, n1)).
    + by apply IH.
Qed.

Lemma NoDup_snd_functional cm k1 k2 n :
  NoDup (map snd cm) -> (k1, n) ∈ cm -> (k2, n) ∈ cm -> k1 = k2.
Proof.
  induction cm as [|[k0 n0] cm IH]; intros Hnd H1 H2.
  - by apply elem_of_nil in H1.
  - cbn [map snd] in Hnd. apply NoDup_cons in Hnd as [Hnin Hnd].
    apply elem_of_cons in H1 as [H1|H1];
      apply elem_of_cons in H2 as [H2|H2].
    + congruence.
    + injection H1 as -> ->. exfalso. apply Hnin.
      by apply (list_elem_of_fmap_2 snd _ (k2, n0)).
    + injection H2 as -> ->. exfalso. apply Hnin.
      by apply (list_elem_of_fmap_2 snd _ (k1, n0)).
    + by apply IH.
Qed.


(** In a table with distinct names, the reverse index inverts the table. *)
Lemma reverse_mapping_inverts cm k n :
  NoDup (map snd cm) ->
  (k, n) ∈ cm ->
  dict_get (reverse_mapping cm) n = Some k.
Proof.
  intros Hnd Hin.
  destruct (reverse_fold_complete cm [] n) as [k' Hk'].
  { right. by apply (list_elem_of_fmap_2 snd _ (k, n)). }
  fold (reverse_mapping cm) in Hk'. rewrite Hk'. f_equal.
  eapply NoDup_snd_functional; [done | | done].
  by apply reverse_mapping_sound.
Qed.

Lemma dict_get_elem {V} (d : list (string * V)) k v :
  dict_get d k = Some v -> (k, v) ∈ d.
Proof.
  induction d as [|[k0 v0] d IH]; cbn [dict_get]; [done|].
  destruct (decide (k0 = k)) as [->|Hne].
  - intros [= ->]. apply list_elem_of_here.
  - intros Hg. by apply list_elem_of_further, IH.
Qed.

Lemma DELTA_CONFIG_MAPPING_keys_distinct : NoDup (map fst DELTA_CONFIG_MAPPING).
Proof. apply (bool_decide_unpack _). vm_compute. exact I. Qed.

Lemma DELTA_CONFIG_MAPPING_names_distinct : NoDup (map snd DELTA_CONFIG_MAPPING).
Proof. apply (bool_decide_unpack _). vm_compute. exact I. Qed.
End ReverseIndex.

Section FaithfulNames.
Context (env : Env).




End FaithfulNames.





(** ** Registration order *)

(** A key registered for the first time goes after every key registered
    before; registering a key again keeps its place. *)
Lemma register_order key value (s : _LazyConfigMapping.t * Interp) :
  key ∉ dict_keys (_LazyConfigMapping._mapping (fst s)) ->
  exists s',
    _LazyConfigMapping.register key value s = (Ret tt, s') /\
    _LazyConfigMapping._mapping (fst s') = _LazyConfigMapping._mapping (fst s) /\
    dict_keys (_LazyConfigMapping._extra_content (fst s'))
    = if bool_decide
           (key ∈ dict_keys (_LazyConfigMapping._extra_content (fst s)))
      then dict_keys (_LazyConfigMapping._extra_content (fst s))
      else dict_keys (_LazyConfigMapping._extra_content (fst s)) ++ [key].
Proof.
  intros Hn. exists (_LazyConfigMapping.set_extra key value s).
  split; [by apply register_fresh|]. split; [reflexivity|].
  cbn [_LazyConfigMapping.set_extra fst _LazyConfigMapping._extra_content].
  case_bool_decide as Hin.
  - by apply dict_keys_set_old.
  - by apply dict_keys_set_new.
Qed.

(** * Further properties *)

(** ** The config registry: membership, missing keys, registration *)

Section ConfigMembership.
Import _LazyConfigMapping.
Context (env : Env).
Implicit Types (s : St) (k : string).

(** X1: [contains] answers true exactly for the keys that [keys] lists,
    and neither of the two changes the state: no module is imported. *)
Theorem X1_contains_agrees_with_keys k s :
  exists b ks,
    __contains__ k s = (Ret b, s) /\
    keys s = (Ret ks, s) /\
    (b = true <-> k ∈ ks).
Proof.
  exists (dict_mem (_mapping (fst s)) k || dict_mem (_extra_content (fst s)) k),
    (dict_keys (_mapping (fst s)) ++ dict_keys (_extra_content (fst s))).
  split; [reflexivity|]. split; [reflexivity|].
  rewrite orb_true_iff, elem_of_app, !dict_mem_true. done.
Qed.

Lemma contains_false k s :
  fst (__contains__ k s) = Ret false <->
  dict_get (_mapping (fst s)) k = None /\
  dict_get (_extra_content (fst s)) k = None.
Proof.
  unfold __contains__. rewrite bind_run. cbn [get ret fst].
  unfold dict_mem.
  destruct (dict_get (_mapping (fst s)) k), (dict_get (_extra_content (fst s)) k);
    cbn; split; try done; intros [? ?]; done.
Qed.

(** A key that [contains] rejects is a missing key. *)
Lemma getitem_not_contained k s :
  fst (__contains__ k s) = Ret false ->
  __getitem__ env (VStr k) s = (Raise (KeyError (VStr k)), s).
Proof.
  intros [Hm He]%contains_false.
  unfold __getitem__, getitem_str. cbn [hashable].
  rewrite bind_run. cbn [get]. by rewrite He, Hm.
Qed.

End ConfigMembership.

Section ConfigRegistration.
Import _LazyConfigMapping.
Implicit Types (s : St) (k : string).

(** One [register] call keeps the registry well formed, imports nothing,
    leaves the static table alone and moves no registered key. *)
Lemma register_step key value s :
  config_wf s ->
  let s' := snd (register key value s) in
  _mapping (fst s') = _mapping (fst s) /\
  snd s' = snd s /\
  config_wf s' /\
  dict_keys (_extra_content (fst s))
    `prefix_of` dict_keys (_extra_content (fst s')).
Proof.
  intros [Hsh Hnd]. cbv zeta.
  destruct (decide (key ∈ dict_keys (_mapping (fst s)))) as [Hin|Hn].
  - destruct (register_static key value s Hin) as [msg ->]. cbn [snd].
    split; [done|]. split; [done|]. split; [by split | reflexivity].
  - rewrite (register_fresh key value s Hn). unfold config_wf.
    cbn [snd fst set_extra _mapping _extra_content].
    split; [done|]. split; [done|].
    destruct (decide (key ∈ dict_keys (_extra_content (fst s)))) as [Hold|Hnew].
    + rewrite (dict_keys_set_old _ _ value Hold). split; [done|]. reflexivity.
    + rewrite (dict_keys_set_new _ _ value Hnew). split; [split|].
      * intros k Hk. rewrite elem_of_app, list_elem_of_singleton.
        intros [Hk'|Heq]; [by eapply Hsh | by subst k].
      * apply NoDup_app. split; [done|]. split; [|apply NoDup_singleton].
        intros x Hx. rewrite list_elem_of_singleton. intros Heq. by subst x.
      * by apply prefix_app_r.
Qed.

(** X3: whatever registrations are attempted, in whatever order, the
    static table is unchanged, no static key gets shadowed, nothing is
    imported, the keys registered before keep their places, and [keys]
    lists every key once. *)
Theorem X3_registrations_keep_registry_well_formed regs s :
  NoDup (dict_keys (_mapping (fst s))) ->
  config_wf s ->
  let s' := register_all regs s in
  _mapping (fst s') = _mapping (fst s) /\
  snd s' = snd s /\
  config_wf s' /\
  dict_keys (_extra_content (fst s))
    `prefix_of` dict_keys (_extra_content (fst s')) /\
  exists ks, keys s' = (Ret ks, s') /\ NoDup ks.
Proof.
  intros Hst Hwf. cbv zeta.
  assert (Hinv : _mapping (fst (register_all regs s)) = _mapping (fst s) /\
                 snd (register_all regs s) = snd s /\
                 config_wf (register_all regs s) /\
                 dict_keys (_extra_content (fst s))
                   `prefix_of` dict_keys (_extra_content (fst (register_all regs s)))).
  { clear Hst. revert s Hwf. induction regs as [|[key value] regs IH]; intros s Hwf.
    - split; [done|]. split; [done|]. split; [done | reflexivity].
    - cbn [register_all].
      destruct (register_step key value s Hwf) as (Hm & Hi & Hwf' & Hp).
      destruct (IH _ Hwf') as (Hm' & Hi' & Hwf'' & Hp').
      split; [congruence|]. split; [congruence|]. split; [done|].
      by etrans. }
  destruct Hinv as (Hm & Hi & [Hsh Hnd] & Hp).
  split; [done|]. split; [done|]. split; [done|]. split; [done|].
  eexists. split; [reflexivity|].
  apply NoDup_app. rewrite Hm. split; [done|]. split; [|done].
  intros k Hk. apply Hsh. by rewrite Hm.
Qed.
End ConfigRegistration.

Lemma init_config_wf : config_wf (config_state init_world).
Proof. split; [intros k _; apply not_elem_of_nil | apply NoDup_nil_2]. Qed.

Lemma X3_registrations_witness :
  config_wf (register_all [("foo", FooConfig); ("lora", MyConfig);
                           ("foo", MyConfig)] (config_state init_world)) /\
  exists ks,
    _LazyConfigMapping.keys
      (register_all [("foo", FooConfig); ("lora", MyConfig); ("foo", MyConfig)]
         (config_state init_world))
    = (Ret ks,
       register_all [("foo", FooConfig); ("lora", MyConfig); ("foo", MyConfig)]
         (config_state init_world)) /\
    NoDup ks.
Proof.
  destruct (X3_registrations_keep_registry_well_formed
              [("foo", FooConfig); ("lora", MyConfig); ("foo", MyConfig)]
              (config_state init_world)
              DELTA_CONFIG_MAPPING_keys_distinct init_config_wf)
    as (_ & _ & Hwf & _ & Hks).
  split; [exact Hwf | exact Hks].
Defined.

(** ** Enumeration when a backing module is missing *)

Lemma mapM_invariant {S A B} (R : S -> S -> Prop) (f : A -> M S B) :
  (forall s, R s s) ->
  (forall s1 s2 s3, R s1 s2 -> R s2 s3 -> R s1 s3) ->
  (forall x s, R s (snd (f x s))) ->
  forall l s, R s (snd (mapM f l s)).
Proof.
  intros Hrefl Htrans Hf l. induction l as [|x l IH]; intros s; [apply Hrefl|].
  cbn [mapM]. rewrite bind_run. pose proof (Hf x s) as Hx.
  destruct (f x s) as [[b|e|] s1]; cbn [snd] in *; [|done|done].
  rewrite bind_run. pose proof (IH s1) as Hl.
  destruct (mapM f l s1) as [[bs|e|] s2]; cbn [snd ret] in *;
    by eapply Htrans.
Qed.

Lemma mapM_fails {S A B} (I : S -> Prop) (f : A -> M S B) (bad : A) :
  (forall x s, I s -> I (snd (f x s))) ->
  (forall x s, fst (f x s) <> OutOfFuel) ->
  (forall s, I s -> exists e, fst (f bad s) = Raise e) ->
  forall l s, bad ∈ l -> I s -> exists e, fst (mapM f l s) = Raise e.
Proof.
  intros Hinv Hfuel Hbad l. induction l as [|x l IH]; intros s Hin HI.
  - by apply elem_of_nil in Hin.
  - cbn [mapM]. rewrite bind_run.
    pose proof (Hinv x s HI) as HI'. pose proof (Hfuel x s) as Hnf.
    apply elem_of_cons in Hin as [<-|Hin].
    + destruct (Hbad s HI) as [e He].
      destruct (f bad s) as [o s1]. cbn [fst] in He. subst o. by exists e.
    + destruct (f x s) as [[b|e|] s1]; cbn [fst snd] in *; [|by exists e|done].
      rewrite bind_run. destruct (IH s1 Hin HI') as [e He].
      destruct (mapM f l s1) as [o s2]. cbn [fst] in He. subst o. by exists e.
Qed.

Section MissingModule.
Import _LazyConfigMapping.
Context (env : Env).
Implicit Types (s : St) (k : string).

Lemma import_keeps_unimportable name package st full :
  unimportable env st full ->
  unimportable env (snd (import_module env name package st)) full.
Proof.
  intros [Hs Hi]. split; [|done]. rewrite import_module_run. cbv zeta.
  destruct (dict_get (sys_modules st) (resolve_name name package)); [done|].
  destruct (installed env (resolve_name name package)) as [defs|] eqn:Ed;
    [|done].
  cbn [snd load_module log_import sys_modules].
  rewrite dict_get_set_ne; [done|]. intros Heq. congruence.
Qed.

Lemma getitem_not_out_of_fuel key s :
  fst (__getitem__ env key s) <> OutOfFuel.
Proof.
  destruct key; try (unfold __getitem__; by destruct (hashable _)).
  rename s0 into k.
  destruct (dict_get (_extra_content (fst s)) k) as [c|] eqn:He.
  { unfold __getitem__, getitem_str. cbn [hashable]. rewrite bind_run.
    cbn [get]. by rewrite He. }
  destruct (dict_get (_mapping (fst s)) k) as [v|] eqn:Hm.
  2:{ unfold __getitem__, getitem_str. cbn [hashable]. rewrite bind_run.
      cbn [get]. by rewrite He, Hm. }
  rewrite (getitem_static_run env k v s He Hm), import_module_run. cbv zeta.
  destruct (dict_get (sys_modules (snd s)) _) as [m|].
  - unfold getattr. by destruct (dict_get (mod_attrs m) v).
  - destruct (installed env _) as [defs|]; [|done].
    unfold getattr. by destruct (dict_get (mod_attrs _) v).
Qed.

Lemma getitem_keeps_unimportable key s full :
  unimportable env (snd s) full ->
  unimportable env (snd (snd (__getitem__ env key s))) full.
Proof.
  intros Hu.
  destruct key; try (unfold __getitem__; by destruct (hashable _)).
  rename s0 into k.
  destruct (dict_get (_extra_content (fst s)) k) as [c|] eqn:He.
  { unfold __getitem__, getitem_str. cbn [hashable]. rewrite bind_run.
    cbn [get]. by rewrite He. }
  destruct (dict_get (_mapping (fst s)) k) as [v|] eqn:Hm.
  2:{ unfold __getitem__, getitem_str. cbn [hashable]. rewrite bind_run.
      cbn [get]. by rewrite He, Hm. }
  rewrite (getitem_static_run env k v s He Hm).
  pose proof (import_keeps_unimportable ("." +:+ k) "opendelta.delta_models"
                (snd s) full Hu) as Hu'.
  destruct (import_module env ("." +:+ k) "opendelta.delta_models" (snd s))
    as [[m|e|] i']; cbn [snd] in *; [|done|done].
  by rewrite getattr_state.
Qed.

(** Looking up a static key whose module is missing. *)
Lemma getitem_unimportable k v s :
  dict_get (_extra_content (fst s)) k = None ->
  dict_get (_mapping (fst s)) k = Some v ->
  unimportable env (snd s) (delta_module k) ->
  fst (__getitem__ env (VStr k) s)
  = Raise (ModuleNotFoundError (delta_module k)).
Proof.
  intros He Hm [Hs Hi].
  rewrite (getitem_static_run env k v s He Hm), import_module_run. cbv zeta.
  rewrite resolve_delta_module. by rewrite Hs, Hi.
Qed.

Lemma mapM_getitem_missing k (ks : list string) s :
  k ∈ ks ->
  k ∈ dict_keys (_mapping (fst s)) ->
  dict_get (_extra_content (fst s)) k = None ->
  unimportable env (snd s) (delta_module k) ->
  exists e, fst (mapM (fun k => __getitem__ env (VStr k)) ks s) = Raise e.
Proof.
  intros Hin Hst He Hu.
  destruct (dict_keys_get _ k Hst) as [v Hv].
  apply (mapM_fails (missing_inv env s (delta_module k))
           (fun k => __getitem__ env (VStr k)) k).
  - intros x s1 (Hm1 & He1 & Hu1).
    destruct (getitem_frame env (VStr x) s1) as (Hfm & Hfe & _ & _).
    split; [congruence|]. split; [congruence|].
    by apply getitem_keeps_unimportable.
  - intros x s1. apply getitem_not_out_of_fuel.
  - intros s1 (Hm1 & He1 & Hu1). eexists.
    apply (getitem_unimportable k v); [by rewrite He1 | by rewrite Hm1 | done].
  - exact Hin.
  - split; [done|]. split; done.
Qed.

Lemma enumeration_fails s e :
  fst (mapM (fun k => __getitem__ env (VStr k)) (dict_keys (_mapping (fst s))) s)
  = Raise e ->
  fst (values env s) = Raise e /\ fst (items env s) = Raise e.
Proof.
  intros Hfail. unfold values, items.
  rewrite !bind_run. cbn [get]. rewrite !bind_run, mapM_pairs.
  destruct (mapM (fun k => __getitem__ env (VStr k))
              (dict_keys (_mapping (fst s))) s) as [o s1].
  cbn [fst] in Hfail. by subst o.
Qed.

(** X4: enumeration is all or nothing.  If the module of one static key
    is neither loaded nor installed, [values] and [items] raise, and so
    does the substring fallback of [from_finetuned], for every location,
    without a call to any config class. *)
Theorem X4_missing_module_fails_enumeration k loc kw w d u :
  k ∈ dict_keys (_mapping (LAZY_CONFIG_MAPPING w)) ->
  dict_get (_extra_content (LAZY_CONFIG_MAPPING w)) k = None ->
  unimportable env (interp w) (delta_module k) ->
  get_config_dict env loc (<["name_or_path" := VStr loc]> kw) = Ret (d, u) ->
  d !! "delta_type" = None ->
  (exists e, fst (values env (config_state w)) = Raise e) /\
  (exists e, fst (items env (config_state w)) = Raise e) /\
  (exists e, fst (AutoDeltaConfig.from_finetuned env loc kw w) = Raise e) /\
  ext_calls (snd (AutoDeltaConfig.from_finetuned env loc kw w))
  = ext_calls w ++ [Call_get_config_dict loc (<["name_or_path" := VStr loc]> kw)].
Proof.
  intros Hst He Hu Hload Hno.
  destruct (mapM_getitem_missing k
              (dict_keys (_mapping (LAZY_CONFIG_MAPPING w))) (config_state w)
              Hst Hst He Hu) as [e Hfail].
  pose proof (enumeration_fails (config_state w) e Hfail) as [Hvalues Hitems].
  split; [by exists e|]. split; [by exists e|].
  rewrite (from_finetuned_untyped_run env loc kw w d u Hload Hno). cbv zeta.
  destruct (items env (config_state w)) as [o s1]. cbn [fst] in Hitems.
  subst o. cbn [fst snd with_config log_call ext_calls].
  split; [by exists e | done].
Qed.
End MissingModule.

Lemma X4_missing_module_witness :
  (exists e,
     fst (AutoDeltaConfig.from_finetuned broken_env "hub/my_lora_t5" ∅ init_world)
     = Raise e) /\
  ext_calls (snd (AutoDeltaConfig.from_finetuned broken_env "hub/my_lora_t5" ∅
                    init_world))
  = [Call_get_config_dict "hub/my_lora_t5"
       (<["name_or_path" := VStr "hub/my_lora_t5"]> ∅)].
Proof.
  assert (Hload : get_config_dict broken_env "hub/my_lora_t5"
                    (<["name_or_path" := VStr "hub/my_lora_t5"]> ∅)
                  = Ret (<["lora_r" := VInt 7]> ∅,
                         <["name_or_path" := VStr "hub/my_lora_t5"]> ∅))
    by (vm_compute; reflexivity).
  destruct (X4_missing_module_fails_enumeration broken_env "bitfit"
              "hub/my_lora_t5" ∅ init_world _ _
              ltac:(apply (dict_get_Some_keys _ _ "BitFitConfig"); reflexivity)
              eq_refl (conj eq_refl eq_refl) Hload eq_refl)
    as (_ & _ & Hf & Hc).
  split; [exact Hf | exact Hc].
Defined.

(** ** The config factory: missing and unknown types, and what it leaves alone *)

Section ConfigFactory.
Context (env : Env).

(** The run of [from_dict] on a mapping without a [delta_type] entry. *)
Lemma from_dict_untyped_run l kw w d :
  heap w !! l = Some d -> d !! "delta_type" = None ->
  AutoDeltaConfig.from_dict env l kw w =
  (Raise (RuntimeError
            "Do not specify a delta type, cannot load the default config"),
   set_heap (heap w ++ [d]) w).
Proof.
  intros Hl Hv.
  unfold AutoDeltaConfig.from_dict, deepcopy, dict_pop, deref,
    bind, get, modify, ret, raise.
  rewrite Hl. unfold set_heap at 1 2. cbn [heap].
  rewrite lookup_app_r by lia. rewrite Nat.sub_diag. cbn [lookup list_lookup].
  rewrite Hv. reflexivity.
Qed.

(** X5: without a [delta_type] entry, or with one that is [None],
    [from_dict] raises the Missing-Type error ([RuntimeError]); it looks
    nothing up, imports nothing, calls no config class, and leaves the
    caller's mapping and every other existing mapping as they were. *)
Theorem X5_from_dict_without_type_raises l kw w d :
  heap w !! l = Some d ->
  d !! "delta_type" = None \/ d !! "delta_type" = Some VNone ->
  let r := AutoDeltaConfig.from_dict env l kw w in
  fst r = Raise (RuntimeError
                   "Do not specify a delta type, cannot load the default config") /\
  LAZY_CONFIG_MAPPING (snd r) = LAZY_CONFIG_MAPPING w /\
  LAZY_DELTA_MAPPING (snd r) = LAZY_DELTA_MAPPING w /\
  interp (snd r) = interp w /\
  ext_calls (snd r) = ext_calls w /\
  (forall i, i < length (heap w) -> heap (snd r) !! i = heap w !! i).
Proof.
  intros Hl [Hno|Hnone]; cbv zeta.
  - rewrite (from_dict_untyped_run l kw w d Hl Hno). cbn.
    repeat split. intros i Hi. by rewrite lookup_app_l.
  - rewrite (from_dict_run env l kw w d VNone Hl Hnone). cbn.
    repeat split. intros i Hi. by rewrite lookup_app_l.
Qed.

(** X6: a [delta_type] that names no key of the registry makes
    [from_dict] raise [KeyError] with that name; no module is imported,
    no config class is called, and the registries are unchanged. *)
Theorem X6_from_dict_unknown_type_raises_key_error l kw w d k :
  heap w !! l = Some d ->
  d !! "delta_type" = Some (VStr k) ->
  fst (_LazyConfigMapping.__contains__ k (config_state w)) = Ret false ->
  let r := AutoDeltaConfig.from_dict env l kw w in
  fst r = Raise (KeyError (VStr k)) /\
  LAZY_CONFIG_MAPPING (snd r) = LAZY_CONFIG_MAPPING w /\
  LAZY_DELTA_MAPPING (snd r) = LAZY_DELTA_MAPPING w /\
  interp (snd r) = interp w /\
  ext_calls (snd r) = ext_calls w /\
  heap (snd r) !! l = Some d.
Proof.
  intros Hl Hv Hc. cbv zeta.
  rewrite (from_dict_run env l kw w d (VStr k) Hl Hv). cbv zeta. cbn [is_None].
  rewrite (getitem_not_contained env k (config_state w) Hc). cbn. repeat split.
  rewrite lookup_app_l; [done | by eapply lookup_lt_Some].
Qed.

(** X7: a [delta_type] that names a key of the registry selects the class.
    For a registered key it is the registered class, and nothing is
    imported; for a static key whose module defines the class it is the
    class that module binds.  Either way the class's [from_dict] is called
    once, with the fields without [delta_type] and the caller's options,
    and its result is returned. *)
Theorem X7_from_dict_dispatches_on_type l kw w d k :
  heap w !! l = Some d ->
  d !! "delta_type" = Some (VStr k) ->
  let r := AutoDeltaConfig.from_dict env l kw w in
  (forall c,
     dict_get (_LazyConfigMapping._extra_content (LAZY_CONFIG_MAPPING w)) k
     = Some c ->
     fst r = class_from_dict env c (delete "delta_type" d) kw /\
     interp (snd r) = interp w /\
     ext_calls (snd r)
     = ext_calls w ++ [Call_config_from_dict c (delete "delta_type" d) kw]) /\
  (forall v,
     dict_get (_LazyConfigMapping._extra_content (LAZY_CONFIG_MAPPING w)) k
     = None ->
     dict_get (_LazyConfigMapping._mapping (LAZY_CONFIG_MAPPING w)) k = Some v ->
     module_defines env (interp w) (delta_module k) v = true ->
     exists c,
       resolved_as (config_state (snd r)) k c /\
       fst r = class_from_dict env c (delete "delta_type" d) kw /\
       ext_calls (snd r)
       = ext_calls w ++ [Call_config_from_dict c (delete "delta_type" d) kw]).
Proof.
  intros Hl Hv. cbv zeta.
  rewrite (from_dict_run env l kw w d (VStr k) Hl Hv). cbv zeta. cbn [is_None].
  split.
  - intros c Hc.
    assert (Hrun : _LazyConfigMapping.__getitem__ env (VStr k) (config_state w)
                   = (Ret c, config_state w)).
    { unfold _LazyConfigMapping.__getitem__, _LazyConfigMapping.getitem_str.
      cbn [hashable]. rewrite bind_run. cbn [get config_state fst].
      by rewrite Hc. }
    rewrite Hrun. by cbn.
  - intros v He Hm Hd.
    destruct (getitem_static_ok env k v (config_state w) He Hm Hd)
      as (c & Hc & Hres).
    destruct (_LazyConfigMapping.__getitem__ env (VStr k) (config_state w))
      as [o s']. cbn [fst snd] in Hc, Hres. subst o.
    exists c. cbn [fst snd log_call with_config ext_calls config_state
                     LAZY_CONFIG_MAPPING interp].
    split; [by destruct s'|done].
Qed.

Lemma items_frame s : tables_kept s (snd (_LazyConfigMapping.items env s)).
Proof.
  unfold _LazyConfigMapping.items. rewrite bind_run. cbn [get].
  rewrite bind_run.
  pose proof (mapM_invariant tables_kept
                (fun k => let* v := _LazyConfigMapping.__getitem__ env (VStr k)
                          in ret (k, v))) as Hinv.
  specialize (Hinv ltac:(intros s0; repeat split; try done; by intros f m)).
  specialize (Hinv ltac:(intros s1 s2 s3 (A1 & A2 & A3) (B1 & B2 & B3);
                         split; [congruence|]; split; [congruence|];
                         by eapply modules_kept_trans)).
  assert (Hstep : forall x s0,
            tables_kept s0
              (snd ((let* v := _LazyConfigMapping.__getitem__ env (VStr x)
                     in ret (x, v)) s0))).
  { intros x s0. rewrite bind_run.
    destruct (getitem_frame env (VStr x) s0) as (Hm & He & Hk & _).
    destruct (_LazyConfigMapping.__getitem__ env (VStr x) s0) as [[c|e|] s1];
      by repeat split. }
  specialize (Hinv Hstep
                (dict_keys (_LazyConfigMapping._mapping (fst s))) s).
  destruct (mapM _ _ s) as [[kvs|e|] s1]; exact Hinv.
Qed.

Lemma config_frame_with_config w calls s' h :
  tables_kept (config_state w) s' ->
  config_frame w
    {| LAZY_CONFIG_MAPPING := fst s'; LAZY_DELTA_MAPPING := LAZY_DELTA_MAPPING w;
       interp := snd s'; heap := heap w ++ h;
       ext_calls := ext_calls w ++ calls |}.
Proof.
  intros (Hm & He & Hk). repeat split; try done; by apply prefix_app_r.
Qed.

Lemma config_frame_intro w s' h calls :
  tables_kept (config_state w) s' ->
  heap w `prefix_of` h ->
  ext_calls w `prefix_of` calls ->
  config_frame w
    {| LAZY_CONFIG_MAPPING := fst s'; LAZY_DELTA_MAPPING := LAZY_DELTA_MAPPING w;
       interp := snd s'; heap := h; ext_calls := calls |}.
Proof. intros (Hm & He & Hk) Hh Hc. by repeat split. Qed.

(** X8: whatever its outcome, a run of [from_dict] or of the config
    factory's [from_finetuned] registers nothing: the static table and the
    registered entries of the config registry, and the whole model
    registry, are as before.  No loaded module is dropped, no existing
    mapping is touched, and [from_finetuned] allocates none. *)
Theorem X8_config_factory_registers_nothing l loc kw w :
  config_frame w (snd (AutoDeltaConfig.from_dict env l kw w)) /\
  config_frame w (snd (AutoDeltaConfig.from_finetuned env loc kw w)) /\
  heap (snd (AutoDeltaConfig.from_finetuned env loc kw w)) = heap w.
Proof.
  assert (Hrefl : forall calls h,
            config_frame w
              {| LAZY_CONFIG_MAPPING := LAZY_CONFIG_MAPPING w;
                 LAZY_DELTA_MAPPING := LAZY_DELTA_MAPPING w;
                 interp := interp w; heap := heap w ++ h;
                 ext_calls := ext_calls w ++ calls |}).
  { intros calls h.
    apply (config_frame_with_config w calls (config_state w) h).
    repeat split; try done. by intros f m. }
  split; [|].
  - clear loc. destruct (heap w !! l) as [d|] eqn:Hl.
    2:{ unfold AutoDeltaConfig.from_dict, deepcopy, deref.
        rewrite !bind_run. cbn [get]. rewrite Hl. cbn [raise snd].
        generalize (Hrefl [] []). rewrite !app_nil_r. by destruct w. }
    destruct (d !! "delta_type") as [v|] eqn:Hv.
    2:{ rewrite (from_dict_untyped_run l kw w d Hl Hv). cbn [snd set_heap].
        generalize (Hrefl [] [d]). by rewrite app_nil_r. }
    rewrite (from_dict_run env l kw w d v Hl Hv). cbv zeta.
    destruct (is_None v).
    { cbn [snd set_heap]. generalize (Hrefl [] [delete "delta_type" d]).
      by rewrite app_nil_r. }
    destruct (getitem_frame env v (config_state w)) as (Hm & He & Hk & _).
    destruct (_LazyConfigMapping.__getitem__ env v (config_state w))
      as [[c|e|] s']; cbn [snd log_call with_config ext_calls heap
                             LAZY_CONFIG_MAPPING LAZY_DELTA_MAPPING interp].
    + by apply (config_frame_with_config w [_] s' [_]).
    + generalize (config_frame_with_config w [] s' [delete "delta_type" d]
                    (conj Hm (conj He Hk))). by rewrite app_nil_r.
    + generalize (config_frame_with_config w [] s' [delete "delta_type" d]
                    (conj Hm (conj He Hk))). by rewrite app_nil_r.
  - assert (Hlog : forall c, ext_calls w `prefix_of` (ext_calls w ++ [c]))
      by (intros c; by apply prefix_app_r).
    assert (Hlog2 : forall c c',
              ext_calls w `prefix_of` ((ext_calls w ++ [c]) ++ [c'])).
    { intros c c'. rewrite <- app_assoc. by apply prefix_app_r. }
    destruct (get_config_dict env loc (<["name_or_path" := VStr loc]> kw))
      as [[d u]|e|] eqn:Hload.
    + destruct (d !! "delta_type") as [v|] eqn:Hv.
      * rewrite (from_finetuned_typed_run env loc kw w d u v Hload Hv).
        cbv zeta.
        destruct (getitem_frame env v (config_state w)) as (Hm & He & Hk & _).
        destruct (_LazyConfigMapping.__getitem__ env v (config_state w))
          as [[c|e|] s']; cbn [snd] in Hm, He, Hk;
          unfold with_config, log_call;
          cbn [snd ext_calls heap LAZY_CONFIG_MAPPING LAZY_DELTA_MAPPING interp];
          (split; [apply (config_frame_intro w s'); by repeat split | done]).
      * rewrite (from_finetuned_untyped_run env loc kw w d u Hload Hv).
        cbv zeta. pose proof (items_frame (config_state w)) as Hfr.
        destruct (_LazyConfigMapping.items env (config_state w))
          as [[items|e|] s']; cbn [snd] in Hfr;
          [destruct (AutoDeltaConfig.match_pattern loc items)|..];
          unfold with_config, log_call;
          cbn [snd ext_calls heap LAZY_CONFIG_MAPPING LAZY_DELTA_MAPPING interp];
          (split; [by apply (config_frame_intro w s') | done]).
    + unfold AutoDeltaConfig.from_finetuned, call_get_config_dict,
        bind, modify, lift_out.
      rewrite Hload. unfold log_call. cbn [snd heap].
      split; [|done].
      apply (config_frame_intro w (config_state w)); [|done|done].
      repeat split; try done. by intros f m.
    + unfold AutoDeltaConfig.from_finetuned, call_get_config_dict,
        bind, modify, lift_out.
      rewrite Hload. unfold log_call. cbn [snd heap].
      split; [|done].
      apply (config_frame_intro w (config_state w)); [|done|done].
      repeat split; try done. by intros f m.
Qed.
End ConfigFactory.

Lemma X5_from_dict_witness :
  fst (AutoDeltaConfig.from_dict demo_env 0 ∅ untyped_world)
  = Raise (RuntimeError
             "Do not specify a delta type, cannot load the default config") /\
  interp (snd (AutoDeltaConfig.from_dict demo_env 0 ∅ untyped_world))
  = interp untyped_world.
Proof.
  destruct (X5_from_dict_without_type_raises demo_env 0 ∅ untyped_world
              (<["lora_r" := VInt 7]> ∅) eq_refl (or_introl eq_refl))
    as (H1 & _ & _ & H4 & _).
  split; [exact H1 | exact H4].
Defined.

Lemma X6_from_dict_witness :
  fst (AutoDeltaConfig.from_dict demo_env 0 ∅ unknown_type_world)
  = Raise (KeyError (VStr "nonesuch")) /\
  ext_calls (snd (AutoDeltaConfig.from_dict demo_env 0 ∅ unknown_type_world))
  = [].
Proof.
  destruct (X6_from_dict_unknown_type_raises_key_error demo_env 0 ∅
              unknown_type_world (<["delta_type" := VStr "nonesuch"]> ∅)
              "nonesuch" eq_refl eq_refl eq_refl)
    as (H1 & _ & _ & _ & H5 & _).
  split; [exact H1 | exact H5].
Defined.

Lemma X7_from_dict_witness :
  exists c,
    resolved_as
      (config_state (snd (AutoDeltaConfig.from_dict demo_env 0 ∅ caller_world)))
      "lora" c /\
    fst (AutoDeltaConfig.from_dict demo_env 0 ∅ caller_world)
    = class_from_dict demo_env c (delete "delta_type" typed_mapping) ∅.
Proof.
  destruct (X7_from_dict_dispatches_on_type demo_env 0 ∅ caller_world
              typed_mapping "lora" eq_refl eq_refl) as [_ Hstatic].
  destruct (Hstatic "LoraConfig" eq_refl eq_refl) as (c & Hres & Hr & _).
  { vm_compute. reflexivity. }
  exists c. split; [exact Hres | exact Hr].
Defined.

(** ** The model registry: loading, caching, enumeration *)

Section ModelLoading.
Import _LazyAutoMapping.
Context (env : Env) (fuel : nat).
Implicit Types (s : St) (K a : string).

Lemma bound_kept s s' K a c : cache_ext s s' -> bound s K a c -> bound s' K a c.
Proof.
  intros (_ & _ & _ & Hk & _) (m & Hm & Hc). exists m. split; [by apply Hk|done].
Qed.

Lemma bound_functional s K a c c' : bound s K a c -> bound s K a c' -> c = c'.
Proof. intros (m & Hm & Hc) (m' & Hm' & Hc'). congruence. Qed.

(** A class that is bound in the cached module is returned from the
    cache: nothing is imported and the state does not change. *)
Lemma load_bound s K a c :
  bound s K a c ->
  _load_attr_from_module env (S fuel) K a s = (Ret (RObj c), s).
Proof.
  intros (m & Hm & Hc). rewrite load_attr_run, Hm, on_interp_run.
  assert (Ha : hasattr m a = true) by (unfold hasattr, dict_mem; by rewrite Hc).
  destruct (getattribute_present env fuel m a (snd s) Ha) as (c' & Hc' & ->).
  cbn [fst snd]. destruct s. cbn. congruence.
Qed.

(** Loading a class that the module of its key defines. *)
Lemma load_ok s K a :
  modules_synced s ->
  module_defines env (snd s) (delta_module K) a = true ->
  exists c s',
    _load_attr_from_module env (S fuel) K a s = (Ret (RObj c), s') /\
    bound s' K a c /\
    modules_synced s' /\
    cache_ext s s' /\
    (forall f a', module_defines env (snd s) f a' = true ->
                  module_defines env (snd s') f a' = true) /\
    import_calls (snd s')
    = import_calls (snd s)
      ++ match dict_get (_modules (fst s)) K with
         | Some _ => []
         | None => [delta_module K]
         end.
Proof.
  intros Hsync Hd.
  destruct (dict_get (_modules (fst s)) K) as [m|] eqn:Hc.
  - assert (Hb : exists c, bound s K a c).
    { pose proof (Hsync K m Hc) as Hs. unfold module_defines in Hd.
      rewrite Hs in Hd. unfold hasattr, dict_mem in Hd.
      destruct (dict_get (mod_attrs m) a) as [c|] eqn:Ha; [|done].
      exists c, m. done. }
    destruct Hb as [c Hb]. exists c, s. rewrite (load_bound s K a c Hb).
    rewrite app_nil_r. repeat split; try done.
    + apply cache_ext_refl.
  - rewrite load_attr_run, Hc.
    rewrite <- resolve_delta_module in Hd.
    destruct (import_module_defines env _ _ _ _ Hd) as (m & Hr & Ha & Hs).
    rewrite resolve_delta_module in Hs.
    pose proof (import_module_keeps env ("." +:+ K) "opendelta.delta_models"
                  (snd s)) as Hkeep.
    pose proof (fun f a' => import_module_still_defines env ("." +:+ K)
                  "opendelta.delta_models" (snd s) f a') as Hdef.
    pose proof (import_module_logged env ("." +:+ K) "opendelta.delta_models"
                  (snd s)) as Hlog.
    rewrite resolve_delta_module in Hlog.
    destruct (import_module env ("." +:+ K) "opendelta.delta_models" (snd s))
      as [o i']. cbn [fst snd] in *. subst o.
    rewrite on_interp_run.
    destruct (getattribute_present env fuel m a
                (snd (set_module K m (fst s, i'))) Ha) as (c & Hca & ->).
    exists c, (set_module K m (fst s, i')). cbn [fst snd set_module _modules].
    split; [done|].
    split; [exists m; cbn [fst set_module _modules]; by rewrite dict_get_set_eq|].
    split.
    { intros K' m' Hk'. cbn [fst snd set_module _modules] in *.
      destruct (decide (K = K')) as [<-|Hne].
      - rewrite dict_get_set_eq in Hk'. by injection Hk' as <-.
      - rewrite dict_get_set_ne in Hk' by done. by apply Hkeep, Hsync. }
    split.
    { repeat split; try done. intros K' m' Hk'. cbn [fst set_module _modules].
      rewrite dict_get_set_ne; [done|]. intros <-. congruence. }
    split; [exact Hdef | exact Hlog].
Qed.

(** X9: the model registry caches the module of a key.  Loading a class
    that the module defines succeeds; the import is requested only if the
    module is not cached yet, and loading the same class again returns the
    same object without any import or other change of state. *)
Theorem X9_model_registry_imports_once s K a :
  modules_synced s ->
  module_defines env (snd s) (delta_module K) a = true ->
  exists c s1,
    _load_attr_from_module env (S fuel) K a s = (Ret (RObj c), s1) /\
    _load_attr_from_module env (S fuel) K a s1 = (Ret (RObj c), s1) /\
    import_calls (snd s1)
    = import_calls (snd s)
      ++ match dict_get (_modules (fst s)) K with
         | Some _ => []
         | None => [delta_module K]
         end.
Proof.
  intros Hsync Hd.
  destruct (load_ok s K a Hsync Hd) as (c & s1 & Hrun & Hb & _ & _ & _ & Hlog).
  exists c, s1. split; [done|]. split; [by apply load_bound | done].
Qed.

(** Loading a list of classes that their modules define, in order. *)
Lemma loads_ok (L : list (string * string)) s :
  modules_synced s ->
  (forall kn, kn ∈ L ->
     module_defines env (snd s) (delta_module (fst kn)) (snd kn) = true) ->
  exists cs s',
    mapM (fun kn => _load_attr_from_module env (S fuel) (fst kn) (snd kn)) L s
    = (Ret (map RObj cs), s') /\
    Forall2 (fun kn c => bound s' (fst kn) (snd kn) c) L cs /\
    modules_synced s' /\
    cache_ext s s' /\
    (forall f a', module_defines env (snd s) f a' = true ->
                  module_defines env (snd s') f a' = true).
Proof.
  revert s. induction L as [|[K a] L IH]; intros s Hsync Hall.
  - exists [], s. split; [done|]. split; [constructor|]. split; [done|].
    split; [apply cache_ext_refl | done].
  - destruct (load_ok s K a Hsync) as (c & s1 & Hrun & Hb & Hs1 & He1 & Hd1 & _).
    { apply (Hall (K, a)), list_elem_of_here. }
    destruct (IH s1 Hs1) as (cs & s2 & Hrun2 & Hall2 & Hs2 & He2 & Hd2).
    { intros kn Hin. apply Hd1, Hall. by apply list_elem_of_further. }
    exists (c :: cs), s2. cbn [mapM fst snd]. rewrite bind_run, Hrun.
    rewrite bind_run, Hrun2. split; [done|].
    split; [constructor; [by eapply bound_kept | done]|].
    split; [done|]. split; [by eapply cache_ext_trans|].
    intros f a' Hf. by apply Hd2, Hd1.
Qed.

Lemma delta_resolvable_kept s s' :
  cache_ext s s' ->
  (forall f a', module_defines env (snd s) f a' = true ->
                module_defines env (snd s') f a' = true) ->
  delta_resolvable env s -> delta_resolvable env s'.
Proof.
  intros (E1 & E2 & _) Hd Hres K n. rewrite E1, E2. intros Hin.
  by apply Hd, Hres.
Qed.

(** The enumeration of a registry whose entries all resolve: the config
    classes of the keys that both tables have, in the order of the config
    table, followed by the registered config classes. *)
Lemma model_keys_ok s :
  modules_synced s ->
  delta_resolvable env s ->
  exists cs s',
    keys env (S fuel) s
    = (Ret (map RObj cs ++ map RObj (dict_keys (_extra_content (fst s)))), s') /\
    Forall2 (fun kn c => bound s' (fst kn) (snd kn) c)
      (filter (fun kn => fst kn ∈ dict_keys (_model_mapping (fst s)))
         (_config_mapping (fst s))) cs /\
    modules_synced s' /\
    cache_ext s s' /\
    delta_resolvable env s'.
Proof.
  intros Hsync Hres.
  destruct (loads_ok
              (filter (fun kn => fst kn ∈ dict_keys (_model_mapping (fst s)))
                 (_config_mapping (fst s))) s Hsync)
    as (cs & s' & Hrun & Hall & Hs' & He & Hd).
  { intros [K n] [_ Hin]%list_elem_of_filter. apply Hres.
    apply elem_of_app. by left. }
  exists cs, s'. rewrite model_keys_run, Hrun.
  destruct He as (E1 & E2 & E3 & E4 & E5). rewrite E3.
  split; [done|]. split; [done|]. split; [done|].
  split; [by repeat split|].
  apply (delta_resolvable_kept s s'); [by repeat split | done | done].
Qed.

(** Looking up a config class by its name. *)
Lemma model_getitem_ok s c K mn :
  dict_get (_extra_content (fst s)) c = None ->
  dict_get (_reverse_config_mapping (fst s)) (cls_name c) = Some K ->
  dict_get (_model_mapping (fst s)) K = Some mn ->
  modules_synced s ->
  module_defines env (snd s) (delta_module K) mn = true ->
  exists mc s',
    __getitem__ env (S fuel) c s = (Ret (RObj mc), s') /\
    bound s' K mn mc /\
    cache_ext s s'.
Proof.
  intros He Hr Hm Hsync Hd.
  destruct (load_ok s K mn Hsync Hd) as (mc & s' & Hrun & Hb & _ & Hext & _).
  exists mc, s'. unfold __getitem__. rewrite bind_run. cbn [get].
  by rewrite He, Hr, Hm.
Qed.
End ModelLoading.

(** ** The model factory: dispatch on the type of the config *)

Section ModelDispatch.
Context (env : Env) (fuel : nat).

Lemma load_reverse_kept n K a s :
  reverse_kept s (snd (_LazyAutoMapping._load_attr_from_module env n K a s)).
Proof.
  unfold reverse_kept. rewrite load_attr_run.
  destruct (dict_get (_LazyAutoMapping._modules (fst s)) K) as [m|].
  - by rewrite on_interp_run.
  - destruct (import_module env ("." +:+ K) "opendelta.delta_models" (snd s))
      as [[m|e|] i']; [|done|done].
    by rewrite on_interp_run.
Qed.

Lemma keys_reverse_kept n s :
  reverse_kept s (snd (_LazyAutoMapping.keys env n s)).
Proof.
  rewrite model_keys_run.
  pose proof (mapM_invariant reverse_kept
                (fun kn => _LazyAutoMapping._load_attr_from_module env n
                             (fst kn) (snd kn))
                (fun s0 => eq_refl)
                (fun s1 s2 s3 (H12 : reverse_kept s1 s2)
                     (H23 : reverse_kept s2 s3) => eq_trans H23 H12)
                (fun x s0 => load_reverse_kept n (fst x) (snd x) s0)
                (filter (fun kn => fst kn ∈ dict_keys
                                     (_LazyAutoMapping._model_mapping (fst s)))
                   (_LazyAutoMapping._config_mapping (fst s))) s) as Hinv.
  destruct (mapM _ _ s) as [[ks|e|] s']; exact Hinv.
Qed.

(** The heart of the dispatch: the class of the config is among the keys,
    and looking it up yields the model class that the module of the same
    key binds. *)
Lemma dispatch_lookup (s : _LazyAutoMapping.t * Interp) K cn mn m c mc fields :
  _LazyAutoMapping._reverse_config_mapping (fst s)
  = _LazyAutoMapping.reverse_mapping (_LazyAutoMapping._config_mapping (fst s)) ->
  NoDup (map snd (_LazyAutoMapping._config_mapping (fst s))) ->
  modules_synced s ->
  delta_resolvable env s ->
  (K, cn) ∈ _LazyAutoMapping._config_mapping (fst s) ->
  dict_get (_LazyAutoMapping._model_mapping (fst s)) K = Some mn ->
  dict_get (sys_modules (snd s)) (delta_module K) = Some m ->
  dict_get (mod_attrs m) cn = Some c ->
  dict_get (mod_attrs m) mn = Some mc ->
  cls_name c = cn ->
  dict_get (_LazyAutoMapping._extra_content (fst s)) c = None ->
  exists ks s1,
    _LazyAutoMapping.keys env (S fuel) s = (Ret ks, s1) /\
    AutoDeltaModel.type_in (VInst c fields) ks = true /\
    _LazyAutoMapping.__getitem__ env (S fuel) c s1 = (Ret (RObj mc), s1).
Proof.
  intros Hrev Hnd Hsync Hres Hin Hmn Hm Hc Hmc Hname Hex.
  destruct (model_keys_ok env fuel s Hsync Hres)
    as (cs & s1 & Hkeys & Hall & Hsync1 & Hext & _).
  pose proof (keys_reverse_kept (S fuel) s) as Hrk. rewrite Hkeys in Hrk.
  cbn [snd] in Hrk. unfold reverse_kept in Hrk.
  assert (Hbc : bound s1 K cn c /\ bound s1 K mn mc).
  { assert (Hf : (K, cn) ∈ filter
                   (fun kn => fst kn ∈ dict_keys
                                (_LazyAutoMapping._model_mapping (fst s)))
                   (_LazyAutoMapping._config_mapping (fst s))).
    { apply list_elem_of_filter. split; [|done].
      by eapply dict_get_Some_keys. }
    apply list_elem_of_lookup in Hf as [i Hi].
    destruct (Forall2_lookup_l _ _ _ _ _ Hall Hi) as (c' & _ & (m1 & Hm1 & Hc1)).
    cbn [fst snd] in Hm1, Hc1.
    pose proof (Hsync1 K m1 Hm1) as Hs1.
    destruct Hext as (_ & _ & _ & _ & Hkept).
    rewrite (Hkept _ _ Hm) in Hs1. injection Hs1 as <-.
    split; exists m; done. }
  destruct Hbc as [Hbc Hbm].
  exists (map RObj cs ++ map RObj (dict_keys
            (_LazyAutoMapping._extra_content (fst s)))), s1.
  split; [exact Hkeys|]. split.
  - unfold AutoDeltaModel.type_in. cbn [type_of].
    apply existsb_exists. exists (RObj c). split.
    + apply list_elem_of_In, elem_of_app. left.
      apply list_elem_of_fmap_2.
      assert (Hf : (K, cn) ∈ filter
                     (fun kn => fst kn ∈ dict_keys
                                  (_LazyAutoMapping._model_mapping (fst s)))
                     (_LazyAutoMapping._config_mapping (fst s))).
      { apply list_elem_of_filter. split; [|done].
        by eapply dict_get_Some_keys. }
      apply list_elem_of_lookup in Hf as [i Hi].
      destruct (Forall2_lookup_l _ _ _ _ _ Hall Hi) as (c' & Hci & Hb').
      cbn [fst snd] in Hb'.
      rewrite (bound_functional s1 K cn c c' Hbc Hb').
      by eapply list_elem_of_lookup_2.
    + cbn [is_class]. by apply bool_decide_eq_true_2.
  - destruct Hext as (E1 & E2 & E3 & _).
    unfold _LazyAutoMapping.__getitem__. rewrite bind_run. cbn [get].
    rewrite E3, Hex, Hrk, Hrev, Hname.
    rewrite (reverse_mapping_inverts _ K cn Hnd Hin), E2, Hmn.
    by apply load_bound.
Qed.

Lemma dispatchable_lookup w K cn mn m c mc fields :
  dispatchable env w K cn mn m c mc ->
  exists ks s1,
    _LazyAutoMapping.keys env (S fuel) (delta_state w) = (Ret ks, s1) /\
    AutoDeltaModel.type_in (VInst c fields) ks = true /\
    _LazyAutoMapping.__getitem__ env (S fuel) c s1 = (Ret (RObj mc), s1).
Proof.
  intros (H1 & H2 & H3 & H4 & H5 & H6 & H7 & H8 & H9 & H10 & H11).
  by eapply (dispatch_lookup (delta_state w) K cn mn m c mc).
Qed.

(** X10: [from_config] on an instance of a config class that the module
    of a key binds under the key's config name delegates to the model
    class that the same module binds under the key's model name: that
    class's [from_config] is called once, with the config, the backbone
    and the options as given, and its result is returned.  The config
    registry is not touched. *)
Theorem X10_from_config_dispatches_to_model_class
    w K cn mn m c mc fields backbone kwargs :
  dispatchable env w K cn mn m c mc ->
  let r := AutoDeltaModel.from_config env (S fuel) (VInst c fields)
             backbone kwargs w in
  fst r = class_from_config env mc (VInst c fields) backbone kwargs /\
  ext_calls (snd r)
  = ext_calls w ++ [Call_model_from_config mc (VInst c fields) backbone kwargs] /\
  LAZY_CONFIG_MAPPING (snd r) = LAZY_CONFIG_MAPPING w /\
  heap (snd r) = heap w.
Proof.
  intros Hd. cbv zeta.
  destruct (dispatchable_lookup w K cn mn m c mc fields Hd)
    as (ks & s1 & Hkeys & Hin & Hget).
  unfold AutoDeltaModel.from_config.
  rewrite bind_run, cls_getattr_delta. cbn [AutoDeltaModel.mapping_keys].
  rewrite bind_run, on_delta_run, Hkeys. cbn [fst snd]. rewrite Hin.
  rewrite bind_run. unfold AutoDeltaModel.model_class_for. cbn [type_of].
  rewrite bind_run, cls_getattr_delta. cbn [AutoDeltaModel.mapping_getitem].
  rewrite bind_run, on_delta_run, delta_state_with_delta, Hget.
  cbn [fst snd ret]. unfold call_from_config. rewrite bind_run.
  cbn [modify lift_out]. by cbn.
Qed.

(** X11: the model factory's [from_finetuned], given such a config among
    its options, delegates to the model class's [from_finetuned] with the
    location, the backbone and the positional arguments as given and with
    the options without [config]; the artifact loader is not called by the
    factory itself. *)
Theorem X11_from_finetuned_dispatches_to_model_class
    w K cn mn m c mc fields location backbone model_args kwargs :
  dispatchable env w K cn mn m c mc ->
  kwargs !! "config" = Some (VInst c fields) ->
  cls_kind c = DeltaConfigKind ->
  let r := AutoDeltaModel.from_finetuned env (S fuel) location backbone
             model_args kwargs w in
  fst r = class_from_finetuned env mc location backbone model_args
            (delete "config" kwargs) /\
  ext_calls (snd r)
  = ext_calls w ++ [Call_model_from_finetuned mc location backbone model_args
                      (delete "config" kwargs)].
Proof.
  intros Hd Hc Hkind. cbv zeta.
  destruct (dispatchable_lookup w K cn mn m c mc fields Hd)
    as (ks & s1 & Hkeys & Hin & Hget).
  unfold AutoDeltaModel.from_finetuned.
  cbv zeta. rewrite Hc. cbn [default from_option]. unfold id.
  cbn [isinstance_BaseDeltaConfig]. rewrite bool_decide_eq_true_2 by done.
  cbn [negb]. rewrite bind_run. cbn [ret].
  rewrite bind_run, cls_getattr_delta. cbn [AutoDeltaModel.mapping_keys].
  rewrite bind_run, on_delta_run, Hkeys. cbn [fst snd]. rewrite Hin.
  rewrite bind_run. unfold AutoDeltaModel.model_class_for. cbn [type_of].
  rewrite bind_run, cls_getattr_delta. cbn [AutoDeltaModel.mapping_getitem].
  rewrite bind_run, on_delta_run, delta_state_with_delta, Hget.
  cbn [fst snd ret]. unfold call_from_finetuned. rewrite bind_run.
  cbn [modify lift_out]. by cbn.
Qed.
End ModelDispatch.

Lemma lora_world_delta_mapping :
  LAZY_DELTA_MAPPING lora_world = LAZY_DELTA_MAPPING init_world.
Proof. vm_compute. reflexivity. Qed.

Lemma lora_world_resolvable : delta_resolvable demo_env (delta_state lora_world).
Proof.
  intros K n. unfold delta_state. cbn [fst snd].
  rewrite lora_world_delta_mapping.
  cbn [init_world LAZY_DELTA_MAPPING _LazyAutoMapping.__init__
         _LazyAutoMapping._config_mapping _LazyAutoMapping._model_mapping
         DELTA_CONFIG_MAPPING DELTA_MODEL_MAPPING app].
  intros Hin.
  repeat (apply elem_of_cons in Hin as [Heq|Hin];
          [injection Heq as -> ->; vm_compute; reflexivity|]).
  by apply elem_of_nil in Hin.
Qed.

Lemma lora_world_dispatchable :
  dispatchable demo_env lora_world "lora" "LoraConfig" "LoraModel"
    lora_module LoraConfig0 LoraModel0.
Proof.
  unfold dispatchable. rewrite lora_world_delta_mapping.
  split; [reflexivity|].
  split; [apply DELTA_CONFIG_MAPPING_names_distinct|].
  split.
  { intros K m. unfold delta_state. cbn [fst].
    rewrite lora_world_delta_mapping. discriminate. }
  split; [apply lora_world_resolvable|].
  split; [apply list_elem_of_here|].
  split; [reflexivity|].
  split; [vm_compute; reflexivity|].
  repeat split; reflexivity.
Qed.

Lemma X10_from_config_witness :
  fst (AutoDeltaModel.from_config demo_env 1 (VInst LoraConfig0 ∅) VNone ∅
         lora_world)
  = class_from_config demo_env LoraModel0 (VInst LoraConfig0 ∅) VNone ∅.
Proof.
  destruct (X10_from_config_dispatches_to_model_class demo_env 0 lora_world
              "lora" "LoraConfig" "LoraModel" lora_module LoraConfig0
              LoraModel0 ∅ VNone ∅ lora_world_dispatchable) as (H & _).
  exact H.
Defined.

Lemma X11_from_finetuned_witness :
  fst (AutoDeltaModel.from_finetuned demo_env 1 "hub/x" VNone []
         (<["config" := VInst LoraConfig0 ∅]> ∅) lora_world)
  = class_from_finetuned demo_env LoraModel0 "hub/x" VNone []
      (delete "config" (<["config" := VInst LoraConfig0 ∅]> ∅)).
Proof.
  destruct (X11_from_finetuned_dispatches_to_model_class demo_env 0 lora_world
              "lora" "LoraConfig" "LoraModel" lora_module LoraConfig0
              LoraModel0 ∅ "hub/x" VNone []
              (<["config" := VInst LoraConfig0 ∅]> ∅)
              lora_world_dispatchable (lookup_insert_eq _ _ _) eq_refl)
    as (H & _).
  exact H.
Defined.

(** ** The model registry: registration, membership, [get] *)

Section ModelRegistration.
Import _LazyAutoMapping.
Context (env : Env) (fuel : nat).
Implicit Types (s : St) (key value : PyClass).

Lemma model_register_builtin key value s :
  builtin_config s key ->
  exists msg, register key value s = (Raise (ValueError msg), s).
Proof.
  intros (K & Hr & Hin). unfold register. rewrite bind_run. cbn [get].
  rewrite Hr, bool_decide_eq_true_2 by done. eauto.
Qed.

Lemma model_register_fresh key value s :
  ~ builtin_config s key ->
  register key value s = (Ret tt, set_extra key value s).
Proof.
  intros Hn. unfold register. rewrite bind_run. cbn [get].
  destruct (dict_get (_reverse_config_mapping (fst s)) (cls_name key))
    as [K|] eqn:Hr; [|reflexivity].
  rewrite bool_decide_eq_false_2; [reflexivity|].
  intros Hin. apply Hn. by exists K.
Qed.

Lemma builtin_config_dec key s : builtin_config s key \/ ~ builtin_config s key.
Proof.
  unfold builtin_config.
  destruct (dict_get (_reverse_config_mapping (fst s)) (cls_name key))
    as [K|] eqn:Hr.
  - destruct (decide (K ∈ dict_keys (_model_mapping (fst s)))) as [Hin|Hn].
    + left. by exists K.
    + right. intros (K' & [= <-] & Hin). done.
  - right. intros (K' & ? & _). discriminate.
Qed.

(** X12: the model registry refuses a config class exactly when its name
    is the config name of a built-in key that has a model, and then
    changes nothing.  Any other class is registered, and from then on a
    lookup of that class returns the registered value without any import,
    and [contains] accepts it. *)
Theorem X12_model_register_round_trip key value s :
  ((exists msg, fst (register key value s) = Raise (ValueError msg))
   <-> builtin_config s key) /\
  (builtin_config s key -> snd (register key value s) = s) /\
  (~ builtin_config s key ->
   exists s',
     register key value s = (Ret tt, s') /\
     __getitem__ env fuel key s' = (Ret (RObj value), s') /\
     __contains__ key s' = (Ret true, s') /\
     snd s' = snd s).
Proof.
  split; [split|split].
  - intros [msg Hm]. destruct (builtin_config_dec key s) as [Hb|Hn]; [done|].
    rewrite (model_register_fresh key value s Hn) in Hm. discriminate.
  - intros Hb. destruct (model_register_builtin key value s Hb) as [msg ->].
    eauto.
  - intros Hb. by destruct (model_register_builtin key value s Hb) as [msg ->].
  - intros Hn. exists (set_extra key value s).
    split; [by apply model_register_fresh|].
    split; [|split; [|done]].
    + unfold __getitem__. rewrite bind_run.
      cbn [get fst set_extra _extra_content]. by rewrite dict_get_set_eq.
    + unfold __contains__. rewrite bind_run.
      cbn [get fst set_extra _extra_content]. unfold dict_mem.
      by rewrite dict_get_set_eq.
Qed.
End ModelRegistration.

Section ModelMissing.
Import _LazyAutoMapping.
Context (env : Env) (fuel : nat).
Implicit Types (s : St) (c : PyClass).




End ModelMissing.

(** ** [get_values] and attribute resolution *)

Lemma get_values_loop_classes_aux (l acc : list AttrVal) :
  Forall (fun x => exists c, x = RObj c) l ->
  fold_left (fun result model =>
               match model with
               | RTuple t => result ++ t
               | _ => result ++ [model]
               end) l acc = acc ++ l.
Proof.
  intros Hall. revert acc. induction Hall as [|x l [c ->] _ IH]; intros acc.
  - by rewrite app_nil_r.
  - cbn [fold_left]. rewrite IH. by rewrite <- app_assoc.
Qed.

Section GetValues.
Context (env : Env) (fuel : nat).

Lemma model_values_run s :
  _LazyAutoMapping_views.values env fuel s =
  match mapM (fun kn => _LazyAutoMapping._load_attr_from_module env fuel
                          (fst kn) (snd kn))
          (filter (fun kn => fst kn ∈ dict_keys
                               (_LazyAutoMapping._config_mapping (fst s)))
             (_LazyAutoMapping._model_mapping (fst s))) s with
  | (Ret mapping_values, s') =>
      (Ret (mapping_values
            ++ map RObj (dict_values
                           (_LazyAutoMapping._extra_content (fst s')))), s')
  | (Raise e, s') => (Raise e, s')
  | (OutOfFuel, s') => (OutOfFuel, s')
  end.
Proof.
  unfold _LazyAutoMapping_views.values. rewrite bind_run. cbn [get].
  rewrite bind_run. destruct (mapM _ _ s) as [[mv|e|] s']; reflexivity.
Qed.

Lemma model_values_classes s vs s' :
  _LazyAutoMapping_views.values env fuel s = (Ret vs, s') ->
  Forall (fun x => exists c, x = RObj c) vs.
Proof.
  rewrite model_values_run.
  destruct (mapM _ _ s) as [[mv|e|] s1] eqn:Hm; [|discriminate|discriminate].
  intros [= <- <-]. apply Forall_app. split.
  - eapply (mapM_Forall _
              (fun kn => _LazyAutoMapping._load_attr_from_module env fuel
                           (fst kn) (snd kn))
              (fun x s v s1 H =>
                 proj1 (load_attr_stable env fuel (fst x) (snd x) s v s1 H))),
      Hm.
  - apply Forall_forall. intros x Hx.
    apply list_elem_of_fmap in Hx as (c & -> & _). by exists c.
Qed.

(** X14: the tables of the registry hold names, so every value of the
    registry is a single class and [get_values] has nothing to flatten: it
    returns what [values] returns, and fails as [values] fails. *)
Theorem X14_get_values_is_values s :
  get_values env fuel s = _LazyAutoMapping_views.values env fuel s.
Proof.
  unfold get_values. rewrite bind_run.
  destruct (_LazyAutoMapping_views.values env fuel s) as [[vs|e|] s'] eqn:Hv;
    [|reflexivity|reflexivity].
  cbn [ret]. unfold get_values_loop.
  rewrite get_values_loop_classes_aux by (by eapply model_values_classes).
  reflexivity.
Qed.
End GetValues.

Section AttributeResolution.
Context (env : Env).

(** X15: an attribute that the module binds is taken from the module,
    whatever [transformers] binds, and nothing is imported.  An attribute
    that the module lacks and [transformers] binds is taken from
    [transformers], after one import request for it. *)
Theorem X15_module_attribute_before_transformers fuel m a st :
  (hasattr m a = true ->
   exists c,
     dict_get (mod_attrs m) a = Some c /\
     getattribute_from_module env (S fuel) m (AName a) st = (Ret (RObj c), st)) /\
  (hasattr m a = false ->
   module_defines env st "transformers" a = true ->
   exists tm c,
     dict_get (sys_modules (snd (getattribute_from_module env (S (S fuel)) m
                                    (AName a) st))) "transformers" = Some tm /\
     dict_get (mod_attrs tm) a = Some c /\
     fst (getattribute_from_module env (S (S fuel)) m (AName a) st)
     = Ret (RObj c) /\
     import_calls (snd (getattribute_from_module env (S (S fuel)) m
                          (AName a) st))
     = import_calls st ++ ["transformers"]).
Proof.
  split; [apply getattribute_present|].
  intros Ha Hd.
  destruct (getattribute_fallback env fuel m a st Ha Hd) as (tm & c & H1 & H2 & H3).
  exists tm, c. split; [done|]. split; [done|]. split; [done|].
  clear H1 H3.
  destruct (import_module_defines env "transformers" "" st a Hd)
    as (tm' & Hr & Hta & _).
  pose proof (import_module_logged env "transformers" "" st) as Hlog.
  cbn [getattribute_from_module]. rewrite Ha, bind_run.
  destruct (import_module env "transformers" "" st) as [o st1].
  cbn [fst snd] in Hr, Hlog. subst o. rewrite Hta, bind_run.
  destruct (hasattr_getattr tm' a st1 Hta) as (c' & _ & ->). exact Hlog.
Qed.

(** X16: a tuple of names that the module binds resolves to the tuple of
    the bound classes, in the same order, and nothing is imported. *)
Theorem X16_tuple_resolves_elementwise fuel m (names : list string) st :
  Forall (fun a => hasattr m a = true) names ->
  exists cs,
    Forall2 (fun a c => dict_get (mod_attrs m) a = Some c) names cs /\
    getattribute_from_module env (S (S fuel)) m (ATuple (map AName names)) st
    = (Ret (RTuple (map RObj cs)), st).
Proof.
  intros Hall.
  assert (Hm : exists cs,
            Forall2 (fun a c => dict_get (mod_attrs m) a = Some c) names cs /\
            mapM (getattribute_from_module env (S fuel) m) (map AName names) st
            = (Ret (map RObj cs), st)).
  { induction Hall as [|a names Ha _ (cs & Hcs & Hrun)].
    - exists []. split; [constructor | reflexivity].
    - destruct (getattribute_present env fuel m a st Ha) as (c & Hc & Hg).
      exists (c :: cs). split; [by constructor|].
      cbn [map mapM]. by rewrite bind_run, Hg, bind_run, Hrun. }
  destruct Hm as (cs & Hcs & Hrun). exists cs. split; [done|].
  by rewrite getattribute_tuple, Hrun.
Qed.
End AttributeResolution.

Lemma X16_tuple_witness :
  getattribute_from_module demo_env 2 lora_module
    (ATuple [AName "LoraModel"; AName "LoraConfig"]) init_interp
  = (Ret (RTuple [RObj LoraModel0; RObj LoraConfig0]), init_interp).
Proof.
  destruct (X16_tuple_resolves_elementwise demo_env 0 lora_module
              ["LoraModel"; "LoraConfig"] init_interp) as (cs & Hcs & Hrun).
  { repeat constructor. }
  cbn [map] in Hrun. rewrite Hrun.
  apply Forall2_cons_inv_l in Hcs as (c1 & cs1 & H1 & Hcs & ->).
  apply Forall2_cons_inv_l in Hcs as (c2 & cs2 & H2 & Hcs & ->).
  apply Forall2_nil_inv_l in Hcs as ->.
  cbn in H1, H2. injection H1 as <-. injection H2 as <-. reflexivity.
Defined.

Lemma X9_model_registry_witness :
  exists c s1,
    _LazyAutoMapping._load_attr_from_module demo_env 1 "lora" "LoraModel"
      (delta_state init_world) = (Ret (RObj c), s1) /\
    _LazyAutoMapping._load_attr_from_module demo_env 1 "lora" "LoraModel" s1
    = (Ret (RObj c), s1) /\
    import_calls (snd s1)
    = import_calls (snd (delta_state init_world))
      ++ match dict_get (_LazyAutoMapping._modules
                           (fst (delta_state init_world))) "lora" with
         | Some _ => []
         | None => [delta_module "lora"]
         end.
Proof.
  apply (X9_model_registry_imports_once demo_env 0 (delta_state init_world)
           "lora" "LoraModel").
  - intros K m. discriminate.
  - vm_compute. reflexivity.
Defined.

(** ** The model factory builds the config it was not given *)

Section ModelFromArtifact.
Context (env : Env) (fuel : nat).

(** X17: without a config among its options (or with one that is no
    delta config) the model factory's [from_finetuned] asks the config
    factory's [from_finetuned] for one, passing the remaining options and
    [return_unused_kwargs=True].  An option [return_unused_kwargs] of the
    caller's own is a [TypeError] before anything is loaded.  Otherwise an
    error of the config factory is the error of the model factory, and a
    config it returns selects the model class, whose [from_finetuned]
    receives the options the config factory returned as unused. *)
Theorem X17_from_finetuned_builds_missing_config
    w location backbone model_args kwargs :
  isinstance_BaseDeltaConfig (default VNone (kwargs !! "config")) = false ->
  let built := AutoDeltaConfig.from_finetuned env location
                 (<["return_unused_kwargs" := VBool true]>
                    (delete "config" kwargs)) w in
  (kwargs !! "return_unused_kwargs" <> None ->
   exists msg,
     AutoDeltaModel.from_finetuned env fuel location backbone model_args
       kwargs w = (Raise (TypeError msg), w)) /\
  (kwargs !! "return_unused_kwargs" = None ->
   (forall e,
      fst built = Raise e ->
      AutoDeltaModel.from_finetuned env fuel location backbone model_args
        kwargs w = (Raise e, snd built)) /\
   (forall K cn mn m c mc fields rest,
      fst built = Ret (VTuple [VInst c fields; VDict rest]) ->
      dispatchable env (snd built) K cn mn m c mc ->
      let r := AutoDeltaModel.from_finetuned env (S fuel) location backbone
                 model_args kwargs w in
      fst r = class_from_finetuned env mc location backbone model_args rest /\
      ext_calls (snd r)
      = ext_calls (snd built)
        ++ [Call_model_from_finetuned mc location backbone model_args rest])).
Proof.
  intros Hinst. cbv zeta. split.
  - intros Hsome. eexists.
    unfold AutoDeltaModel.from_finetuned. cbv zeta. rewrite Hinst.
    cbn [negb]. rewrite lookup_delete_ne by done.
    destruct (kwargs !! "return_unused_kwargs") as [v|]; [|done].
    rewrite bind_run. reflexivity.
  - intros Hnone. split.
    + intros e He.
      unfold AutoDeltaModel.from_finetuned. cbv zeta. rewrite Hinst.
      cbn [negb]. rewrite lookup_delete_ne by done. rewrite Hnone.
      rewrite bind_run, bind_run.
      destruct (AutoDeltaConfig.from_finetuned env location _ w) as [o w1].
      cbn [fst snd] in *. by subst o.
    + intros K cn mn m c mc fields rest Hret Hd.
      destruct (dispatchable_lookup env fuel _ K cn mn m c mc fields Hd)
        as (ks & s1 & Hkeys & Hin & Hget).
      unfold AutoDeltaModel.from_finetuned. cbv zeta. rewrite Hinst.
      cbn [negb]. rewrite lookup_delete_ne by done. rewrite Hnone.
      rewrite bind_run, bind_run.
      destruct (AutoDeltaConfig.from_finetuned env location _ w) as [o w1].
      cbn [fst snd] in *. subst o.
      cbn [AutoDeltaModel.unpack_config ret].
      rewrite bind_run, cls_getattr_delta. cbn [AutoDeltaModel.mapping_keys].
      rewrite bind_run, on_delta_run, Hkeys. cbn [fst snd]. rewrite Hin.
      rewrite bind_run. unfold AutoDeltaModel.model_class_for. cbn [type_of].
      rewrite bind_run, cls_getattr_delta. cbn [AutoDeltaModel.mapping_getitem].
      rewrite bind_run, on_delta_run, delta_state_with_delta, Hget.
      cbn [fst snd ret]. unfold call_from_finetuned. rewrite bind_run.
      cbn [modify lift_out]. by cbn.
Qed.
End ModelFromArtifact.

Lemma typed_artifact_built :
  fst (AutoDeltaConfig.from_finetuned demo_env "hub/typed"
         (<["return_unused_kwargs" := VBool true]> (delete "config" ∅))
         init_world)
  = Ret (VTuple [VInst LoraConfig0 typed_mapping;
                 VDict (<["name_or_path" := VStr "hub/typed"]> ∅)]).
Proof. vm_compute. reflexivity. Qed.

Lemma typed_artifact_dispatchable :
  dispatchable demo_env
    (snd (AutoDeltaConfig.from_finetuned demo_env "hub/typed"
            (<["return_unused_kwargs" := VBool true]> (delete "config" ∅))
            init_world))
    "lora" "LoraConfig" "LoraModel" lora_module LoraConfig0 LoraModel0.
Proof.
  assert (Hm : LAZY_DELTA_MAPPING
                 (snd (AutoDeltaConfig.from_finetuned demo_env "hub/typed"
                         (<["return_unused_kwargs" := VBool true]>
                            (delete "config" ∅)) init_world))
               = LAZY_DELTA_MAPPING lora_world)
    by (vm_compute; reflexivity).
  assert (Hi : interp
                 (snd (AutoDeltaConfig.from_finetuned demo_env "hub/typed"
                         (<["return_unused_kwargs" := VBool true]>
                            (delete "config" ∅)) init_world))
               = interp lora_world)
    by (vm_compute; reflexivity).
  pose proof lora_world_dispatchable as Hd.
  unfold dispatchable, delta_state in *. rewrite Hm, Hi. exact Hd.
Qed.

Lemma X17_from_finetuned_witness :
  fst (AutoDeltaModel.from_finetuned demo_env 1 "hub/typed" VNone [] ∅
         init_world)
  = class_from_finetuned demo_env LoraModel0 "hub/typed" VNone []
      (<["name_or_path" := VStr "hub/typed"]> ∅).
Proof.
  assert (Hc : isinstance_BaseDeltaConfig
                 (default VNone ((∅ : Dict) !! "config")) = false)
    by (rewrite lookup_empty; reflexivity).
  destruct (X17_from_finetuned_builds_missing_config demo_env 0 init_world
              "hub/typed" VNone [] ∅ Hc) as [_ H].
  destruct (H (lookup_empty _)) as [_ H2].
  destruct (H2 "lora" "LoraConfig" "LoraModel" lora_module LoraConfig0
              LoraModel0 typed_mapping
              (<["name_or_path" := VStr "hub/typed"]> ∅)
              typed_artifact_built typed_artifact_dispatchable) as [H3 _].
  exact H3.
Defined.

(** ** The three enumerations of the model registry *)

Lemma filter_keeps_all {A} (P : A -> Prop) `{!forall x, Decision (P x)}
    (l : list A) :
  Forall P l -> filter P l = l.
Proof.
  induction 1 as [|x l Hx _ IH]; [reflexivity|].
  by rewrite filter_cons_True, IH.
Qed.

Lemma dict_get_distinct (d : list (string * string)) k v :
  NoDup (map fst d) -> (k, v) ∈ d -> dict_get d k = Some v.
Proof.
  intros Hnd Hin.
  destruct (dict_keys_get d k) as (v' & Hv').
  { by apply (list_elem_of_fmap_2 fst _ (k, v)). }
  rewrite Hv'. f_equal.
  eapply NoDup_fst_functional; [done | by apply dict_get_elem | done].
Qed.

Lemma zip_extra_content (e : list (PyClass * PyClass)) :
  zip (map RObj (dict_keys e)) (map RObj (dict_values e))
  = map (fun kv => (RObj (fst kv), RObj (snd kv))) e.
Proof.
  induction e as [|[k v] e IH]; [reflexivity|].
  cbn [dict_keys dict_values map zip zip_with fst snd].
  f_equal. exact IH.
Qed.

Section Enumerations.
Context (env : Env) (fuel : nat).

Lemma model_items_run n s :
  _LazyAutoMapping_views.items env n s =
  match mapM (fun key =>
                let* config_name :=
                  _LazyAutoMapping_views.table_get
                    (_LazyAutoMapping._config_mapping (fst s)) key in
                let* c := _LazyAutoMapping._load_attr_from_module env n
                            key config_name in
                let* model_name :=
                  _LazyAutoMapping_views.table_get
                    (_LazyAutoMapping._model_mapping (fst s)) key in
                let* m := _LazyAutoMapping._load_attr_from_module env n
                            key model_name in
                ret (c, m))
          (filter (fun key => key ∈ dict_keys
                                (_LazyAutoMapping._config_mapping (fst s)))
             (dict_keys (_LazyAutoMapping._model_mapping (fst s)))) s with
  | (Ret mapping_items, s') =>
      (Ret (mapping_items
            ++ map (fun kv => (RObj (fst kv), RObj (snd kv)))
                 (_LazyAutoMapping._extra_content (fst s'))), s')
  | (Raise e, s') => (Raise e, s')
  | (OutOfFuel, s') => (OutOfFuel, s')
  end.
Proof.
  unfold _LazyAutoMapping_views.items. rewrite bind_run. cbn [get].
  rewrite bind_run. destruct (mapM _ _ s) as [[mv|e|] s']; reflexivity.
Qed.

Lemma items_loop_ok (C Mo : list (string * string)) (L : list string) s :
  modules_synced s ->
  (forall K n, (K, n) ∈ C ++ Mo ->
     module_defines env (snd s) (delta_module K) n = true) ->
  Forall (fun K => K ∈ dict_keys C /\ K ∈ dict_keys Mo) L ->
  exists its s',
    mapM (fun key =>
            let* config_name := _LazyAutoMapping_views.table_get C key in
            let* c := _LazyAutoMapping._load_attr_from_module env (S fuel)
                        key config_name in
            let* model_name := _LazyAutoMapping_views.table_get Mo key in
            let* m := _LazyAutoMapping._load_attr_from_module env (S fuel)
                        key model_name in
            ret (c, m)) L s
    = (Ret its, s') /\
    Forall2 (item_of C Mo s') L its /\
    cache_ext s s'.
Proof.
  intros Hsync Hres HL. revert s Hsync Hres.
  induction HL as [|K L [HC HM] _ IH]; intros s Hsync Hres.
  - exists [], s. split; [done|]. split; [constructor | apply cache_ext_refl].
  - destruct (dict_keys_get C K HC) as (cn & Hcn).
    destruct (dict_keys_get Mo K HM) as (mn & Hmn).
    destruct (load_ok env fuel s K cn Hsync)
      as (c & s1 & Hrun1 & Hb1 & Hs1 & He1 & Hd1 & _).
    { apply Hres, elem_of_app. left. by apply dict_get_elem. }
    destruct (load_ok env fuel s1 K mn Hs1)
      as (m & s2 & Hrun2 & Hb2 & Hs2 & He2 & Hd2 & _).
    { apply Hd1, Hres, elem_of_app. right. by apply dict_get_elem. }
    destruct (IH s2 Hs2) as (its & s3 & Hrun3 & Hall & He3).
    { intros K' n Hin. by apply Hd2, Hd1, Hres. }
    exists ((RObj c, RObj m) :: its), s3.
    cbn [mapM]. rewrite bind_run, bind_run.
    unfold _LazyAutoMapping_views.table_get at 1. rewrite Hcn. cbn [ret].
    rewrite bind_run, Hrun1, bind_run.
    unfold _LazyAutoMapping_views.table_get at 1. rewrite Hmn. cbn [ret].
    rewrite bind_run, Hrun2. cbn [ret]. rewrite bind_run, Hrun3.
    split; [done|]. split.
    + constructor; [|done]. exists cn, mn, c, m.
      split; [done|]. split; [done|]. split; [done|]. split.
      * by eapply bound_kept, bound_kept.
      * by eapply bound_kept.
    + eapply cache_ext_trans; [|done]. by eapply cache_ext_trans.
Qed.

Lemma items_aligned (gC gM : string -> option string) s
    (C Mo : list (string * string)) cs ms its :
  map fst C = map fst Mo ->
  Forall (fun kn => gC (fst kn) = Some (snd kn)) C ->
  Forall (fun kn => gM (fst kn) = Some (snd kn)) Mo ->
  Forall2 (fun kn c => bound s (fst kn) (snd kn) c) C cs ->
  Forall2 (fun kn c => bound s (fst kn) (snd kn) c) Mo ms ->
  Forall2 (fun K p =>
             exists cn mn c m,
               gC K = Some cn /\ gM K = Some mn /\
               p = (RObj c, RObj m) /\ bound s K cn c /\ bound s K mn m)
    (map fst Mo) its ->
  its = zip (map RObj cs) (map RObj ms).
Proof.
  revert Mo cs ms its.
  induction C as [|[K cn] C IH]; intros Mo cs ms its Hk HgC HgM HC HM HI.
  - destruct Mo as [|? ?]; [|discriminate].
    apply Forall2_nil_inv_l in HC as ->. cbn [map] in HI.
    by apply Forall2_nil_inv_l in HI as ->.
  - destruct Mo as [|[K' mn] Mo]; [discriminate|].
    cbn [map fst] in Hk. injection Hk as <- Hk.
    apply Forall_cons in HgC as [HgK HgC].
    apply Forall_cons in HgM as [HgK' HgM].
    apply Forall2_cons_inv_l in HC as (c & cs' & Hc & HC & ->).
    apply Forall2_cons_inv_l in HM as (m & ms' & Hm & HM & ->).
    cbn [map fst] in HI.
    apply Forall2_cons_inv_l in HI
      as (p & its' & (cn' & mn' & c' & m' & E1 & E2 & -> & B1 & B2) & HI & ->).
    cbn [fst snd] in *.
    assert (cn' = cn) as -> by congruence.
    assert (mn' = mn) as -> by congruence.
    rewrite (bound_functional _ _ _ _ _ B1 Hc).
    rewrite (bound_functional _ _ _ _ _ B2 Hm).
    cbn [map zip zip_with]. f_equal. by apply (IH Mo).
Qed.

(** X18: when the two tables of the model registry have the same keys in
    the same order, without repetition, and every entry resolves, the
    three enumerations agree: [items()] is the list of pairs of the
    elements of [keys()] and [values()], position by position. *)
Theorem X18_items_pair_keys_with_values s :
  modules_synced s ->
  delta_resolvable env s ->
  dict_keys (_LazyAutoMapping._config_mapping (fst s))
  = dict_keys (_LazyAutoMapping._model_mapping (fst s)) ->
  NoDup (dict_keys (_LazyAutoMapping._config_mapping (fst s))) ->
  exists ks vs s1 s2 s3,
    _LazyAutoMapping.keys env (S fuel) s = (Ret ks, s1) /\
    _LazyAutoMapping_views.values env (S fuel) s1 = (Ret vs, s2) /\
    _LazyAutoMapping_views.items env (S fuel) s2 = (Ret (zip ks vs), s3) /\
    length ks = length vs.
Proof.
  intros Hsync Hres Hkeys Hnd.
  set (C := _LazyAutoMapping._config_mapping (fst s)) in *.
  set (Mo := _LazyAutoMapping._model_mapping (fst s)) in *.
  destruct (model_keys_ok env fuel s Hsync Hres)
    as (cs & s1 & Hk & Hall1 & Hs1 & He1 & Hr1).
  fold C Mo in Hall1.
  rewrite filter_keeps_all in Hall1.
  2:{ apply Forall_forall. intros [K n] Hin. cbn [fst]. rewrite <- Hkeys.
      by apply (list_elem_of_fmap_2 fst _ (K, n)). }
  pose proof He1 as (E1c & E1m & E1e & _).
  fold C in E1c. fold Mo in E1m.
  destruct (loads_ok env fuel Mo s1 Hs1) as (ms & s2 & Hv & Hall2 & Hs2 & He2 & Hd2).
  { intros [K n] Hin. apply Hr1. rewrite E1c, E1m. apply elem_of_app. by right. }
  pose proof He2 as (E2c & E2m & E2e & _).
  destruct (items_loop_ok C Mo (dict_keys Mo) s2 Hs2) as (its & s3 & Hi & Hall3 & He3).
  { intros K n Hin. apply Hd2, Hr1. by rewrite E1c, E1m. }
  { apply Forall_forall. intros K HK. split; [by rewrite Hkeys | done]. }
  pose proof He3 as (_ & _ & E3e & _).
  assert (Hlen : length cs = length ms).
  { rewrite <- (Forall2_length _ _ _ Hall1), <- (Forall2_length _ _ _ Hall2).
    unfold dict_keys in Hkeys.
    by rewrite <- (length_map fst C), Hkeys, length_map. }
  exists (map RObj cs
          ++ map RObj (dict_keys (_LazyAutoMapping._extra_content (fst s)))),
         (map RObj ms
          ++ map RObj (dict_values (_LazyAutoMapping._extra_content (fst s)))),
         s1, s2, s3.
  split; [exact Hk|]. split.
  { rewrite model_values_run, E1c, E1m. fold C Mo.
    rewrite filter_keeps_all.
    2:{ apply Forall_forall. intros [K n] Hin. cbn [fst]. rewrite Hkeys.
        by apply (list_elem_of_fmap_2 fst _ (K, n)). }
    by rewrite Hv, E2e, E1e. }
  split.
  { rewrite model_items_run, E2c, E2m, E1c, E1m. fold C Mo.
    rewrite filter_keeps_all.
    2:{ apply Forall_forall. intros K HK. by rewrite Hkeys. }
    rewrite Hi, E3e, E2e, E1e. f_equal. f_equal.
    rewrite zip_with_app by (by rewrite !length_map).
    rewrite <- zip_extra_content. f_equal.
    apply (items_aligned (dict_get C) (dict_get Mo) s3 C Mo).
    - exact Hkeys.
    - apply Forall_forall. intros [K n] Hin. by apply dict_get_distinct.
    - apply Forall_forall. intros [K n] Hin. apply dict_get_distinct; [|done].
      unfold dict_keys in Hkeys. by rewrite <- Hkeys.
    - eapply Forall2_impl; [exact Hall1|]. intros kn c Hb.
      eapply bound_kept; [exact He3|]. by eapply bound_kept.
    - eapply Forall2_impl; [exact Hall2|]. intros kn c Hb. by eapply bound_kept.
    - exact Hall3. }
  unfold dict_keys, dict_values. by rewrite !length_app, !length_map, Hlen.
Qed.

(** X19: the truth value of a model registry whose entries resolve is
    false exactly when no key is in both tables and nothing is
    registered; computing it has the effects of [keys()] and leaves the
    process in the state that [keys()] leaves it in. *)
Theorem X19_bool_is_non_emptiness s :
  modules_synced s ->
  delta_resolvable env s ->
  exists b,
    _LazyAutoMapping_views.__bool__ env (S fuel) s
    = (Ret b, snd (_LazyAutoMapping.keys env (S fuel) s)) /\
    (b = false <->
     filter (fun kn => fst kn ∈ dict_keys
                         (_LazyAutoMapping._model_mapping (fst s)))
       (_LazyAutoMapping._config_mapping (fst s)) = [] /\
     _LazyAutoMapping._extra_content (fst s) = []).
Proof.
  intros Hsync Hres.
  destruct (model_keys_ok env fuel s Hsync Hres)
    as (cs & s1 & Hk & Hall1 & _).
  unfold _LazyAutoMapping_views.__bool__. rewrite bind_run, Hk. cbn [ret snd].
  eexists. split; [reflexivity|].
  apply Forall2_length in Hall1.
  destruct (filter _ _) as [|kn L]; destruct cs as [|c cs]; try discriminate.
  - cbn [map app].
    destruct (_LazyAutoMapping._extra_content (fst s)) as [|kv e]; cbn; split;
      try done. by intros [_ ?].
  - cbn [map app]. split; [done | by intros [? _]].
Qed.
End Enumerations.

Lemma init_delta_tables_aligned :
  dict_keys (_LazyAutoMapping._config_mapping (fst (delta_state init_world)))
  = dict_keys (_LazyAutoMapping._model_mapping (fst (delta_state init_world))).
Proof. reflexivity. Qed.

Lemma init_delta_synced : modules_synced (delta_state init_world).
Proof. intros K m. discriminate. Qed.

Lemma init_delta_resolvable :
  delta_resolvable demo_env (delta_state init_world).
Proof.
  intros K n. unfold delta_state. cbn [fst snd].
  cbn [init_world LAZY_DELTA_MAPPING _LazyAutoMapping.__init__
         _LazyAutoMapping._config_mapping _LazyAutoMapping._model_mapping
         DELTA_CONFIG_MAPPING DELTA_MODEL_MAPPING app].
  intros Hin.
  repeat (apply elem_of_cons in Hin as [Heq|Hin];
          [injection Heq as -> ->; vm_compute; reflexivity|]).
  by apply elem_of_nil in Hin.
Qed.

Lemma X18_items_witness :
  exists ks vs s1 s2 s3,
    _LazyAutoMapping.keys demo_env 1 (delta_state init_world) = (Ret ks, s1) /\
    _LazyAutoMapping_views.values demo_env 1 s1 = (Ret vs, s2) /\
    _LazyAutoMapping_views.items demo_env 1 s2 = (Ret (zip ks vs), s3) /\
    length ks = length vs.
Proof.
  apply (X18_items_pair_keys_with_values demo_env 0 (delta_state init_world)
           init_delta_synced init_delta_resolvable init_delta_tables_aligned).
  apply DELTA_CONFIG_MAPPING_keys_distinct.
Defined.

Lemma X19_bool_witness :
  exists b,
    _LazyAutoMapping_views.__bool__ demo_env 1 (delta_state init_world)
    = (Ret b, snd (_LazyAutoMapping.keys demo_env 1 (delta_state init_world))) /\
    (b = false <->
     filter (fun kn => fst kn ∈ dict_keys
                         (_LazyAutoMapping._model_mapping
                            (fst (delta_state init_world))))
       (_LazyAutoMapping._config_mapping (fst (delta_state init_world))) = [] /\
     _LazyAutoMapping._extra_content (fst (delta_state init_world)) = []).
Proof.
  apply (X19_bool_is_non_emptiness demo_env 0 (delta_state init_world)
           init_delta_synced init_delta_resolvable).
Defined.

(** ** Instances in the concrete installation *)

Lemma MyConfig_not_builtin : ~ builtin_config (delta_state init_world) MyConfig.
Proof. intros (K & H & _). vm_compute in H. discriminate. Qed.

Lemma X12_model_register_witness :
  exists s',
    _LazyAutoMapping.register MyConfig LoraModel0 (delta_state init_world)
    = (Ret tt, s') /\
    _LazyAutoMapping.__getitem__ demo_env 0 MyConfig s'
    = (Ret (RObj LoraModel0), s') /\
    _LazyAutoMapping.__contains__ MyConfig s' = (Ret true, s') /\
    snd s' = snd (delta_state init_world).
Proof.
  exact (proj2 (proj2 (X12_model_register_round_trip demo_env 0 MyConfig
                         LoraModel0 (delta_state init_world)))
           MyConfig_not_builtin).
Defined.


Lemma X15_fallback_witness :
  exists tm c,
    dict_get (sys_modules (snd (getattribute_from_module demo_env 2 lora_module
                                  (AName "AutoModel") init_interp)))
      "transformers" = Some tm /\
    dict_get (mod_attrs tm) "AutoModel" = Some c /\
    fst (getattribute_from_module demo_env 2 lora_module (AName "AutoModel")
           init_interp) = Ret (RObj c) /\
    import_calls (snd (getattribute_from_module demo_env 2 lora_module
                         (AName "AutoModel") init_interp))
    = import_calls init_interp ++ ["transformers"].
Proof.
  assert (H1 : hasattr lora_module "AutoModel" = false)
    by (vm_compute; reflexivity).
  assert (H2 : module_defines demo_env init_interp "transformers" "AutoModel"
               = true) by (vm_compute; reflexivity).
  exact (proj2 (X15_module_attribute_before_transformers demo_env 0 lora_module
                  "AutoModel" init_interp) H1 H2).
Defined.
